(** * Video transcoding and segmentation engine: a shallow embedding

    The definitions below follow [app/services/video_service.py] function by
    function and keep its names.

    Modelling conventions.
    - A Python [float] that is only read and handed on (the duration that
      ffprobe prints, which [get_video_info] reports and [split_video] hands
      to the planner and then to the commands) is the exact rational ([Q])
      that its text denotes; equality of such numbers is [Qeq] ([==]).
    - Where the code computes with floats and compares or rounds the outcome
      (the split planner, the bitrate of the target-size compression, the
      size estimate), the definition is written against the interface
      [PyFloat] and runs in two arithmetics: exact rationals, and IEEE
      binary64 numbers (Rocq's primitive floats), which is what Python
      computes with.  In binary64 a number read by [float(s)] is the float
      nearest to the decimal that [s] denotes ([float_of_decimal]).
    - [x ** 2] is handed by Python to the [pow] of the C library, whose
      rounding no standard fixes; it is a parameter ([PyPow]).
    - A Python [int] is [Z]; a [str] is [string]; a [Path] is the string that
      [str(path)] gives, except for the input video whose [stem] and [suffix]
      are kept apart (see [VideoPath]).
    - An exception is a value of [exn]; a call that may raise returns a
      [result].  Code that also touches the file system or starts a process
      runs in the monad [M], which threads the [World].
    - [subprocess.run] is a parameter ([Tool]): its answer and what it leaves
      at the output path are given per command. *)

From Stdlib Require Import QArith Qround Lqa ZArith Lia Ascii String List Bool.
From Stdlib Require Import Floats.PrimFloat Floats.SpecFloat Floats.FloatOps.
From Stdlib Require Import Floats.FloatAxioms Numbers.Cyclic.Int63.Uint63.
From stdpp Require Import base option list strings pretty gmap.

Local Open Scope string_scope.
Local Open Scope list_scope.
Local Open Scope Z_scope.

(** ** Exceptions and results *)

Inductive exn_kind :=
| ValueError
| RuntimeError
| ZeroDivisionError
| OverflowError
| TimeoutExpired
| FileNotFoundError
| JSONDecodeError
| HTTPException (status_code : Z)
| OtherException.

Record exn := Exn { exn_kind_of : exn_kind; exn_msg : string }.

Inductive result (A : Type) :=
| Ok (a : A)
| Raise (e : exn).
Arguments Ok {A} a.
Arguments Raise {A} e.

Global Instance result_ret : MRet result := fun _ a => Ok a.
Global Instance result_bind : MBind result := fun _ _ k r =>
  match r with
  | Ok a => k a
  | Raise e => Raise e
  end.

(** ** Numbers *)

(** [x / y] on floats. *)
Definition py_truediv (x y : Q) : result Q :=
  if Qeq_bool y 0 then Raise (Exn ZeroDivisionError "float division by zero")
  else Ok (x / y)%Q.

(** [n / m] on ints. *)
Definition py_int_truediv (n m : Z) : result Q :=
  if m =? 0 then Raise (Exn ZeroDivisionError "division by zero")
  else Ok (inject_Z n / inject_Z m)%Q.

(** [x // y] and [x % y] on floats.  Every use below has a non-zero literal
    as divisor, where Python cannot raise. *)
Definition py_floordiv (x y : Q) : Q := inject_Z (Qfloor (x / y)).
Definition py_mod (x y : Q) : Q := (x - y * inject_Z (Qfloor (x / y)))%Q.

(** [int(x)] for a float [x]: truncation towards zero. *)
Definition py_int (x : Q) : Z := Z.quot (Qnum x) (Zpos (Qden x)).

(** Rounding of an exact value to the nearest integer, ties to even. *)
Definition round_half_even (x : Q) : Z :=
  let f := Qfloor x in
  match ((x - inject_Z f) ?= 1 # 2)%Q with
  | Lt => f
  | Gt => f + 1
  | Eq => if Z.even f then f else f + 1
  end.

(** [round(x, ndigits)]. *)
Definition py_round (x : Q) (ndigits : nat) : Q :=
  let s := inject_Z (10 ^ Z.of_nat ndigits) in
  (inject_Z (round_half_even (x * s)) / s)%Q.

(** ** Strings *)

(** [f"{n}"] and [f"{n:02d}"] for an int. *)
Definition fmt_d (n : Z) : string := pretty n.
Definition fmt_02d (n : Z) : string :=
  if (0 <=? n) && (n <? 10) then "0" +:+ pretty n else pretty n.

Definition lower_ascii (c : ascii) : ascii :=
  let n := nat_of_ascii c in
  if (65 <=? n)%nat && (n <=? 90)%nat then ascii_of_nat (n + 32) else c.

(** [s.lower()], on the ASCII letters.  (No character outside ASCII lowers to
    a letter of the preset names, so the look-ups below are not affected.) *)
Fixpoint lower (s : string) : string :=
  match s with
  | EmptyString => EmptyString
  | String c s' => String (lower_ascii c) (lower s')
  end.

(** ** Float arithmetic *)

(** The float operations of the service.
    - [float_of_int i] is [float(i)] for an int that a float holds exactly:
      a literal, a part count, a part index;
    - [float_truediv], [float_mul], [float_sub], [float_ltb] are [x / y],
      [x * y], [x - y] and [x < y] on floats;
    - [float_of_decimal q] is the float that [float(s)] returns for a text
      [s] that denotes the decimal [q], and the value of the literal that
      is written [q];
    - [float_of_operand i] is the int [i] as the operand of a float
      operation ([OverflowError] when it is too large for a float);
    - [int_truediv n m] is [n / m] for two ints;
    - [float_truth x] is [bool(x)], [float_to_int x] is [int(x)] and
      [float_round x ndigits] is [round(x, ndigits)]. *)
Class PyFloat (F : Type) := {
  float_of_int : Z -> F;
  float_truediv : F -> F -> result F;
  float_mul : F -> F -> F;
  float_of_decimal : Q -> F;
  float_of_operand : Z -> result F;
  int_truediv : Z -> Z -> result F;
  float_sub : F -> F -> F;
  float_ltb : F -> F -> bool;
  float_truth : F -> bool;
  float_to_int : F -> result Z;
  float_round : F -> nat -> F
}.

(** [x ** n] for a float [x] and an int [n]. *)
Class PyPow (F : Type) := {
  float_pow : F -> Z -> result F
}.

(** Exact arithmetic. *)
Global Instance exact : PyFloat Q := {|
  float_of_int := inject_Z;
  float_truediv := py_truediv;
  float_mul := Qmult;
  float_of_decimal := fun q => q;
  float_of_operand := fun i => Ok (inject_Z i);
  int_truediv := py_int_truediv;
  float_sub := Qminus;
  float_ltb := fun x y => if Qlt_le_dec x y then true else false;
  float_truth := fun x => negb (Qeq_bool x 0);
  float_to_int := fun x => Ok (py_int x);
  float_round := py_round
|}.

Global Instance exact_pow : PyPow Q := {|
  float_pow := fun x n =>
    if (n <? 0) && Qeq_bool x 0
    then Raise (Exn ZeroDivisionError "0.0 cannot be raised to a negative power")
    else Ok (Qpower x n)
|}.

(** [float(i)] in binary64; exact for the ints below 2^53, hence for every
    part count and part index. *)
Definition b64_of_int (i : Z) : float :=
  match i with
  | Z0 => PrimFloat.zero
  | Zpos _ => PrimFloat.of_uint63 (Uint63.of_Z i)
  | Zneg p => PrimFloat.opp (PrimFloat.of_uint63 (Uint63.of_Z (Zpos p)))
  end.

(** [x / y] in binary64. *)
Definition b64_truediv (x y : float) : result float :=
  if PrimFloat.eqb y PrimFloat.zero
  then Raise (Exn ZeroDivisionError "float division by zero")
  else Ok (PrimFloat.div x y).

(** The binary64 number nearest to [n / d], or to its opposite when [neg]
    is set: a tie goes to the even mantissa, a quotient beyond the range to
    an infinity and one below it to a zero, of that sign. *)
Definition b64_of_ratio (neg : bool) (n d : positive) : float :=
  let '(m, e, l) := SFdiv_core_binary prec emax (Zpos n) 0 (Zpos d) 0 in
  SF2Prim (binary_round_aux prec emax neg m e l).

(** The binary64 number nearest to a rational. *)
Definition b64_of_Q (q : Q) : float :=
  match Qnum q with
  | Z0 => PrimFloat.zero
  | Zpos n => b64_of_ratio false n (Qden q)
  | Zneg n => b64_of_ratio true n (Qden q)
  end.

(** The value of a finite binary64 number; [None] for an infinity and for
    NaN. *)
Definition b64_to_Q (x : float) : option Q :=
  match Prim2SF x with
  | S754_zero _ => Some 0%Q
  | S754_finite s m e =>
      Some ((if s then - inject_Z (Zpos m) else inject_Z (Zpos m)) * Qpower 2 e)%Q
  | _ => None
  end.

(** An int as the operand of a float operation. *)
Definition b64_of_operand (i : Z) : result float :=
  let x := b64_of_Q (inject_Z i) in
  if PrimFloat.is_infinity x
  then Raise (Exn OverflowError "int too large to convert to float")
  else Ok x.

(** [n / m] for two ints: the quotient is rounded once. *)
Definition b64_int_truediv (n m : Z) : result float :=
  let neg := xorb (n <? 0) (m <? 0) in
  match m, n with
  | Z0, _ => Raise (Exn ZeroDivisionError "division by zero")
  | _, Z0 => Ok (if neg then PrimFloat.neg_zero else PrimFloat.zero)
  | (Zpos d | Zneg d), (Zpos a | Zneg a) =>
      let x := b64_of_ratio neg a d in
      if PrimFloat.is_infinity x
      then Raise (Exn OverflowError "integer division result too large for a float")
      else Ok x
  end.

(** [int(x)] in binary64: the fraction is dropped. *)
Definition b64_to_int (x : float) : result Z :=
  match Prim2SF x with
  | S754_zero _ => Ok 0
  | S754_finite s m e =>
      let a := match e with
               | Zneg k => Z.shiftr (Zpos m) (Zpos k)
               | _ => Z.shiftl (Zpos m) e
               end in
      Ok (if s then - a else a)
  | S754_infinity _ => Raise (Exn OverflowError "cannot convert float infinity to integer")
  | S754_nan => Raise (Exn ValueError "cannot convert float NaN to integer")
  end.

(** [round(x, ndigits)] in binary64: the value of [x] is rounded as a
    decimal, ties to even, and the float nearest to that decimal is
    returned; a zero keeps the sign of [x]; an infinity and NaN are
    returned as they are. *)
Definition b64_round (x : float) (ndigits : nat) : float :=
  match b64_to_Q x with
  | Some q =>
      let r := py_round q ndigits in
      match Qnum r with
      | Z0 => if PrimFloat.get_sign x then PrimFloat.neg_zero else PrimFloat.zero
      | _ => b64_of_Q r
      end
  | None => x
  end.

(** IEEE binary64 arithmetic, rounding to nearest. *)
Global Instance binary64 : PyFloat float := {|
  float_of_int := b64_of_int;
  float_truediv := b64_truediv;
  float_mul := PrimFloat.mul;
  float_of_decimal := b64_of_Q;
  float_of_operand := b64_of_operand;
  int_truediv := b64_int_truediv;
  float_sub := PrimFloat.sub;
  float_ltb := PrimFloat.ltb;
  float_truth := fun x => negb (PrimFloat.eqb x PrimFloat.zero);
  float_to_int := b64_to_int;
  float_round := b64_round
|}.

(** ** SplitPlanner *)

(** The loop [for i in range(num_parts)] of [calculate_split_times], with
    [i] running from [i0] for [n] rounds. *)
Fixpoint split_times_from {F : Type} `{PyFloat F} (part_duration : F) (i0 : Z) (n : nat)
    : list (F * F) :=
  match n with
  | O => []
  | S n' =>
      let start_time := float_mul (float_of_int i0) part_duration in
      let end_time := float_mul (float_of_int (i0 + 1)) part_duration in
      (start_time, end_time) :: split_times_from part_duration (i0 + 1) n'
  end.

Definition calculate_split_times {F : Type} `{PyFloat F} (duration : F) (num_parts : Z)
    : result (list (F * F)) :=
  if num_parts <? 2 then Raise (Exn ValueError "Number of parts must be at least 2")
  else if 20 <? num_parts then Raise (Exn ValueError "Number of parts cannot exceed 20")
  else
    part_duration ← float_truediv duration (float_of_int num_parts);
    mret (split_times_from part_duration 0 (Z.to_nat num_parts)).

(** ** Duration formatting *)

Definition format_duration (seconds : Q) : string :=
  let hours := py_int (py_floordiv seconds 3600) in
  let minutes := py_int (py_floordiv (py_mod seconds 3600) 60) in
  let secs := py_int (py_mod seconds 60) in
  if 0 <? hours then fmt_d hours +:+ ":" +:+ fmt_02d minutes +:+ ":" +:+ fmt_02d secs
  else fmt_d minutes +:+ ":" +:+ fmt_02d secs.

(** ** Reading numbers: [float(s)] and [int(s)] *)

Definition is_space (c : ascii) : bool :=
  match c with
  | "009" | "010" | "011" | "012" | "013" | " " => true
  | _ => false
  end%char.

(** The value of a decimal digit (character codes 48 to 57). *)
Definition digit_of (c : ascii) : option Z :=
  let code := Z.of_nat (nat_of_ascii c) in
  if (48 <=? code) && (code <=? 57) then Some (code - 48) else None.

Fixpoint lstrip (s : string) : string :=
  match s with
  | String c s' => if is_space c then lstrip s' else s
  | EmptyString => EmptyString
  end.

Fixpoint rstrip (s : string) : string :=
  match s with
  | EmptyString => EmptyString
  | String c s' =>
      match rstrip s' with
      | EmptyString => if is_space c then EmptyString else String c EmptyString
      | t => String c t
      end
  end.

(** [s.strip()] *)
Definition strip (s : string) : string := rstrip (lstrip s).

(** Leading decimal digits of [s]: their value (continuing [acc]), how many
    there are, and what follows them. *)
Fixpoint read_digits (s : string) (acc : Z) (count : nat) : Z * nat * string :=
  match s with
  | String c s' =>
      match digit_of c with
      | Some d => read_digits s' (10 * acc + d) (S count)
      | None => (acc, count, s)
      end
  | EmptyString => (acc, count, s)
  end.

(** An optional sign: [true] for a minus. *)
Definition read_sign (s : string) : bool * string :=
  match s with
  | String "-" s' => (true, s')
  | String "+" s' => (false, s')
  | _ => (false, s)
  end.

Definition apply_sign (neg : bool) (z : Z) : Z := if neg then - z else z.

(** The exponent part of a float literal ([e] or [E], sign, digits); [0] when
    there is none.  [None] when what follows is not an exponent. *)
Definition read_exponent (s : string) : option Z :=
  match s with
  | EmptyString => Some 0
  | String c s' =>
      if bool_decide (c = "e"%char) || bool_decide (c = "E"%char) then
        let '(neg, s1) := read_sign s' in
        match read_digits s1 0 0 with
        | (_, O, _) => None
        | (e, _, EmptyString) => Some (apply_sign neg e)
        | _ => None
        end
      else None
  end.

(** The decimal float literals: surrounding white space, a sign, digits with
    an optional fraction, an optional exponent; the value is given in lowest
    terms.  The literals [inf] and [nan] have no value in the model and
    digit-grouping underscores are not read; all of them give [None]. *)
Definition float_literal (s : string) : option Q :=
  let '(neg, s1) := read_sign (strip s) in
  let '(ipart, icount, s2) := read_digits s1 0 0 in
  let '(fpart, fcount, s3) :=
    match s2 with
    | String "." s2' => read_digits s2' 0 0
    | _ => (0, O, s2)
    end in
  match (icount + fcount)%nat with
  | O => None
  | _ =>
      match read_exponent s3 with
      | Some e =>
          let m := (inject_Z ipart + inject_Z fpart / inject_Z (10 ^ Z.of_nat fcount))%Q in
          let v := (m * Qpower 10 e)%Q in
          Some (Qred (if neg then - v else v))
      | None => None
      end
  end.

(** [float(s)] for a string. *)
Definition py_float (s : string) : result Q :=
  match float_literal s with
  | Some q => Ok q
  | None => Raise (Exn ValueError ("could not convert string to float: '" +:+ s +:+ "'"))
  end.

(** The decimal int literals: surrounding white space, a sign, digits. *)
Definition int_literal (s : string) : option Z :=
  let '(neg, s1) := read_sign (strip s) in
  match read_digits s1 0 0 with
  | (_, O, _) => None
  | (n, _, EmptyString) => Some (apply_sign neg n)
  | _ => None
  end.

(** [int(s)] for a string. *)
Definition py_int_of_str (s : string) : result Z :=
  match int_literal s with
  | Some z => Ok z
  | None => Raise (Exn ValueError ("invalid literal for int() with base 10: '" +:+ s +:+ "'"))
  end.

(** [s.split(sep)] for a one-character separator. *)
Fixpoint split_on (sep : ascii) (s : string) : list string :=
  match s with
  | EmptyString => [EmptyString]
  | String c s' =>
      if bool_decide (c = sep) then EmptyString :: split_on sep s'
      else
        match split_on sep s' with
        | w :: ws => String c w :: ws
        | [] => [String c EmptyString]
        end
  end.

(** ** Processes, files and the monad of effects *)

(** [video_path]: [str(video_path)], [.name], [.stem] and [.suffix]. *)
Record VideoPath := {
  path_str : string;
  path_name : string;
  path_stem : string;
  path_suffix : string
}.

(** [output_dir / output_filename] *)
Definition path_join (dir name : string) : string := dir +:+ "/" +:+ name.

(** The argument lists given to [subprocess.run], one constructor per list
    that the service builds. *)
Inductive command :=
| FfmpegVersion
| FfprobeDuration (video : string)
| FfprobeInfo (video : string)
| FfmpegStreamCopy (input output : string) (start_time duration : Q)
| FfmpegReencode (input output : string) (start_time duration : Q)
| FfmpegCrf (input output : string) (crf : Z) (audio_bitrate_kbps : Z)
| FfmpegPass1 (input : string) (video_bitrate_k : Z) (passlogfile : string)
| FfmpegPass2 (input output : string) (video_bitrate_k : Z)
    (audio_bitrate_kbps : Z) (passlogfile : string).

(** The file a command writes, if the service looks at it afterwards. *)
Definition output_of (cmd : command) : option string :=
  match cmd with
  | FfmpegStreamCopy _ output _ _
  | FfmpegReencode _ output _ _
  | FfmpegCrf _ output _ _
  | FfmpegPass2 _ output _ _ _ => Some output
  | _ => None
  end.

Record CompletedProcess := {
  returncode : Z;
  stdout : string;
  stderr : string
}.

(** The [streams] and [format] sections of ffprobe's JSON report, with the
    keys that [get_video_info] reads; an absent key is [None]. *)
Record ProbeStream := {
  codec_type : option string;
  codec_name : option string;
  stream_width : option Z;
  stream_height : option Z
}.

Record ProbeFormat := {
  format_duration_field : option string;
  format_size_field : option string
}.

Record ProbeData := {
  data_format : option ProbeFormat;
  data_streams : option (list ProbeStream)
}.

(** What is outside the service: the external tools, the JSON decoder and the
    name of the temporary directory.
    - [run cmd] is what [subprocess.run] returns or raises for [cmd];
    - [leaves cmd] is the size of the file found at [output_of cmd] once the
      call is over ([None]: no file there), whatever was there before.  A
      command writes nowhere else;
    - [json_loads] is [json.loads] on ffprobe's report. *)
Record Tool := {
  run : command -> result CompletedProcess;
  leaves : command -> option Z;
  json_loads : string -> result ProbeData;
  temp_dir : string
}.

(** The files (path to size in bytes) and the commands run so far, oldest
    first. *)
Record World := {
  files : gmap string Z;
  log : list command
}.

Definition M (A : Type) : Type := World -> result A * World.

Global Instance M_ret : MRet M := fun _ a w => (Ok a, w).
Global Instance M_bind : MBind M := fun _ _ k m w =>
  match m w with
  | (Ok a, w') => k a w'
  | (Raise e, w') => (Raise e, w')
  end.

Definition raise {A} (kind : exn_kind) (msg : string) : M A :=
  fun w => (Raise (Exn kind msg), w).

Definition lift {A} (r : result A) : M A := fun w => (r, w).

(** [try: body except <catches> as e: handler e] *)
Definition try_except {A} (body : M A) (catches : exn -> bool) (handler : exn -> M A) : M A :=
  fun w =>
    match body w with
    | (Ok a, w') => (Ok a, w')
    | (Raise e, w') => if catches e then handler e w' else (Raise e, w')
    end.

(** [except Exception], and [except (K1, K2, ...)]; [json.JSONDecodeError]
    is a subclass of [ValueError]. *)
Definition catch_all (e : exn) : bool := true.
Definition catch_kinds (kinds : list exn_kind) (e : exn) : bool :=
  existsb (fun k =>
    match k, exn_kind_of e with
    | ValueError, (ValueError | JSONDecodeError) => true
    | RuntimeError, RuntimeError => true
    | ZeroDivisionError, ZeroDivisionError => true
    | TimeoutExpired, TimeoutExpired => true
    | FileNotFoundError, FileNotFoundError => true
    | JSONDecodeError, JSONDecodeError => true
    | _, _ => false
    end) kinds.

Section Service.

Variable tool : Tool.

(** [subprocess.run(cmd, ...)]: the command is logged, its output file is
    left as the tool leaves it, and the tool's answer is returned or
    raised. *)
Definition subprocess_run (cmd : command) : M CompletedProcess := fun w =>
  (run tool cmd,
   {| files := match output_of cmd with
               | Some p => partial_alter (fun _ => leaves tool cmd) p (files w)
               | None => files w
               end;
      log := log w ++ [cmd] |}).

(** [path.exists()], [path.stat().st_size], [path.unlink(missing_ok=True)] *)
Definition path_exists (p : string) : M bool := fun w =>
  (Ok (bool_decide (is_Some (files w !! p))), w).

Definition path_size (p : string) : M Z := fun w =>
  match files w !! p with
  | Some n => (Ok n, w)
  | None => (Raise (Exn FileNotFoundError p), w)
  end.

Definition path_unlink (p : string) : M unit := fun w =>
  (Ok tt, {| files := delete p (files w); log := log w |}).

(** ** ProcessRunner and MediaProbe *)

Definition check_ffmpeg_installed : M bool :=
  try_except
    (_ ← subprocess_run FfmpegVersion;
     mret true)
    (catch_kinds [FileNotFoundError; TimeoutExpired])
    (fun _ => mret false).

(** The duration is returned as the number that ffprobe printed; a caller
    that computes with it takes it through [float_of_decimal], which in
    binary64 is the rounding that [float(...)] does. *)
Definition get_video_duration (video_path : VideoPath) : M Q :=
  try_except
    (result ← subprocess_run (FfprobeDuration (path_str video_path));
     if negb (returncode result =? 0) then
       raise ValueError "Failed to get video duration"
     else
       duration ← lift (py_float (strip (stdout result)));
       mret duration)
    (catch_kinds [TimeoutExpired; ValueError])
    (fun e => raise ValueError ("Failed to get video duration: " +:+ exn_msg e)).

Record VideoInfo := {
  info_filename : string;
  info_duration : Q;
  info_duration_formatted : string;
  info_size : Z;
  info_video_codec : string;
  info_resolution : string
}.

(** The loop over [data.get("streams", [])] that looks for the first video
    stream: codec (or [None]), width and height. *)
Fixpoint find_video_stream (streams : list ProbeStream) : option string * Z * Z :=
  match streams with
  | [] => (None, 0, 0)
  | stream :: rest =>
      if bool_decide (codec_type stream = Some "video") then
        (Some (default "unknown" (codec_name stream)),
         default 0 (stream_width stream),
         default 0 (stream_height stream))
      else find_video_stream rest
  end.

Definition get_video_info (video_path : VideoPath) : M VideoInfo :=
  try_except
    (result ← subprocess_run (FfprobeInfo (path_str video_path));
     if negb (returncode result =? 0) then
       raise ValueError "Failed to read video file"
     else
       data ← lift (json_loads tool (stdout result));
       let format_info := default {| format_duration_field := None; format_size_field := None |}
                                  (data_format data) in
       duration ← lift (match format_duration_field format_info with
                        | Some s => py_float s
                        | None => Ok 0%Q
                        end);
       size ← lift (match format_size_field format_info with
                    | Some s => py_int_of_str s
                    | None => Ok 0
                    end);
       let '(video_codec, width, height) :=
         find_video_stream (default [] (data_streams data)) in
       mret {| info_filename := path_name video_path;
               info_duration := duration;
               info_duration_formatted := format_duration duration;
               info_size := size;
               info_video_codec :=
                 match video_codec with
                 | Some (String c s) => String c s
                 | _ => "unknown"
                 end;
               info_resolution :=
                 if negb (width =? 0) && negb (height =? 0)
                 then fmt_d width +:+ "x" +:+ fmt_d height
                 else "unknown" |})
    (catch_kinds [TimeoutExpired; JSONDecodeError; ValueError])
    (fun e => raise ValueError ("Failed to get video info: " +:+ exn_msg e)).

(** ** SegmentExtractor *)

(** [result.returncode == 0 and output_path.exists() and
    output_path.stat().st_size > 1000], evaluated left to right. *)
Definition output_is_plausible (result : CompletedProcess) (output_path : string) : M bool :=
  if returncode result =? 0 then
    present ← path_exists output_path;
    if (present : bool) then
      st_size ← path_size output_path;
      mret (1000 <? st_size : bool)
    else mret false
  else mret false.

Definition _split_segment_stream_copy
    (input_path : VideoPath) (output_path : string) (start_time duration : Q) : M bool :=
  try_except
    (result ← subprocess_run
       (FfmpegStreamCopy (path_str input_path) output_path start_time duration);
     ok ← output_is_plausible result output_path;
     if (ok : bool) then mret true
     else
       _ ← path_unlink output_path;
       mret false)
    catch_all
    (fun _ =>
       _ ← path_unlink output_path;
       mret false).

Definition _split_segment_reencode
    (input_path : VideoPath) (output_path : string) (start_time duration : Q) : M bool :=
  try_except
    (result ← subprocess_run
       (FfmpegReencode (path_str input_path) output_path start_time duration);
     ok ← output_is_plausible result output_path;
     if (ok : bool) then mret true
     else
       _ ← path_unlink output_path;
       mret false)
    catch_all
    (fun _ =>
       _ ← path_unlink output_path;
       mret false).

(** [for path in output_paths: path.unlink(missing_ok=True)] *)
Fixpoint unlink_all (output_paths : list string) : M unit :=
  match output_paths with
  | [] => mret tt
  | path :: rest =>
      _ ← path_unlink path;
      unlink_all rest
  end.

(** The output path of part [i]. *)
Definition part_path (video_path : VideoPath) (output_dir : string) (i : Z) : string :=
  let base_name := path_stem video_path in
  let extension := path_suffix video_path in
  let output_filename := base_name +:+ "_part" +:+ fmt_d i +:+ extension in
  path_join output_dir output_filename.

(** The loop [for i, (start_time, end_time) in enumerate(split_times, 1)] of
    [split_video], from part [i] on, with the paths collected so far. *)
Fixpoint split_loop (video_path : VideoPath) (output_dir : string)
    (use_stream_copy : bool) (i : Z) (split_times : list (Q * Q))
    (output_paths : list string) : M (list string) :=
  match split_times with
  | [] => mret output_paths
  | (start_time, end_time) :: rest =>
      let output_path := part_path video_path output_dir i in
      let segment_duration := (end_time - start_time)%Q in
      let next := split_loop video_path output_dir use_stream_copy (i + 1) rest in
      let fallback : M (list string) :=
        success ← _split_segment_reencode video_path output_path start_time segment_duration;
        if (success : bool) then next (output_paths ++ [output_path])
        else
          _ ← unlink_all output_paths;
          raise ValueError ("Failed to split video at part " +:+ fmt_d i) in
      if use_stream_copy then
        success ← _split_segment_stream_copy video_path output_path start_time segment_duration;
        if (success : bool) then next (output_paths ++ [output_path])
        else fallback
      else fallback
  end.

Definition split_video (video_path : VideoPath) (num_parts : Z) (output_dir : string)
    (use_stream_copy : bool) : M (list string) :=
  installed ← check_ffmpeg_installed;
  if negb (installed : bool) then raise RuntimeError "FFmpeg is not installed"
  else if (num_parts <? 2) || (20 <? num_parts) then
    raise ValueError "Number of parts must be between 2 and 20"
  else
    duration ← get_video_duration video_path;
    split_times ← lift (calculate_split_times duration num_parts);
    split_loop video_path output_dir use_stream_copy 1 split_times [].

(** ** CompressionEngine *)

Definition _get_crf_for_preset (preset : string) : Z :=
  let crf_map : gmap string Z := {[ "low" := 28; "medium" := 23; "high" := 18 ]} in
  default 23 (crf_map !! lower preset).

(** [int(video_bitrate_kbps)] is evaluated where each command is built,
    inside the [try]. *)
Definition _run_two_pass_encode {F : Type} `{PyFloat F} (input_path : VideoPath)
    (output_path : string) (video_bitrate_kbps : F) (audio_bitrate_kbps : Z)
    (passlogfile : string) : M bool :=
  try_except
    (bitrate1 ← lift (float_to_int video_bitrate_kbps);
     result1 ← subprocess_run (FfmpegPass1 (path_str input_path) bitrate1 passlogfile);
     if negb (returncode result1 =? 0) then mret false
     else
       bitrate2 ← lift (float_to_int video_bitrate_kbps);
       result2 ← subprocess_run
         (FfmpegPass2 (path_str input_path) output_path bitrate2
            audio_bitrate_kbps passlogfile);
       present ← (if returncode result2 =? 0 then path_exists output_path else mret false);
       if (present : bool) then mret true
       else
         _ ← path_unlink output_path;
         mret false)
    catch_all
    (fun _ =>
       _ ← path_unlink output_path;
       mret false).

Definition compress_target_size {F : Type} `{PyFloat F} (video_path : VideoPath)
    (target_size_mb : F) (output_path : string) (audio_bitrate_kbps : Z) : M string :=
  installed ← check_ffmpeg_installed;
  if negb (installed : bool) then raise RuntimeError "FFmpeg is not installed"
  else
    seconds ← get_video_duration video_path;
    let duration := float_of_decimal seconds in
    q ← lift (float_truediv (float_mul target_size_mb (float_of_int 8192)) duration);
    audio ← lift (float_of_operand audio_bitrate_kbps);
    let target_bitrate_kbps := float_sub q audio in
    if float_ltb target_bitrate_kbps (float_of_int 100) then
      raise ValueError "Target size too small - would result in unplayable video"
    else
      let passlogfile := path_join (temp_dir tool) "ffmpeg2pass" in
      success ← _run_two_pass_encode video_path output_path target_bitrate_kbps
                   audio_bitrate_kbps passlogfile;
      if negb (success : bool) then raise ValueError "Video compression failed"
      else mret output_path.

Definition compress_quality (video_path : VideoPath) (quality_preset : string)
    (output_path : string) (audio_bitrate_kbps : Z) : M string :=
  installed ← check_ffmpeg_installed;
  if negb (installed : bool) then raise RuntimeError "FFmpeg is not installed"
  else
    let crf := _get_crf_for_preset quality_preset in
    try_except
      (result ← subprocess_run
         (FfmpegCrf (path_str video_path) output_path crf audio_bitrate_kbps);
       present ← path_exists output_path;
       if negb (returncode result =? 0) || negb (present : bool) then
         raise ValueError ("FFmpeg failed: " +:+ stderr result)
       else mret output_path)
      catch_all
      (fun e =>
         _ ← path_unlink output_path;
         if catch_kinds [TimeoutExpired] e then
           raise ValueError "Compression timed out (>1 hour)"
         else raise ValueError ("Compression failed: " +:+ exn_msg e)).

(** The checks that open the request handler [compress_video_quality] of
    [app/routers/video.py]; the upload is stored and [compress_quality] is
    called only once they have passed. *)
Definition compress_video_quality_checks (preset : string) : M unit :=
  installed ← check_ffmpeg_installed;
  if negb (installed : bool) then raise (HTTPException 503) "FFmpeg is not installed"
  else if negb (bool_decide (lower preset ∈ ["low"; "medium"; "high"])) then
    raise (HTTPException 400) "Invalid preset. Use low/medium/high"
  else mret tt.

(** ** Estimation *)

Record Estimate {F : Type} := {
  original_size_mb : F;
  estimated_size_mb : F;
  reduction_percent : F
}.
#[global] Arguments Estimate : clear implicits.

(** Truth value of an optional float, and of an optional string. *)
Definition truthy_float {F : Type} `{PyFloat F} (x : option F) : bool :=
  match x with
  | Some q => float_truth q
  | None => false
  end.

Definition truthy_str (x : option string) : bool :=
  match x with
  | Some (String _ _) => true
  | _ => false
  end.

(** The ratio tables of [estimate_output_size] ([compression_ratios] and
    [quality_factors] hold the same entries, written as decimals) and its
    [resolution_map]. *)
Definition compression_ratios : gmap string Q :=
  {[ "low" := 3 # 10; "medium" := 5 # 10; "high" := 7 # 10 ]}%Q.

Definition resolution_map : gmap string Z :=
  {[ "2160p" := 2160; "1440p" := 1440; "1080p" := 1080;
     "720p" := 720; "480p" := 480; "360p" := 360 ]}.

Definition estimate_output_size {F : Type} `{PyFloat F} `{PyPow F}
    (video_path : VideoPath) (mode : string)
    (target_size_mb : option F) (quality_preset : option string)
    (resolution : option string) : M (Estimate F) :=
  info ← get_video_info video_path;
  original_size_mb ← lift (int_truediv (info_size info) (1024 * 1024));
  estimated_size_mb ← lift (
    if bool_decide (mode = "target_size") && truthy_float target_size_mb then
      Ok (default (float_of_int 0) target_size_mb)
    else if bool_decide (mode = "quality") && truthy_str quality_preset then
      let ratio := float_of_decimal (default (5 # 10)%Q
                     (compression_ratios !! lower (default "" quality_preset))) in
      Ok (float_mul original_size_mb ratio)
    else if bool_decide (mode = "resolution") && truthy_str resolution
            && truthy_str quality_preset then
      match split_on "x" (info_resolution info) with
      | [_; res_height] =>
          current_height ← py_int_of_str res_height;
          let target_height :=
            default current_height (resolution_map !! default "" resolution) in
          r ← int_truediv target_height current_height;
          scale_factor ← float_pow r 2;
          let quality_factor := float_of_decimal (default (5 # 10)%Q
                (compression_ratios !! lower (default "" quality_preset))) in
          Ok (float_mul (float_mul original_size_mb scale_factor) quality_factor)
      | _ => Ok (float_mul original_size_mb (float_of_decimal (5 # 10)))
      end
    else Ok original_size_mb);
  r ← lift (float_truediv (float_sub original_size_mb estimated_size_mb) original_size_mb);
  let reduction_pct := float_mul r (float_of_int 100) in
  mret {| original_size_mb := float_round original_size_mb 2;
          estimated_size_mb := float_round estimated_size_mb 2;
          reduction_percent := float_round reduction_pct 1 |}.

End Service.

(** * Specification-side definitions *)

(** A list of ranges has the shape of a plan in [num_parts] parts of length
    [part_duration]: it has [num_parts] ranges, range [i] (from 0) is
    [[i * part_duration, (i + 1) * part_duration]], and each range ends
    exactly where the next one starts. *)
Definition has_plan_shape {F : Type} `{PyFloat F} (part_duration : F) (num_parts : Z)
    (ranges : list (F * F)) : Prop :=
  length ranges = Z.to_nat num_parts /\
  (forall (i : nat) s e, ranges !! i = Some (s, e) ->
     s = float_mul (float_of_int (Z.of_nat i)) part_duration /\
     e = float_mul (float_of_int (Z.of_nat i + 1)) part_duration) /\
  (forall (i : nat) s e s' e',
     ranges !! i = Some (s, e) -> ranges !! S i = Some (s', e') -> e = s').

(** In exact arithmetic, a list of ranges is the split plan of [duration]
    into [num_parts] parts: it has the shape above for the part duration
    [duration / num_parts], every range is non-empty and lies in
    [[0, duration]], the first starts at 0 and the last ends at
    [duration]. *)
Definition is_split_plan (duration : Q) (num_parts : Z) (ranges : list (Q * Q)) : Prop :=
  has_plan_shape (duration / inject_Z num_parts)%Q num_parts ranges /\
  (forall (i : nat) s e, ranges !! i = Some (s, e) ->
     (0 <= s)%Q /\ (s < e)%Q /\ (e <= duration)%Q) /\
  (exists s e, head ranges = Some (s, e) /\ (s == 0)%Q) /\
  (exists s e, last ranges = Some (s, e) /\ (e == duration)%Q).



(** A command's outcome is accepted: the process returned with exit status
    0 and left a file of more than 1000 bytes at the output path. *)
Definition accepted (tool : Tool) (cmd : command) : bool :=
  match run tool cmd with
  | Ok result =>
      (returncode result =? 0) &&
      match leaves tool cmd with
      | Some st_size => 1000 <? st_size
      | None => false
      end
  | Raise _ => false
  end.

(** The two commands of a part: stream copy and re-encode of the range
    [[start_time, end_time]] into the part's output path. *)
Definition stream_copy_of (video_path : VideoPath) (output_dir : string)
    (i : Z) (range : Q * Q) : command :=
  FfmpegStreamCopy (path_str video_path) (part_path video_path output_dir i)
    (fst range) (snd range - fst range)%Q.

Definition reencode_of (video_path : VideoPath) (output_dir : string)
    (i : Z) (range : Q * Q) : command :=
  FfmpegReencode (path_str video_path) (part_path video_path output_dir i)
    (fst range) (snd range - fst range)%Q.

(** Part [i] fails both strategies. *)
Definition fails_both (tool : Tool) (video_path : VideoPath) (output_dir : string)
    (i : Z) (range : Q * Q) : Prop :=
  accepted tool (stream_copy_of video_path output_dir i range) = false /\
  accepted tool (reencode_of video_path output_dir i range) = false.

(** The external tools are there and report the duration [duration]. *)
Definition probes_duration (tool : Tool) (video_path : VideoPath) (duration : Q) : Prop :=
  (exists version, run tool FfmpegVersion = Ok version) /\
  (exists report,
     run tool (FfprobeDuration (path_str video_path)) = Ok report /\
     returncode report = 0 /\
     py_float (strip (stdout report)) = Ok duration).

(** The world once [cmds] have been run without touching a file. *)
Definition logged (w : World) (cmds : list command) : World :=
  {| files := files w; log := log w ++ cmds |}.

(** The world after one attempt at a segment: the command is logged; an
    accepted outcome stays at the output path, any other is removed. *)
Definition after_attempt (tool : Tool) (cmd : command) (output_path : string)
    (w : World) : World :=
  {| files := partial_alter
                (fun _ => if accepted tool cmd then leaves tool cmd else None)
                output_path (files w);
     log := log w ++ [cmd] |}.

(** The duration and the size that [get_video_info] reads from the [format]
    section of a report. *)
Definition duration_of (data : ProbeData) : result Q :=
  match data_format data with
  | Some {| format_duration_field := Some s |} => py_float s
  | _ => Ok 0%Q
  end.

Definition size_of (data : ProbeData) : result Z :=
  match data_format data with
  | Some {| format_size_field := Some s |} => py_int_of_str s
  | _ => Ok 0
  end.

(** ffprobe's report on [video_path] is delivered and decodes to [data]. *)
Definition reports (tool : Tool) (video_path : VideoPath) (data : ProbeData) : Prop :=
  exists report,
    run tool (FfprobeInfo (path_str video_path)) = Ok report /\
    returncode report = 0 /\
    json_loads tool (stdout report) = Ok data.

(** The descriptor built from a report once its duration and size are
    read. *)
Definition describe (video_path : VideoPath) (data : ProbeData)
    (duration : Q) (size : Z) : VideoInfo :=
  let '(video_codec, width, height) :=
    find_video_stream (default [] (data_streams data)) in
  {| info_filename := path_name video_path;
     info_duration := duration;
     info_duration_formatted := format_duration duration;
     info_size := size;
     info_video_codec :=
       match video_codec with
       | Some (String c s) => String c s
       | _ => "unknown"
       end;
     info_resolution :=
       if negb (width =? 0) && negb (height =? 0)
       then fmt_d width +:+ "x" +:+ fmt_d height
       else "unknown" |}.

(** The call selects none of the three estimation branches: the mode is
    none of [target_size], [quality], [resolution], or the parameters that
    the mode needs are absent ([None], or zero for the target size). *)
Definition selects_no_branch (mode : string) (target_size_mb : option Q)
    (quality_preset resolution : option string) : Prop :=
  mode ∉ ["target_size"; "quality"; "resolution"] \/
  (mode = "target_size" /\
     (target_size_mb = None \/ exists q, target_size_mb = Some q /\ (q == 0)%Q)) \/
  (mode = "quality" /\ quality_preset = None) \/
  (mode = "resolution" /\ (resolution = None \/ quality_preset = None)).

(** The size in megabytes of [size] bytes. *)
Definition megabytes (size : Z) : Q := (inject_Z size / inject_Z (1024 * 1024))%Q.

(** ** Scenarios

    Concrete tools and inputs on which the theorems are run. *)

Definition empty_world : World := {| files := ∅; log := [] |}.

Definition clip : VideoPath :=
  {| path_str := "in/clip.mp4"; path_name := "clip.mp4";
     path_stem := "clip"; path_suffix := ".mp4" |}.

Definition exited (code : Z) (out : string) : result CompletedProcess :=
  Ok {| returncode := code; stdout := out; stderr := "" |}.

(** ffprobe reports 500 seconds; every stream copy and re-encode works
    (exit status 0, 5000 bytes), except those of part 3, which exit with
    status 1 and leave nothing. *)
Definition part3_fails : Tool :=
  {| run := fun cmd =>
       match cmd with
       | FfprobeDuration _ => exited 0 ("500.000000" +:+ String "010" "")
       | FfmpegStreamCopy _ output _ _ | FfmpegReencode _ output _ _ =>
           if bool_decide (output = "out/clip_part3.mp4") then exited 1 "" else exited 0 ""
       | _ => exited 0 ""
       end;
     leaves := fun cmd =>
       match cmd with
       | FfmpegStreamCopy _ output _ _ | FfmpegReencode _ output _ _ =>
           if bool_decide (output = "out/clip_part3.mp4") then None else Some 5000
       | _ => None
       end;
     json_loads := fun _ => Raise (Exn JSONDecodeError "Expecting value");
     temp_dir := "/tmp/tmpdir" |}.

(** ffprobe reports 600 seconds; every stream copy exits with status 0 but
    leaves a file of 500 bytes; every re-encode exits with status 0 and
    leaves 5000 bytes. *)
Definition small_copy : Tool :=
  {| run := fun cmd =>
       match cmd with
       | FfprobeDuration _ => exited 0 "600.000000"
       | _ => exited 0 ""
       end;
     leaves := fun cmd =>
       match cmd with
       | FfmpegStreamCopy _ _ _ _ => Some 500
       | FfmpegReencode _ _ _ _ => Some 5000
       | _ => None
       end;
     json_loads := fun _ => Raise (Exn JSONDecodeError "Expecting value");
     temp_dir := "/tmp/tmpdir" |}.

(** Every command exits with status 0 and leaves 5000 bytes at its output
    path; ffprobe's report decodes to [data]. *)
Definition encoder (data : ProbeData) : Tool :=
  {| run := fun cmd =>
       match cmd with
       | FfprobeDuration _ => exited 0 "600.000000"
       | _ => exited 0 ""
       end;
     leaves := fun _ => Some 5000;
     json_loads := fun _ => Ok data;
     temp_dir := "/tmp/tmpdir" |}.

(** A report with a [format] section and an empty list of streams. *)
Definition no_streams : ProbeData :=
  {| data_format := Some {| format_duration_field := Some "12.500000";
                            format_size_field := Some "1000" |};
     data_streams := Some [] |}.

Definition h264_1080p : ProbeStream :=
  {| codec_type := Some "video"; codec_name := Some "h264";
     stream_width := Some 1920; stream_height := Some 1080 |}.

(** A report of a video of 100 MB, and one whose [format] section has no
    [size] key. *)
Definition hundred_mb : ProbeData :=
  {| data_format := Some {| format_duration_field := Some "600.000000";
                            format_size_field := Some "104857600" |};
     data_streams := Some [h264_1080p] |}.

Definition no_size : ProbeData :=
  {| data_format := Some {| format_duration_field := Some "600.000000";
                            format_size_field := None |};
     data_streams := Some [h264_1080p] |}.

(** * The rest of the service *)

(** ** Validation *)

Definition validate_video_file (tool : Tool) (file_path : VideoPath) : M bool :=
  present ← path_exists (path_str file_path);
  if negb (present : bool) then mret false
  else
    try_except
      (duration ← get_video_duration tool file_path;
       mret (if Qlt_le_dec 0 duration then true else false))
      catch_all
      (fun _ => mret false).

(** ** More scenarios *)

(** No ffmpeg on the path: starting it raises [FileNotFoundError]. *)
Definition no_ffmpeg : Tool :=
  {| run := fun cmd =>
       match cmd with
       | FfmpegVersion => Raise (Exn FileNotFoundError "ffmpeg")
       | _ => exited 0 ""
       end;
     leaves := fun _ => None;
     json_loads := fun _ => Raise (Exn JSONDecodeError "Expecting value");
     temp_dir := "/tmp/tmpdir" |}.

(** ffmpeg answers its version check with exit status 1; ffprobe exits with
    status 1 on every file. *)
Definition probe_fails : Tool :=
  {| run := fun _ => exited 1 "";
     leaves := fun _ => None;
     json_loads := fun _ => Raise (Exn JSONDecodeError "Expecting value");
     temp_dir := "/tmp/tmpdir" |}.

(** A world in which the input video is on disk. *)
Definition clip_on_disk : World :=
  {| files := {[ "in/clip.mp4" := 104857600 ]}; log := [] |}.

(** The output paths of parts [i], [i + 1], ..., [n] of them. *)
Definition part_paths (video_path : VideoPath) (output_dir : string) (i : Z) (n : nat)
    : list string :=
  (fun j : nat => part_path video_path output_dir (i + Z.of_nat j)) <$> seq 0 n.

(** The command is a stream copy. *)
Definition is_stream_copy (cmd : command) : bool :=
  match cmd with
  | FfmpegStreamCopy _ _ _ _ => true
  | _ => false
  end.

(** ffprobe reports a duration of 0 seconds; everything else works. *)
Definition zero_duration : Tool :=
  {| run := fun cmd =>
       match cmd with
       | FfprobeDuration _ => exited 0 "0.000000"
       | _ => exited 0 ""
       end;
     leaves := fun _ => Some 5000;
     json_loads := fun _ => Raise (Exn JSONDecodeError "Expecting value");
     temp_dir := "/tmp/tmpdir" |}.

(** ffprobe reports 600.111 seconds; everything else works. *)
Definition odd_duration : Tool :=
  {| run := fun cmd =>
       match cmd with
       | FfprobeDuration _ => exited 0 "600.111000"
       | _ => exited 0 ""
       end;
     leaves := fun _ => Some 5000;
     json_loads := fun _ => Raise (Exn JSONDecodeError "Expecting value");
     temp_dir := "/tmp/tmpdir" |}.

(** A C library whose [pow] squares by one rounded multiplication. *)
Definition squaring_libm : PyPow float :=
  {| float_pow := fun x n =>
       if n =? 2 then Ok (PrimFloat.mul x x)
       else Raise (Exn OtherException "pow") |}.

(** A report of a video of a quarter of a megabyte. *)
Definition quarter_mb : ProbeData :=
  {| data_format := Some {| format_duration_field := Some "600.000000";
                            format_size_field := Some "262144" |};
     data_streams := Some [h264_1080p] |}.

(** The encode times out and leaves a partial file of 700 bytes. *)
Definition encode_times_out : Tool :=
  {| run := fun cmd =>
       match cmd with
       | FfmpegCrf _ _ _ _ => Raise (Exn TimeoutExpired "timed out after 3600 seconds")
       | _ => exited 0 ""
       end;
     leaves := fun _ => Some 700;
     json_loads := fun _ => Raise (Exn JSONDecodeError "Expecting value");
     temp_dir := "/tmp/tmpdir" |}.

(** ** Characters of a string *)

(** Every character of [s] satisfies [P]. *)
Fixpoint all_chars (P : ascii -> bool) (s : string) : bool :=
  match s with
  | EmptyString => true
  | String c s' => P c && all_chars P s'
  end.

Definition is_digit (c : ascii) : bool := bool_decide (is_Some (digit_of c)).
Definition not_space (c : ascii) : bool := negb (is_space c).
Definition is_not (sep : ascii) (c : ascii) : bool := negb (bool_decide (c = sep)).
Definition is_sign_or_digit (c : ascii) : bool := is_digit c || bool_decide (c = "-"%char).

(** An audio stream, a second video stream, and a report that lists the
    audio stream first and two video streams after it. *)
Definition aac_audio : ProbeStream :=
  {| codec_type := Some "audio"; codec_name := Some "aac";
     stream_width := None; stream_height := None |}.

Definition vp9_2160p : ProbeStream :=
  {| codec_type := Some "video"; codec_name := Some "vp9";
     stream_width := Some 3840; stream_height := Some 2160 |}.

Definition mixed_streams : ProbeData :=
  {| data_format := Some {| format_duration_field := Some "600.000000";
                            format_size_field := Some "104857600" |};
     data_streams := Some [aac_audio; h264_1080p; vp9_2160p] |}.

(** * Theorems *)

(** ** Numbers *)

(** The operations of [PyFloat] in exact arithmetic. *)
Ltac exact_arith :=
  cbn [float_of_int float_truediv float_mul float_of_decimal float_of_operand int_truediv
       float_sub float_ltb float_truth float_to_int float_round float_pow
       exact exact_pow] in *.








(** ** Duration formatting *)





Example format_duration_3725 : format_duration 3725 = "1:02:05".
Proof. vm_compute. reflexivity. Qed.

Example format_duration_59_9 : format_duration (599 # 10) = "0:59".
Proof. vm_compute. reflexivity. Qed.

(** ** SplitPlanner *)

(** C5.  For every duration, a part count below 2 or above 20 makes
    [calculate_split_times] raise [ValueError] (the rejected-input error):
    no plan is returned.  This holds in exact and in binary64 arithmetic
    alike. *)
Theorem calculate_split_times_rejects {F : Type} `{PyFloat F} (duration : F) (num_parts : Z) :
  num_parts < 2 \/ 20 < num_parts ->
  calculate_split_times duration num_parts =
    Raise (Exn ValueError
             (if num_parts <? 2 then "Number of parts must be at least 2"
              else "Number of parts cannot exceed 20")).
Proof.
  intros Hparts. unfold calculate_split_times.
  destruct (Z.ltb_spec num_parts 2) as [Hlt|Hge]; [reflexivity|].
  destruct (Z.ltb_spec 20 num_parts) as [Hgt|Hle]; [reflexivity|lia].
Qed.

Lemma calculate_split_times_rejects_witness :
  (1 < 2 \/ 20 < 1) /\
  calculate_split_times 600%float 1
    = Raise (Exn ValueError "Number of parts must be at least 2") /\
  calculate_split_times 600%Q 21
    = Raise (Exn ValueError "Number of parts cannot exceed 20").
Proof.
  split; [left; lia|]. split.
  - apply (calculate_split_times_rejects 600%float 1). left. lia.
  - apply (calculate_split_times_rejects 600%Q 21). right. lia.
Defined.

Section PlanShape.

Context {F : Type} `{PyFloat F}.

Lemma split_times_from_length (pd : F) i0 n : length (split_times_from pd i0 n) = n.
Proof. revert i0. induction n as [|n IH]; intros i0; simpl; [reflexivity|]. now rewrite IH. Qed.

Lemma split_times_from_lookup (pd : F) i0 n (k : nat) s e :
  split_times_from pd i0 n !! k = Some (s, e) ->
  (k < n)%nat /\
  s = float_mul (float_of_int (i0 + Z.of_nat k)) pd /\
  e = float_mul (float_of_int (i0 + Z.of_nat k + 1)) pd.
Proof.
  revert i0 k. induction n as [|n IH]; intros i0 k Hk; simpl in Hk.
  - destruct k; discriminate Hk.
  - destruct k as [|k]; simpl in Hk.
    + injection Hk as <- <-. rewrite Z.add_0_r. repeat split; lia.
    + apply IH in Hk as (Hk & -> & ->).
      replace (i0 + 1 + Z.of_nat k) with (i0 + Z.of_nat (S k)) by lia.
      repeat split; lia.
Qed.

Lemma split_times_from_last (pd : F) i0 n :
  last (split_times_from pd i0 (S n)) =
    Some (float_mul (float_of_int (i0 + Z.of_nat n)) pd,
          float_mul (float_of_int (i0 + Z.of_nat n + 1)) pd).
Proof.
  revert i0. induction n as [|n IH]; intros i0.
  - simpl. now rewrite Z.add_0_r.
  - change (split_times_from pd i0 (S (S n)))
      with ((float_mul (float_of_int i0) pd, float_mul (float_of_int (i0 + 1)) pd)
              :: split_times_from pd (i0 + 1) (S n)).
    rewrite last_cons, IH.
    replace (i0 + 1 + Z.of_nat n) with (i0 + Z.of_nat (S n)) by lia.
    reflexivity.
Qed.

(** Whatever the arithmetic, the ranges built from a part duration have the
    shape of a plan. *)
Lemma split_times_from_shape (pd : F) (num_parts : Z) :
  has_plan_shape pd num_parts (split_times_from pd 0 (Z.to_nat num_parts)).
Proof.
  repeat apply conj.
  - apply split_times_from_length.
  - intros i s e Hi. apply split_times_from_lookup in Hi as (_ & -> & ->).
    now rewrite Z.add_0_l.
  - intros i s e s' e' Hi Hi'.
    apply split_times_from_lookup in Hi as (_ & _ & ->).
    apply split_times_from_lookup in Hi' as (_ & -> & _).
    do 2 f_equal. lia.
Qed.

End PlanShape.

Lemma b64_of_int_nonzero (num_parts : Z) :
  2 <= num_parts <= 20 -> PrimFloat.eqb (b64_of_int num_parts) PrimFloat.zero = false.
Proof.
  intros Hn.
  assert (exists k, (k < 19)%nat /\ num_parts = 2 + Z.of_nat k) as (k & Hk & ->)
    by (exists (Z.to_nat (num_parts - 2)); lia).
  clear Hn. do 19 (destruct k as [|k]; [vm_compute; reflexivity|]). lia.
Qed.

Lemma part_bounds (duration : Q) (num_parts k : Z) :
  (0 < duration)%Q -> 0 <= k -> k + 1 <= num_parts ->
  let pd := (duration / inject_Z num_parts)%Q in
  (0 <= inject_Z k * pd)%Q /\
  (inject_Z k * pd < inject_Z (k + 1) * pd)%Q /\
  (inject_Z (k + 1) * pd <= duration)%Q.
Proof.
  intros Hd Hk Hkn pd.
  assert (Hn : (0 < inject_Z num_parts)%Q) by (unfold Qlt; simpl; lia).
  assert (Hpd : (0 < pd)%Q).
  { unfold pd, Qdiv. apply Qmult_lt_0_compat; [assumption|].
    apply Qinv_lt_0_compat; assumption. }
  assert (Hk' : (0 <= inject_Z k)%Q) by (unfold Qle; simpl; lia).
  assert (E : (inject_Z num_parts * pd == duration)%Q).
  { unfold pd. field. intros E. rewrite E in Hn. discriminate Hn. }
  repeat split.
  - apply Qmult_le_0_compat; [assumption|lra].
  - rewrite inject_Z_plus. change (inject_Z 1) with 1%Q. lra.
  - rewrite <- E. apply Qmult_le_compat_r; [|lra].
    rewrite <- Zle_Qle. lia.
Qed.

(** In exact arithmetic the plan is the one of the specification. *)
Lemma calculate_split_times_exact (duration : Q) (num_parts : Z) :
  2 <= num_parts <= 20 -> (0 < duration)%Q ->
  exists ranges,
    calculate_split_times duration num_parts = Ok ranges /\
    is_split_plan duration num_parts ranges.
Proof.
  intros Hn Hd. unfold calculate_split_times.
  destruct (Z.ltb_spec num_parts 2) as [?|_]; [lia|].
  destruct (Z.ltb_spec 20 num_parts) as [?|_]; [lia|].
  cbn [float_truediv float_of_int exact]. unfold py_truediv.
  destruct (Qeq_bool (inject_Z num_parts) 0) eqn:E0.
  { apply Qeq_bool_eq in E0. unfold Qeq in E0; simpl in E0. lia. }
  eexists; split; [reflexivity|].
  set (pd := (duration / inject_Z num_parts)%Q).
  unfold is_split_plan.
  split; [apply split_times_from_shape|]. split; [|split].
  - intros i s e Hi. apply split_times_from_lookup in Hi as (Hi & -> & ->).
    rewrite Z.add_0_l.
    destruct (part_bounds duration num_parts (Z.of_nat i) Hd) as (B1 & B2 & B3); [lia..|].
    repeat split; assumption.
  - destruct (Z.to_nat num_parts) as [|n] eqn:En; [lia|].
    do 2 eexists. split; [reflexivity|]. cbn. ring.
  - destruct (Z.to_nat num_parts) as [|n] eqn:En; [lia|].
    rewrite split_times_from_last. do 2 eexists; split; [reflexivity|].
    replace (0 + Z.of_nat n + 1) with num_parts by lia.
    cbn [float_mul float_of_int exact]. unfold pd. field.
    intros E. apply Qeq_bool_neq in E0. contradiction.
Qed.

(** The claim of C2 fails on binary64 numbers, the floats of Python: for 15
    seconds in 11 parts the last range is
    [[13.636363636363635, 14.999999999999998]]; it ends before 15. *)
Lemma calculate_split_times_15_in_11 :
  2 <= 11 <= 20 /\
  PrimFloat.ltb 0 15 = true /\
  exists ranges,
    calculate_split_times 15%float 11 = Ok ranges /\
    last ranges = Some (0x1.b45d1745d1745p+3, 0x1.dffffffffffffp+3)%float /\
    PrimFloat.eqb 0x1.dffffffffffffp+3 15 = false /\
    PrimFloat.ltb 0x1.dffffffffffffp+3 15 = true.
Proof.
  split; [lia|]. split; [reflexivity|].
  eexists. split; [vm_compute; reflexivity|].
  repeat split; vm_compute; reflexivity.
Qed.

(** C2, amended.  For every part count in [[2,20]], [calculate_split_times]
    returns exactly [num_parts] ranges, range [i] (from 0) being
    [[i * pd, (i + 1) * pd]] with [pd = duration / num_parts], each range
    ending exactly where the next starts; this holds for every binary64
    duration, as computed, and in exact arithmetic.  In exact arithmetic, for
    a duration above 0, the ranges are moreover increasing, they lie in
    [[0, duration]], the first starts at 0 and the last ends at [duration].
    (In binary64 the last end is [num_parts * (duration / num_parts)] as
    rounded, which need not be [duration].) *)
Theorem calculate_split_times_plan (num_parts : Z) (duration64 : float) (duration : Q) :
  2 <= num_parts <= 20 -> (0 < duration)%Q ->
  (exists ranges,
     calculate_split_times duration64 num_parts = Ok ranges /\
     has_plan_shape (PrimFloat.div duration64 (b64_of_int num_parts)) num_parts ranges) /\
  (exists ranges,
     calculate_split_times duration num_parts = Ok ranges /\
     is_split_plan duration num_parts ranges).
Proof.
  intros Hn Hd. split; [|now apply calculate_split_times_exact].
  unfold calculate_split_times.
  destruct (Z.ltb_spec num_parts 2) as [?|_]; [lia|].
  destruct (Z.ltb_spec 20 num_parts) as [?|_]; [lia|].
  cbn [float_truediv float_of_int binary64]. unfold b64_truediv.
  rewrite (b64_of_int_nonzero num_parts Hn).
  eexists; split; [reflexivity|]. apply split_times_from_shape.
Qed.

Lemma calculate_split_times_plan_witness :
  2 <= 3 <= 20 /\ (0 < 600)%Q /\
  (exists ranges,
     calculate_split_times 600%float 3 = Ok ranges /\
     has_plan_shape (PrimFloat.div 600 (b64_of_int 3)) 3 ranges) /\
  (exists ranges,
     calculate_split_times 600%Q 3 = Ok ranges /\ is_split_plan 600 3 ranges).
Proof.
  split; [lia|]. split; [reflexivity|].
  apply (calculate_split_times_plan 3 600%float 600%Q); [lia|reflexivity].
Defined.

(** The scenario of the specification, 600 seconds in 3 parts: in binary64
    the ranges are those of the specification, bit for bit; in exact
    arithmetic they are equal to them. *)
Example calculate_split_times_600_3 :
  calculate_split_times 600%float 3 = Ok [(0, 200); (200, 400); (400, 600)]%float /\
  exists ranges,
    calculate_split_times 600%Q 3 = Ok ranges /\
    Forall2 (fun r r' => (fst r == fst r')%Q /\ (snd r == snd r')%Q)
      ranges [(0, 200); (200, 400); (400, 600)]%Q.
Proof.
  split; [vm_compute; reflexivity|].
  eexists; split; [vm_compute; reflexivity|].
  repeat constructor.
Qed.

(** ** Running the effects *)

Section Runs.

Variable tool : Tool.

Lemma check_ffmpeg_installed_run (w : World) :
  check_ffmpeg_installed tool w =
    (match run tool FfmpegVersion with
     | Ok _ => Ok true
     | Raise e =>
         if catch_kinds [FileNotFoundError; TimeoutExpired] e then Ok false else Raise e
     end, logged w [FfmpegVersion]).
Proof.
  unfold check_ffmpeg_installed, try_except, subprocess_run, mbind, M_bind, mret, M_ret.
  simpl. destruct (run tool FfmpegVersion) as [c|e]; [reflexivity|].
  destruct e as [[] msg]; reflexivity.
Qed.

Lemma get_video_duration_run (video_path : VideoPath) (w : World) report duration :
  run tool (FfprobeDuration (path_str video_path)) = Ok report ->
  returncode report = 0 ->
  py_float (strip (stdout report)) = Ok duration ->
  get_video_duration tool video_path w =
    (Ok duration, logged w [FfprobeDuration (path_str video_path)]).
Proof.
  intros Hrun Hrc Hfloat.
  unfold get_video_duration, try_except, subprocess_run, mbind, M_bind, mret, M_ret, lift.
  simpl. rewrite Hrun, Hrc. simpl. rewrite Hfloat. reflexivity.
Qed.

Lemma unlink_all_run (output_paths : list string) (w : World) :
  exists fs,
    unlink_all output_paths w = (Ok tt, {| files := fs; log := log w |}) /\
    (forall p, p ∈ output_paths -> fs !! p = None) /\
    (forall p, p ∉ output_paths -> fs !! p = files w !! p).
Proof.
  revert w. induction output_paths as [|path rest IH]; intros w.
  - exists (files w). destruct w. split; [reflexivity|].
    split; [intros p Hp; inversion Hp | auto].
  - cbn [unlink_all]. unfold mbind, M_bind, path_unlink.
    destruct (IH {| files := delete path (files w); log := log w |}) as (fs & Hrun & Hin & Hout).
    exists fs. split; [exact Hrun|]. simpl in Hout. split.
    + intros p Hp. destruct (decide (p ∈ rest)) as [Hr|Hr]; [auto|].
      apply elem_of_cons in Hp as [->|Hp]; [|contradiction].
      rewrite Hout by assumption. apply lookup_delete_eq.
    + intros p Hp. apply not_elem_of_cons in Hp as [Hne Hr].
      rewrite Hout by assumption. apply lookup_delete_ne. congruence.
Qed.

Lemma world_eq (fs fs' : gmap string Z) (l : list command) :
  (forall p, fs !! p = fs' !! p) ->
  {| files := fs; log := l |} = {| files := fs'; log := l |}.
Proof. intros H. f_equal. apply map_eq, H. Qed.

Lemma output_is_plausible_run (result : CompletedProcess) (output_path : string) (w : World) :
  output_is_plausible result output_path w =
    (Ok ((returncode result =? 0) &&
         match files w !! output_path with
         | Some st_size => 1000 <? st_size
         | None => false
         end), w).
Proof.
  unfold output_is_plausible, path_exists, path_size, mbind, M_bind, mret, M_ret.
  destruct (returncode result =? 0); [|reflexivity].
  destruct (files w !! output_path) as [st_size|] eqn:Hf; cbn.
  - now rewrite Hf.
  - reflexivity.
Qed.

(** What one attempt does, for both strategies: the [try] block is the one
    that [_split_segment_stream_copy] and [_split_segment_reencode] share. *)
Lemma attempt_run (cmd : command) (output_path : string) (w : World) :
  output_of cmd = Some output_path ->
  try_except
    (result ← subprocess_run tool cmd;
     ok ← output_is_plausible result output_path;
     if (ok : bool) then mret true
     else
       _ ← path_unlink output_path;
       mret false)
    catch_all
    (fun _ =>
       _ ← path_unlink output_path;
       mret false) w
  = (Ok (accepted tool cmd), after_attempt tool cmd output_path w).
Proof.
  intros Hout.
  assert (Hgone : forall (o : option Z),
    {| files := delete output_path (partial_alter (fun _ => o) output_path (files w));
       log := log w ++ [cmd] |}
    = {| files := partial_alter (fun _ => None) output_path (files w);
         log := log w ++ [cmd] |}).
  { intros o. apply world_eq. intros p.
    rewrite lookup_delete, !lookup_partial_alter. case_decide; reflexivity. }
  unfold try_except, subprocess_run, path_unlink, after_attempt, accepted,
    catch_all, mbind, M_bind, mret, M_ret.
  rewrite Hout.
  destruct (run tool cmd) as [result|e]; cbn [files log].
  - rewrite output_is_plausible_run. cbn [files log].
    rewrite lookup_partial_alter_eq.
    destruct (returncode result =? 0); cbn [andb];
      [|apply (f_equal (pair _)), Hgone].
    destruct (leaves tool cmd) as [st_size|];
      [|apply (f_equal (pair _)), Hgone].
    destruct (1000 <? st_size); [reflexivity|].
    apply (f_equal (pair _)), Hgone.
  - apply (f_equal (pair _)), Hgone.
Qed.

Lemma stream_copy_run (input_path : VideoPath) (output_path : string)
    (start_time duration : Q) (w : World) :
  let cmd := FfmpegStreamCopy (path_str input_path) output_path start_time duration in
  _split_segment_stream_copy tool input_path output_path start_time duration w
  = (Ok (accepted tool cmd), after_attempt tool cmd output_path w).
Proof. intros cmd. apply (attempt_run cmd). reflexivity. Qed.

Lemma reencode_run (input_path : VideoPath) (output_path : string)
    (start_time duration : Q) (w : World) :
  let cmd := FfmpegReencode (path_str input_path) output_path start_time duration in
  _split_segment_reencode tool input_path output_path start_time duration w
  = (Ok (accepted tool cmd), after_attempt tool cmd output_path w).
Proof. intros cmd. apply (attempt_run cmd). reflexivity. Qed.

Lemma after_attempt_lookup (cmd : command) (output_path : string) (w : World) (p : string) :
  files (after_attempt tool cmd output_path w) !! p =
    if decide (output_path = p)
    then (if accepted tool cmd then leaves tool cmd else None)
    else files w !! p.
Proof. unfold after_attempt; cbn [files]. apply lookup_partial_alter. Qed.

Section SplitLoop.

Variables (video_path : VideoPath) (output_dir : string).

Let out (i : Z) : string := part_path video_path output_dir i.
Let sc (i : Z) (range : Q * Q) : command := stream_copy_of video_path output_dir i range.
Let re (i : Z) (range : Q * Q) : command := reencode_of video_path output_dir i range.

(** One round of the loop of [split_video], with stream copy enabled. *)
Lemma split_loop_step (i : Z) (range : Q * Q) (rest : list (Q * Q))
    (output_paths : list string) (w : World) :
  split_loop tool video_path output_dir true i (range :: rest) output_paths w =
    let w1 := after_attempt tool (sc i range) (out i) w in
    let w2 := after_attempt tool (re i range) (out i) w1 in
    if accepted tool (sc i range) then
      split_loop tool video_path output_dir true (i + 1) rest
        (output_paths ++ [out i]) w1
    else if accepted tool (re i range) then
      split_loop tool video_path output_dir true (i + 1) rest
        (output_paths ++ [out i]) w2
    else
      (Raise (Exn ValueError ("Failed to split video at part " +:+ fmt_d i)),
       (unlink_all output_paths w2).2).
Proof.
  destruct range as [start_time end_time].
  cbn [split_loop]. unfold mbind, M_bind.
  rewrite stream_copy_run.
  change (FfmpegStreamCopy _ _ _ _) with (sc i (start_time, end_time)).
  change (part_path video_path output_dir i) with (out i).
  destruct (accepted tool (sc i (start_time, end_time))); cbn zeta; [reflexivity|].
  rewrite reencode_run.
  change (FfmpegReencode _ _ _ _) with (re i (start_time, end_time)).
  destruct (accepted tool (re i (start_time, end_time))); [reflexivity|].
  destruct (unlink_all_run output_paths
              (after_attempt tool (re i (start_time, end_time)) (out i)
                 (after_attempt tool (sc i (start_time, end_time)) (out i) w)))
    as (fs & -> & _).
  reflexivity.
Qed.

Lemma not_fails_both (i : Z) (range : Q * Q) :
  ~ fails_both tool video_path output_dir i range ->
  accepted tool (sc i range) = true \/
  (accepted tool (sc i range) = false /\ accepted tool (re i range) = true).
Proof.
  unfold fails_both. fold (sc i range) (re i range). intros H.
  destruct (accepted tool (sc i range)); [now left|].
  destruct (accepted tool (re i range)); [now right|].
  exfalso. apply H. now split.
Qed.

(** The loop aborts at the first part that fails both strategies: it names
    that part, and neither the paths collected before nor the paths of the
    parts up to it hold a file afterwards; other paths are as they were. *)
Lemma split_loop_fails (k : nat) :
  forall (times : list (Q * Q)) (i : Z) (output_paths : list string)
         (w : World) (range : Q * Q),
  times !! k = Some range ->
  (forall (j : nat) r, (j < k)%nat -> times !! j = Some r ->
     ~ fails_both tool video_path output_dir (i + Z.of_nat j) r) ->
  fails_both tool video_path output_dir (i + Z.of_nat k) range ->
  exists w',
    split_loop tool video_path output_dir true i times output_paths w =
      (Raise (Exn ValueError
                ("Failed to split video at part " +:+ fmt_d (i + Z.of_nat k))), w') /\
    (forall p, p ∈ output_paths -> files w' !! p = None) /\
    (forall j : nat, (j <= k)%nat -> files w' !! out (i + Z.of_nat j) = None) /\
    (forall p, p ∉ output_paths ->
       (forall j : nat, (j <= k)%nat -> p <> out (i + Z.of_nat j)) ->
       files w' !! p = files w !! p).
Proof.
  induction k as [|k IH]; intros times i output_paths w range Hk Hbefore Hfail.
  - destruct times as [|r rest]; [discriminate Hk|]. injection Hk as ->.
    rewrite Z.add_0_r in *. destruct Hfail as [Hsc Hre].
    fold (sc i range) in Hsc. fold (re i range) in Hre.
    rewrite split_loop_step. cbn zeta. rewrite Hsc, Hre.
    set (w2 := after_attempt tool (re i range) (out i)
                 (after_attempt tool (sc i range) (out i) w)).
    destruct (unlink_all_run output_paths w2) as (fs & Hrun & Hin & Hout).
    rewrite Hrun. cbn [snd]. eexists; split; [reflexivity|]. cbn [files].
    assert (Hw2 : forall p, files w2 !! p = if decide (out i = p) then None else files w !! p).
    { intros p. unfold w2. rewrite !after_attempt_lookup, Hsc, Hre.
      case_decide; reflexivity. }
    repeat split.
    + exact Hin.
    + intros j Hj. assert (j = 0%nat) as -> by lia. rewrite Z.add_0_r.
      destruct (decide (out i ∈ output_paths)) as [Hi|Hi]; [auto|].
      rewrite Hout, Hw2 by assumption. now rewrite decide_True.
    + intros p Hp Hne. rewrite Hout, Hw2 by assumption.
      rewrite decide_False; [reflexivity|].
      specialize (Hne 0%nat (Nat.le_refl 0)). rewrite Z.add_0_r in Hne. congruence.
  - destruct times as [|r rest]; [discriminate Hk|]. cbn in Hk.
    assert (Hr : ~ fails_both tool video_path output_dir i r).
    { specialize (Hbefore 0%nat r). rewrite Z.add_0_r in Hbefore.
      apply Hbefore; [lia|reflexivity]. }
    assert (Hstep : exists w1,
      split_loop tool video_path output_dir true i (r :: rest) output_paths w =
        split_loop tool video_path output_dir true (i + 1) rest
          (output_paths ++ [out i]) w1 /\
      forall p, p <> out i -> files w1 !! p = files w !! p).
    { rewrite split_loop_step. cbn zeta.
      destruct (not_fails_both i r Hr) as [Hsc|[Hsc Hre]]; rewrite Hsc; [|rewrite Hre];
        eexists; (split; [reflexivity|]); intros p Hp;
        rewrite !after_attempt_lookup; rewrite !decide_False by congruence;
        reflexivity. }
    destruct Hstep as (w1 & -> & Hw1).
    destruct (IH rest (i + 1) (output_paths ++ [out i]) w1 range Hk) as (w' & Hrun & Hin & Hparts & Hout).
    { intros j r' Hj Hjr. replace (i + 1 + Z.of_nat j) with (i + Z.of_nat (S j)) by lia.
      apply Hbefore; [lia|exact Hjr]. }
    { replace (i + 1 + Z.of_nat k) with (i + Z.of_nat (S k)) by lia. exact Hfail. }
    exists w'. replace (i + Z.of_nat (S k)) with (i + 1 + Z.of_nat k) by lia.
    split; [exact Hrun|]. repeat split.
    + intros p Hp. apply Hin. apply elem_of_app. now left.
    + intros [|j] Hj.
      * rewrite Z.add_0_r. apply Hin. apply elem_of_app. right. now apply list_elem_of_singleton.
      * replace (i + Z.of_nat (S j)) with (i + 1 + Z.of_nat j) by lia. apply Hparts. lia.
    + intros p Hp Hne.
      assert (Hpi : p <> out i).
      { specialize (Hne 0%nat). rewrite Z.add_0_r in Hne. apply Hne. lia. }
      rewrite Hout.
      * apply Hw1, Hpi.
      * intros Hin'. apply elem_of_app in Hin' as [?|Hin']; [contradiction|].
        apply list_elem_of_singleton in Hin'. contradiction.
      * intros j Hj. replace (i + 1 + Z.of_nat j) with (i + Z.of_nat (S j)) by lia.
        apply Hne. lia.
Qed.

End SplitLoop.

End Runs.

(** ** SegmentExtractor *)

Lemma string_length_app (s t : string) :
  String.length (s +:+ t) = (String.length s + String.length t)%nat.
Proof.
  induction s as [|c s IH]; [reflexivity|].
  change (String c s +:+ t) with (String c (s +:+ t)). simpl. now rewrite IH.
Qed.

Lemma string_app_inj_r (s1 s2 t : string) : s1 +:+ t = s2 +:+ t -> s1 = s2.
Proof.
  revert s2. induction s1 as [|c s1 IH]; intros [|c' s2] H.
  - reflexivity.
  - apply (f_equal String.length) in H.
    change ("" +:+ t) with t in H. change (String c' s2 +:+ t) with (String c' (s2 +:+ t)) in H.
    simpl in H. rewrite string_length_app in H. lia.
  - apply (f_equal String.length) in H.
    change ("" +:+ t) with t in H. change (String c s1 +:+ t) with (String c (s1 +:+ t)) in H.
    simpl in H. rewrite string_length_app in H. lia.
  - change (String c s1 +:+ t) with (String c (s1 +:+ t)) in H.
    change (String c' s2 +:+ t) with (String c' (s2 +:+ t)) in H.
    injection H as -> H. f_equal. now apply IH.
Qed.

Lemma part_path_inj (video_path : VideoPath) (output_dir : string) (i j : Z) :
  part_path video_path output_dir i = part_path video_path output_dir j -> i = j.
Proof.
  unfold part_path, path_join, fmt_d. intros H.
  do 4 apply String.app_inj in H.
  apply string_app_inj_r in H. now apply pretty_Z_inj in H.
Qed.

(** C1.  Split extraction is all-or-nothing.  When the tools are there, the
    plan is computed and part [i] is the first part that fails both the
    stream-copy and the re-encode strategy, [split_video] raises the
    extraction error naming [i], no file is left at the output path of any
    part up to [i], and the output paths of the later parts are as they were
    before the call (nothing was produced there). *)
Theorem split_video_all_or_nothing (tool : Tool) (video_path : VideoPath)
    (output_dir : string) (num_parts : Z) (w : World)
    (duration : Q) (plan : list (Q * Q)) (i : Z) (range : Q * Q) :
  probes_duration tool video_path duration ->
  calculate_split_times duration num_parts = Ok plan ->
  1 <= i ->
  plan !! Z.to_nat (i - 1) = Some range ->
  fails_both tool video_path output_dir i range ->
  (forall j r, 1 <= j < i -> plan !! Z.to_nat (j - 1) = Some r ->
     ~ fails_both tool video_path output_dir j r) ->
  exists w',
    split_video tool video_path num_parts output_dir true w =
      (Raise (Exn ValueError ("Failed to split video at part " +:+ fmt_d i)), w') /\
    (forall j, 1 <= j <= i -> files w' !! part_path video_path output_dir j = None) /\
    (forall j, i < j ->
       files w' !! part_path video_path output_dir j =
       files w !! part_path video_path output_dir j).
Proof.
  intros ((version & Hversion) & report & Hrun & Hrc & Hfloat) Hplan Hi Hrange Hfail Hfirst.
  assert (Hparts : (num_parts <? 2) || (20 <? num_parts) = false).
  { unfold calculate_split_times in Hplan.
    destruct (num_parts <? 2); [discriminate Hplan|].
    destruct (20 <? num_parts); [discriminate Hplan|reflexivity]. }
  unfold split_video, mbind at 1 2 3, M_bind, lift.
  rewrite check_ffmpeg_installed_run, Hversion. cbn [negb].
  rewrite Hparts.
  rewrite (get_video_duration_run tool video_path _ report duration Hrun Hrc Hfloat).
  rewrite Hplan.
  set (w0 := logged (logged w [FfmpegVersion]) [FfprobeDuration (path_str video_path)]).
  destruct (split_loop_fails tool video_path output_dir (Z.to_nat (i - 1))
              plan 1 [] w0 range Hrange) as (w' & Hloop & _ & Hgone & Hkept).
  { intros j r Hj Hjr. apply Hfirst; [lia|].
    replace (1 + Z.of_nat j - 1) with (Z.of_nat j) by lia. now rewrite Nat2Z.id. }
  { replace (1 + Z.of_nat (Z.to_nat (i - 1))) with i by lia. exact Hfail. }
  replace (1 + Z.of_nat (Z.to_nat (i - 1))) with i in Hloop by lia.
  exists w'. split; [exact Hloop|]. split.
  - intros j Hj. replace j with (1 + Z.of_nat (Z.to_nat (j - 1))) by lia.
    apply Hgone. lia.
  - intros j Hj. rewrite Hkept; [reflexivity| |].
    + intros Hin. inversion Hin.
    + intros k Hk Heq. apply part_path_inj in Heq. lia.
Qed.

Lemma split_video_all_or_nothing_witness :
  let plan := split_times_from (500 / 5)%Q 0 5 in
  let range := (2 * (500 / 5), 3 * (500 / 5))%Q in
  probes_duration part3_fails clip 500 /\
  calculate_split_times 500%Q 5 = Ok plan /\
  1 <= 3 /\
  plan !! Z.to_nat (3 - 1) = Some range /\
  fails_both part3_fails clip "out" 3 range /\
  (forall j r, 1 <= j < 3 -> plan !! Z.to_nat (j - 1) = Some r ->
     ~ fails_both part3_fails clip "out" j r) /\
  exists w',
    split_video part3_fails clip 5 "out" true empty_world =
      (Raise (Exn ValueError "Failed to split video at part 3"), w') /\
    (forall j, 1 <= j <= 3 -> files w' !! part_path clip "out" j = None) /\
    (forall j, 3 < j ->
       files w' !! part_path clip "out" j = files empty_world !! part_path clip "out" j).
Proof.
  intros plan range.
  assert (H1 : probes_duration part3_fails clip 500).
  { split; [eexists; reflexivity|]. eexists. repeat split; reflexivity. }
  assert (H2 : calculate_split_times 500%Q 5 = Ok plan) by reflexivity.
  assert (H3 : plan !! Z.to_nat (3 - 1) = Some range) by reflexivity.
  assert (H4 : fails_both part3_fails clip "out" 3 range) by (split; reflexivity).
  assert (H5 : forall j r, 1 <= j < 3 -> plan !! Z.to_nat (j - 1) = Some r ->
                 ~ fails_both part3_fails clip "out" j r).
  { intros j r Hj Hr [Hsc _].
    assert (j = 1 \/ j = 2) as [-> | ->] by lia;
      vm_compute in Hr; injection Hr as <-; vm_compute in Hsc; discriminate Hsc. }
  repeat (split; [assumption || lia|]).
  exact (split_video_all_or_nothing part3_fails clip "out" 5 empty_world 500 plan 3 range
           H1 H2 ltac:(lia) H3 H4 H5).
Defined.

(** The scenario of the specification: part 3 of 5 fails both strategies.
    Parts 1 and 2 were produced and are deleted again; no file remains. *)
Example split_video_part3_of_5 :
  split_video part3_fails clip 5 "out" true empty_world =
    (Raise (Exn ValueError "Failed to split video at part 3"),
     {| files := ∅;
        log := [ FfmpegVersion; FfprobeDuration "in/clip.mp4";
                 stream_copy_of clip "out" 1 (0 * (500 / 5), 1 * (500 / 5))%Q;
                 stream_copy_of clip "out" 2 (1 * (500 / 5), 2 * (500 / 5))%Q;
                 stream_copy_of clip "out" 3 (2 * (500 / 5), 3 * (500 / 5))%Q;
                 reencode_of clip "out" 3 (2 * (500 / 5), 3 * (500 / 5))%Q ] |}).
Proof. vm_compute. reflexivity. Qed.

Lemma unlink_all_log (output_paths : list string) (w : World) :
  log (unlink_all output_paths w).2 = log w.
Proof.
  destruct (unlink_all_run output_paths w) as (fs & -> & _). reflexivity.
Qed.

Lemma split_loop_log (tool : Tool) (video_path : VideoPath) (output_dir : string)
    (times : list (Q * Q)) :
  forall (i : Z) (output_paths : list string) (w : World),
  exists l,
    log (split_loop tool video_path output_dir true i times output_paths w).2 = log w ++ l.
Proof.
  induction times as [|range rest IH]; intros i output_paths w.
  - exists []. cbn. now rewrite app_nil_r.
  - rewrite split_loop_step. cbn zeta.
    destruct (accepted tool (stream_copy_of video_path output_dir i range)).
    + destruct (IH (i + 1) (output_paths ++ [part_path video_path output_dir i])
                  (after_attempt tool (stream_copy_of video_path output_dir i range)
                     (part_path video_path output_dir i) w)) as (l & ->).
      eexists. cbn [after_attempt log]. now rewrite <- app_assoc.
    + destruct (accepted tool (reencode_of video_path output_dir i range)).
      * destruct (IH (i + 1) (output_paths ++ [part_path video_path output_dir i])
                    (after_attempt tool (reencode_of video_path output_dir i range)
                       (part_path video_path output_dir i)
                       (after_attempt tool (stream_copy_of video_path output_dir i range)
                          (part_path video_path output_dir i) w))) as (l & ->).
        eexists. cbn [after_attempt log]. now rewrite <- !app_assoc.
      * cbn [snd]. rewrite unlink_all_log. cbn [after_attempt log].
        eexists. now rewrite <- app_assoc.
Qed.

Lemma accepted_iff (tool : Tool) (cmd : command) :
  accepted tool cmd = true <->
  exists result st_size,
    run tool cmd = Ok result /\ returncode result = 0 /\
    leaves tool cmd = Some st_size /\ 1000 < st_size.
Proof.
  unfold accepted. split.
  - destruct (run tool cmd) as [result|e]; [|discriminate].
    destruct (Z.eqb_spec (returncode result) 0) as [Hrc|]; [|discriminate].
    destruct (leaves tool cmd) as [st_size|]; [|discriminate].
    cbn. intros H%Z.ltb_lt. eauto 6.
  - intros (result & st_size & -> & -> & -> & H). cbn. now apply Z.ltb_lt.
Qed.

(** C3.  The stream-copy strategy accepts a range exactly when the process
    returned with exit status 0, the output file exists and it has more than
    1000 bytes.  In every other case (a file of 500 bytes after a successful
    exit is one) the stream-copy result is removed from the output path and
    the next command that [split_video] runs is the re-encode of the same
    input over the same range into the same output path. *)
Theorem stream_copy_accepts_or_falls_back (tool : Tool) (video_path : VideoPath)
    (output_dir : string) (i : Z) (range : Q * Q) (rest : list (Q * Q))
    (output_paths : list string) (w : World) :
  let output_path := part_path video_path output_dir i in
  let copy := stream_copy_of video_path output_dir i range in
  let attempt :=
    _split_segment_stream_copy tool video_path output_path
      (fst range) (snd range - fst range)%Q w in
  attempt.1 = Ok (accepted tool copy) /\
  (accepted tool copy = true <->
     exists result st_size,
       run tool copy = Ok result /\ returncode result = 0 /\
       leaves tool copy = Some st_size /\ 1000 < st_size) /\
  (accepted tool copy = false ->
     files attempt.2 !! output_path = None /\
     exists l,
       log (split_loop tool video_path output_dir true i (range :: rest) output_paths w).2
       = log w ++ [copy; reencode_of video_path output_dir i range] ++ l).
Proof.
  intros output_path copy attempt. unfold attempt.
  rewrite stream_copy_run. fold output_path. cbn [fst snd].
  change (FfmpegStreamCopy _ _ _ _) with copy.
  split; [reflexivity|]. split; [apply accepted_iff|].
  intros Hno. split.
  - rewrite after_attempt_lookup, Hno. now rewrite decide_True.
  - rewrite split_loop_step. cbn zeta. fold copy output_path. rewrite Hno.
    set (re := reencode_of video_path output_dir i range).
    set (w2 := after_attempt tool re output_path (after_attempt tool copy output_path w)).
    assert (Hw2 : log w2 = log w ++ [copy; re]).
    { unfold w2. cbn [after_attempt log]. now rewrite <- app_assoc. }
    destruct (accepted tool re).
    + destruct (split_loop_log tool video_path output_dir rest (i + 1)
                  (output_paths ++ [output_path]) w2) as (l & ->).
      exists l. now rewrite Hw2, <- app_assoc.
    + cbn [snd]. rewrite unlink_all_log, Hw2. exists []. reflexivity.
Qed.

(** The scenario of the specification: the stream copy reports success but
    leaves 500 bytes; the re-encode of the same range follows. *)
Lemma stream_copy_accepts_or_falls_back_witness :
  let copy := stream_copy_of clip "out" 1 (0, 300)%Q in
  (exists result, run small_copy copy = Ok result /\ returncode result = 0) /\
  leaves small_copy copy = Some 500 /\
  accepted small_copy copy = false /\
  files (_split_segment_stream_copy small_copy clip (part_path clip "out" 1)
           0 (300 - 0)%Q empty_world).2 !! part_path clip "out" 1 = None /\
  exists l,
    log (split_loop small_copy clip "out" true 1 [(0, 300); (300, 600)]%Q [] empty_world).2
    = log empty_world ++ [copy; reencode_of clip "out" 1 (0, 300)%Q] ++ l.
Proof.
  intros copy.
  assert (Hno : accepted small_copy copy = false) by reflexivity.
  split; [eexists; split; reflexivity|]. split; [reflexivity|]. split; [exact Hno|].
  exact (proj2 (proj2 (stream_copy_accepts_or_falls_back small_copy clip "out" 1
                         (0, 300)%Q [(300, 600)%Q] [] empty_world)) Hno).
Defined.

(** ** Binary64: the conversions on known values *)

(** [float("0.1")], [float("0.3")], [float("600.111000")]; 2^53 + 1 and
    2^53 + 3 lie half-way between two floats and go to the even one; beyond
    the range the nearest float is an infinity, below it a zero. *)
Example b64_of_Q_known :
  b64_of_Q (1 # 10) = 0x1.999999999999ap-4%float /\
  b64_of_Q (3 # 10) = 0x1.3333333333333p-2%float /\
  (py_float "600.111000" ≫= fun q => Ok (b64_of_Q q)) = Ok 0x1.2c0e353f7ced9p+9%float /\
  b64_of_Q (inject_Z (2 ^ 53 + 1)) = 0x1p+53%float /\
  b64_of_Q (inject_Z (2 ^ 53 + 3)) = 0x1.0000000000002p+53%float /\
  b64_of_Q (inject_Z (10 ^ 309)) = infinity /\
  b64_of_Q (1 # 10 ^ 400) = 0%float /\
  b64_of_Q (- (1 # 3)) = (-0x1.5555555555555p-2)%float.
Proof. repeat split; vm_compute; reflexivity. Qed.

(** [round(0.125, 2)] is 0.12 and [round(0.375, 2)] is 0.38 (ties to even on
    the value of the float); [round(2.675, 2)] is 2.67, the float written
    2.675 lying below it; [round(-0.001, 2)] is -0.0. *)
Example b64_round_known :
  b64_round 0x1p-3 2 = b64_of_Q (12 # 100) /\
  b64_round 0x1.8p-2 2 = b64_of_Q (38 # 100) /\
  b64_round (b64_of_Q (2675 # 1000)) 2 = b64_of_Q (267 # 100) /\
  b64_round (b64_of_Q (- (1 # 1000))) 2 = neg_zero /\
  b64_round infinity 2 = infinity.
Proof. repeat split; vm_compute; reflexivity. Qed.

(** [int(-7.9)], [int(2.0 ** 60)], [int(float("inf"))], [int(float("nan"))];
    [10 ** 400 / 3] and [1.0 - 10 ** 400] overflow, [0 / -5] is -0.0. *)
Example b64_of_int_known :
  b64_to_int (b64_of_Q (- (79 # 10))) = Ok (-7) /\
  b64_to_int 0x1p+60 = Ok (2 ^ 60) /\
  b64_to_int infinity = Raise (Exn OverflowError "cannot convert float infinity to integer") /\
  b64_to_int nan = Raise (Exn ValueError "cannot convert float NaN to integer") /\
  b64_int_truediv (10 ^ 400) 3
    = Raise (Exn OverflowError "integer division result too large for a float") /\
  b64_of_operand (10 ^ 400) = Raise (Exn OverflowError "int too large to convert to float") /\
  b64_int_truediv 0 (-5) = Ok neg_zero /\
  b64_int_truediv 104857600 (1024 * 1024) = Ok 100%float.
Proof. repeat split; vm_compute; reflexivity. Qed.

Lemma b64_positive_nonzero (x : float) :
  PrimFloat.ltb 0 x = true -> PrimFloat.eqb x 0 = false.
Proof.
  rewrite FloatAxioms.ltb_spec, FloatAxioms.eqb_spec. unfold SFltb, SFeqb.
  change (Prim2SF 0) with (S754_zero false).
  destruct (Prim2SF x) as [s|s| |s m e]; cbn; try discriminate; try reflexivity.
  - destruct s; reflexivity.
  - destruct s; reflexivity.
Qed.

(** ** CompressionEngine: target size *)

(** What the two-pass encode does once [int(video_bitrate_kbps)] has a
    value: it returns, and pass 1 at that bitrate is the first command it
    runs. *)
Lemma run_two_pass_encode_log {F : Type} `{PyFloat F} (tool : Tool) (input_path : VideoPath)
    (output_path : string) (video_bitrate_kbps : F) (audio_bitrate_kbps : Z)
    (passlogfile : string) (w : World) (bitrate : Z) :
  float_to_int video_bitrate_kbps = Ok bitrate ->
  exists (success : bool) (w' : World) (l : list command),
    _run_two_pass_encode tool input_path output_path video_bitrate_kbps
      audio_bitrate_kbps passlogfile w = (Ok success, w') /\
    log w' = log w ++ [FfmpegPass1 (path_str input_path) bitrate passlogfile] ++ l.
Proof.
  intros Hint.
  unfold _run_two_pass_encode, try_except, subprocess_run, path_exists, path_unlink,
    catch_all, lift, mbind, M_bind, mret, M_ret.
  rewrite Hint. cbn [output_of files log].
  destruct (run tool (FfmpegPass1 _ _ _)) as [result1|e1].
  - destruct (returncode result1 =? 0); cbn [negb].
    + destruct (run tool (FfmpegPass2 _ _ _ _ _)) as [result2|e2]; cbn [files log].
      * destruct (returncode result2 =? 0); cbn [files log].
        -- destruct (bool_decide _); do 3 eexists; (split; [reflexivity|]);
             cbn [files log]; rewrite <- app_assoc; reflexivity.
        -- do 3 eexists; split; [reflexivity|].
           cbn [files log]. rewrite <- app_assoc. reflexivity.
      * do 3 eexists; split; [reflexivity|].
        cbn [files log]. rewrite <- app_assoc. reflexivity.
    + exists false. do 2 eexists. split; [reflexivity|]. cbn [log].
      instantiate (1 := []). reflexivity.
  - exists false. do 2 eexists. split; [reflexivity|]. cbn [log].
    instantiate (1 := []). reflexivity.
Qed.

(** When [int(video_bitrate_kbps)] raises (an infinity, NaN), no command is
    run and the answer is [False]. *)
Lemma run_two_pass_encode_no_bitrate {F : Type} `{PyFloat F} (tool : Tool)
    (input_path : VideoPath) (output_path : string) (video_bitrate_kbps : F)
    (audio_bitrate_kbps : Z) (passlogfile : string) (w : World) (e : exn) :
  float_to_int video_bitrate_kbps = Raise e ->
  _run_two_pass_encode tool input_path output_path video_bitrate_kbps
    audio_bitrate_kbps passlogfile w
  = (Ok false, {| files := delete output_path (files w); log := log w |}).
Proof.
  intros Hint.
  unfold _run_two_pass_encode, try_except, path_unlink, catch_all, lift, mbind, M_bind,
    mret, M_ret.
  rewrite Hint. reflexivity.
Qed.

Lemma run_two_pass_encode_returns {F : Type} `{PyFloat F} (tool : Tool)
    (input_path : VideoPath) (output_path : string) (video_bitrate_kbps : F)
    (audio_bitrate_kbps : Z) (passlogfile : string) (w : World) :
  exists (success : bool) (w' : World),
    _run_two_pass_encode tool input_path output_path video_bitrate_kbps
      audio_bitrate_kbps passlogfile w = (Ok success, w').
Proof.
  destruct (float_to_int video_bitrate_kbps) as [bitrate|e] eqn:Hint.
  - destruct (run_two_pass_encode_log tool input_path output_path video_bitrate_kbps
                audio_bitrate_kbps passlogfile w bitrate Hint) as (success & w' & l & Hrun & _).
    eauto.
  - rewrite (run_two_pass_encode_no_bitrate tool input_path output_path video_bitrate_kbps
               audio_bitrate_kbps passlogfile w e Hint).
    eauto.
Qed.

(** The run of [compress_target_size] once the tools are there, the duration
    is read and the bitrate is computed. *)
Lemma compress_target_size_run {F : Type} `{PyFloat F} (tool : Tool) (video_path : VideoPath)
    (target_size_mb : F) (output_path : string) (audio_bitrate_kbps : Z)
    (w : World) (seconds : Q) (rate audio : F) :
  probes_duration tool video_path seconds ->
  float_truediv (float_mul target_size_mb (float_of_int 8192)) (float_of_decimal seconds)
    = Ok rate ->
  float_of_operand audio_bitrate_kbps = Ok audio ->
  compress_target_size tool video_path target_size_mb output_path audio_bitrate_kbps w =
    let w0 := logged (logged w [FfmpegVersion]) [FfprobeDuration (path_str video_path)] in
    if float_ltb (float_sub rate audio) (float_of_int 100) then
      (Raise (Exn ValueError "Target size too small - would result in unplayable video"), w0)
    else
      match _run_two_pass_encode tool video_path output_path (float_sub rate audio)
              audio_bitrate_kbps (path_join (temp_dir tool) "ffmpeg2pass") w0 with
      | (Ok success, w') =>
          if negb success then (Raise (Exn ValueError "Video compression failed"), w')
          else (Ok output_path, w')
      | (Raise e, w') => (Raise e, w')
      end.
Proof.
  intros ((version & Hversion) & report & Hrun & Hrc & Hfloat) Hrate Haudio.
  unfold compress_target_size, mbind at 1 2 3 4, M_bind, lift.
  rewrite check_ffmpeg_installed_run, Hversion. cbn [negb].
  rewrite (get_video_duration_run tool video_path _ report seconds Hrun Hrc Hfloat).
  cbv zeta. rewrite Hrate, Haudio.
  destruct (float_ltb _ _); [reflexivity|].
  unfold mbind, M_bind.
  destruct (_run_two_pass_encode _ _ _ _ _ _ _) as [[[]|e] w']; reflexivity.
Qed.

(** C4.  The bitrate is computed in binary64, as Python does.  When the
    tools are there and the probed duration (the float nearest to the number
    that ffprobe printed) is above 0, target-size compression computes the
    video bitrate [target_size_mb * 8192 / duration - audio_bitrate_kbps]
    (128 by default).  When that bitrate is below 100 it raises the
    target-too-small error and the only commands run are the version check
    and the duration probe: no encode pass.  When it is not below 100 the
    outcome is not the target-too-small error, and the first encode pass is
    run at that bitrate, cut to an int (whenever it has an int value, that
    is, unless it is an infinity or NaN). *)
Theorem compress_target_size_floor (tool : Tool) (video_path : VideoPath)
    (target_size_mb : float) (output_path : string) (audio_bitrate_kbps : Z)
    (w : World) (seconds : Q) (audio : float) :
  probes_duration tool video_path seconds ->
  let duration := b64_of_Q seconds in
  PrimFloat.ltb 0 duration = true ->
  b64_of_operand audio_bitrate_kbps = Ok audio ->
  let video_bitrate_kbps := (target_size_mb * 8192 / duration - audio)%float in
  let too_small : result string :=
    Raise (Exn ValueError "Target size too small - would result in unplayable video") in
  let outcome :=
    compress_target_size tool video_path target_size_mb output_path audio_bitrate_kbps w in
  (PrimFloat.ltb video_bitrate_kbps 100 = true ->
     outcome.1 = too_small /\
     files outcome.2 = files w /\
     log outcome.2 = log w ++ [FfmpegVersion; FfprobeDuration (path_str video_path)]) /\
  (PrimFloat.ltb video_bitrate_kbps 100 = false ->
     outcome.1 <> too_small /\
     forall bitrate, b64_to_int video_bitrate_kbps = Ok bitrate ->
       exists l,
         log outcome.2 = log w ++
           [FfmpegVersion; FfprobeDuration (path_str video_path);
            FfmpegPass1 (path_str video_path) bitrate
              (path_join (temp_dir tool) "ffmpeg2pass")] ++ l).
Proof.
  intros Hprobe duration Hd Haudio video_bitrate_kbps too_small outcome.
  assert (Hrate : float_truediv (float_mul target_size_mb (float_of_int 8192))
                    (float_of_decimal seconds)
                  = Ok (target_size_mb * 8192 / duration)%float).
  { cbn [float_truediv float_mul float_of_int float_of_decimal binary64].
    unfold b64_truediv, PrimFloat.zero. fold duration.
    rewrite (b64_positive_nonzero duration Hd). reflexivity. }
  assert (Hout := compress_target_size_run tool video_path target_size_mb output_path
                    audio_bitrate_kbps w seconds _ audio Hprobe Hrate Haudio).
  fold outcome in Hout. cbn [float_sub float_ltb float_of_int binary64] in Hout.
  change (b64_of_int 100) with 100%float in Hout.
  fold video_bitrate_kbps in Hout. cbv zeta in Hout. rewrite Hout. split.
  - intros ->. cbn. rewrite <- app_assoc. repeat split.
  - intros ->. split.
    + unfold too_small.
      destruct (run_two_pass_encode_returns tool video_path output_path video_bitrate_kbps
                  audio_bitrate_kbps (path_join (temp_dir tool) "ffmpeg2pass")
                  (logged (logged w [FfmpegVersion]) [FfprobeDuration (path_str video_path)]))
        as (success & w' & ->).
      destruct success; cbn; discriminate.
    + intros bitrate Hint.
      destruct (@run_two_pass_encode_log float binary64 tool video_path output_path
                  video_bitrate_kbps audio_bitrate_kbps
                  (path_join (temp_dir tool) "ffmpeg2pass")
                  (logged (logged w [FfmpegVersion]) [FfprobeDuration (path_str video_path)])
                  bitrate Hint)
        as (success & w' & l & -> & Hlog).
      exists l. destruct success; cbn [negb snd]; rewrite Hlog; cbn [logged log];
        rewrite <- !app_assoc; reflexivity.
Qed.

(** The scenario of the specification: 10 MB for 600 seconds, audio at 128. *)
Lemma compress_target_size_floor_witness :
  let outcome :=
    compress_target_size small_copy clip 10%float "out/small.mp4" 128 empty_world in
  probes_duration small_copy clip 600 /\
  PrimFloat.ltb 0 (b64_of_Q 600) = true /\
  b64_of_operand 128 = Ok 128%float /\
  PrimFloat.ltb (10 * 8192 / b64_of_Q 600 - 128) 100 = true /\
  outcome.1 = Raise (Exn ValueError "Target size too small - would result in unplayable video") /\
  files outcome.2 = files empty_world /\
  log outcome.2 = log empty_world ++ [FfmpegVersion; FfprobeDuration (path_str clip)].
Proof.
  intros outcome.
  assert (H1 : probes_duration small_copy clip 600).
  { split; [eexists; reflexivity|]. eexists. repeat split; reflexivity. }
  assert (H2 : PrimFloat.ltb 0 (b64_of_Q 600) = true) by reflexivity.
  assert (H3 : b64_of_operand 128 = Ok 128%float) by reflexivity.
  assert (H4 : PrimFloat.ltb (10 * 8192 / b64_of_Q 600 - 128) 100 = true) by reflexivity.
  split; [exact H1|]. split; [exact H2|]. split; [exact H3|]. split; [exact H4|].
  exact (proj1 (compress_target_size_floor small_copy clip 10%float "out/small.mp4" 128
                  empty_world 600 128%float H1 H2 H3) H4).
Defined.

(** Where the two arithmetics part: 600.111 seconds and a target of
    16.70230810546875 MB.  In binary64 the quotient rounds to 228, the
    bitrate is 100.0 and not below the floor: both passes run at 100k and the
    output path is returned.  In exact arithmetic the same target gives a
    bitrate below 100. *)
Example compress_target_size_at_the_floor :
  let target := 0x1.0b3ca76c8b439p+4%float in
  let passlogfile := "/tmp/tmpdir/ffmpeg2pass" in
  (target * 8192 / b64_of_Q (600111 # 1000) - 128 = 100)%float /\
  compress_target_size odd_duration clip target "out/small.mp4" 128 empty_world =
    (Ok "out/small.mp4",
     {| files := {[ "out/small.mp4" := 5000 ]};
        log := [FfmpegVersion; FfprobeDuration "in/clip.mp4";
                FfmpegPass1 "in/clip.mp4" 100 passlogfile;
                FfmpegPass2 "in/clip.mp4" "out/small.mp4" 100 128 passlogfile] |}) /\
  exists q,
    b64_to_Q target = Some q /\
    (q * 8192 / (600111 # 1000) - 128 < 100)%Q /\
    (compress_target_size odd_duration clip q "out/small.mp4" 128 empty_world).1 =
      Raise (Exn ValueError "Target size too small - would result in unplayable video").
Proof.
  intros target passlogfile. split; [reflexivity|]. split; [vm_compute; reflexivity|].
  eexists. split; [vm_compute; reflexivity|]. split; vm_compute; reflexivity.
Qed.

(** ** CompressionEngine: quality preset *)

Lemma crf_of_unknown_preset (preset : string) :
  lower preset ∉ ["low"; "medium"; "high"] -> _get_crf_for_preset preset = 23.
Proof.
  intros H. rewrite !not_elem_of_cons in H. destruct H as (H1 & H2 & H3 & _).
  unfold _get_crf_for_preset.
  rewrite !lookup_insert_ne, lookup_singleton_ne by congruence. reflexivity.
Qed.

(** The claim of C8 fails on the engine: the preset [ultra] is not rejected,
    the encode is run with CRF 23 and its output is returned. *)
Lemma compress_quality_accepts_ultra :
  ("ultra" ∉ ["low"; "medium"; "high"]) /\
  compress_quality (encoder no_streams) clip "ultra" "out/small.mp4" 128 empty_world =
    (Ok "out/small.mp4",
     {| files := {[ "out/small.mp4" := 5000 ]};
        log := [FfmpegVersion; FfmpegCrf "in/clip.mp4" "out/small.mp4" 23 128] |}).
Proof.
  split.
  - rewrite !not_elem_of_cons. repeat split; try discriminate. apply not_elem_of_nil.
  - vm_compute. reflexivity.
Qed.

(** The rejection of an unknown preset is the request layer's: the handler
    answers with status 400 before any encode. *)
Lemma compress_video_quality_checks_reject (tool : Tool) (preset : string) (w : World) :
  lower preset ∉ ["low"; "medium"; "high"] ->
  (exists version, run tool FfmpegVersion = Ok version) ->
  compress_video_quality_checks tool preset w =
    (Raise (Exn (HTTPException 400) "Invalid preset. Use low/medium/high"),
     logged w [FfmpegVersion]).
Proof.
  intros Hpreset (version & Hversion).
  unfold compress_video_quality_checks, mbind, M_bind.
  rewrite check_ffmpeg_installed_run, Hversion. cbn [negb].
  now rewrite bool_decide_eq_false_2.
Qed.

(** C8, amended.  A preset whose lower-case form is outside
    [{low, medium, high}] is not rejected by [compress_quality]:
    [_get_crf_for_preset] falls back to CRF 23, the value of [medium]; when
    ffmpeg is there the encode is run with CRF 23, and when that encode exits
    with status 0 and leaves an output file the output path is returned. *)
Theorem compress_quality_unknown_preset (tool : Tool) (video_path : VideoPath)
    (quality_preset output_path : string) (audio_bitrate_kbps : Z) (w : World) :
  lower quality_preset ∉ ["low"; "medium"; "high"] ->
  (exists version, run tool FfmpegVersion = Ok version) ->
  let encode := FfmpegCrf (path_str video_path) output_path 23 audio_bitrate_kbps in
  let outcome :=
    compress_quality tool video_path quality_preset output_path audio_bitrate_kbps w in
  _get_crf_for_preset quality_preset = 23 /\
  log outcome.2 = log w ++ [FfmpegVersion; encode] /\
  (forall result st_size,
     run tool encode = Ok result -> returncode result = 0 ->
     leaves tool encode = Some st_size ->
     outcome.1 = Ok output_path).
Proof.
  intros Hpreset (version & Hversion) encode outcome.
  assert (Hcrf := crf_of_unknown_preset quality_preset Hpreset).
  split; [exact Hcrf|].
  unfold outcome, compress_quality, try_except, subprocess_run, path_exists,
    path_unlink, raise, catch_all, mbind, M_bind, mret, M_ret.
  rewrite check_ffmpeg_installed_run, Hversion, Hcrf. cbn [negb]. fold encode.
  cbn [output_of encode files log logged].
  rewrite <- app_assoc. cbn [app].
  split.
  - destruct (run tool encode) as [result|e]; cbn [files log].
    + destruct (negb (returncode result =? 0) || negb (bool_decide _));
        cbn; [|reflexivity].
      reflexivity.
    + destruct (catch_kinds [TimeoutExpired] e); reflexivity.
  - intros result st_size -> Hrc Hleft. cbn [files log].
    rewrite Hrc, Hleft, lookup_partial_alter_eq. reflexivity.
Qed.

Lemma compress_quality_unknown_preset_witness :
  let encode := FfmpegCrf (path_str clip) "out/small.mp4" 23 128 in
  let outcome := compress_quality (encoder no_streams) clip "Ultra" "out/small.mp4" 128 empty_world in
  (lower "Ultra" ∉ ["low"; "medium"; "high"]) /\
  (exists version, run (encoder no_streams) FfmpegVersion = Ok version) /\
  _get_crf_for_preset "Ultra" = 23 /\
  log outcome.2 = log empty_world ++ [FfmpegVersion; encode] /\
  (forall result st_size,
     run (encoder no_streams) encode = Ok result -> returncode result = 0 ->
     leaves (encoder no_streams) encode = Some st_size ->
     outcome.1 = Ok "out/small.mp4").
Proof.
  intros encode outcome.
  assert (H1 : lower "Ultra" ∉ ["low"; "medium"; "high"]).
  { rewrite !not_elem_of_cons. repeat split; try discriminate. apply not_elem_of_nil. }
  assert (H2 : exists version, run (encoder no_streams) FfmpegVersion = Ok version)
    by (eexists; reflexivity).
  split; [exact H1|]. split; [exact H2|].
  exact (compress_quality_unknown_preset (encoder no_streams) clip "Ultra" "out/small.mp4"
           128 empty_world H1 H2).
Defined.

(** ** MediaProbe *)

Lemma py_float_raises (s : string) (e : exn) :
  py_float s = Raise e -> exn_kind_of e = ValueError.
Proof. unfold py_float. destruct (float_literal s); [discriminate|]. now intros [= <-]. Qed.

Lemma py_int_of_str_raises (s : string) (e : exn) :
  py_int_of_str s = Raise e -> exn_kind_of e = ValueError.
Proof. unfold py_int_of_str. destruct (int_literal s); [discriminate|]. now intros [= <-]. Qed.

Lemma duration_of_raises (data : ProbeData) (e : exn) :
  duration_of data = Raise e -> exn_kind_of e = ValueError.
Proof.
  unfold duration_of. destruct (data_format data) as [[[d|] sz]|]; try discriminate.
  apply py_float_raises.
Qed.

Lemma size_of_raises (data : ProbeData) (e : exn) :
  size_of data = Raise e -> exn_kind_of e = ValueError.
Proof.
  unfold size_of. destruct (data_format data) as [[d [sz|]]|]; try discriminate.
  apply py_int_of_str_raises.
Qed.

(** [get_video_info] on a report that is delivered and decodes. *)
Lemma get_video_info_run (tool : Tool) (video_path : VideoPath) (data : ProbeData)
    (w : World) :
  reports tool video_path data ->
  get_video_info tool video_path w =
    (match duration_of data with
     | Raise e => Raise (Exn ValueError ("Failed to get video info: " +:+ exn_msg e))
     | Ok duration =>
         match size_of data with
         | Raise e => Raise (Exn ValueError ("Failed to get video info: " +:+ exn_msg e))
         | Ok size => Ok (describe video_path data duration size)
         end
     end, logged w [FfprobeInfo (path_str video_path)]).
Proof.
  intros (report & Hrun & Hrc & Hjson).
  unfold get_video_info, try_except, subprocess_run, raise, lift, mbind, M_bind, mret, M_ret.
  cbn [output_of]. rewrite Hrun, Hrc. cbn [Z.eqb negb]. rewrite Hjson.
  fold (logged w [FfprobeInfo (path_str video_path)]).
  assert (Hd : match format_duration_field
                       (default {| format_duration_field := None; format_size_field := None |}
                          (data_format data)) with
               | Some s => py_float s
               | None => Ok 0%Q
               end = duration_of data).
  { unfold duration_of. destruct (data_format data) as [[[d|] sz]|]; reflexivity. }
  assert (Hs : match format_size_field
                       (default {| format_duration_field := None; format_size_field := None |}
                          (data_format data)) with
               | Some s => py_int_of_str s
               | None => Ok 0
               end = size_of data).
  { unfold size_of. destruct (data_format data) as [[d [sz|]]|]; reflexivity. }
  rewrite Hd, Hs.
  destruct (duration_of data) as [duration|e] eqn:Ed.
  - destruct (size_of data) as [size|e] eqn:Es.
    + unfold describe.
      destruct (find_video_stream (default [] (data_streams data))) as [[codec width] height].
      reflexivity.
    + apply size_of_raises in Es. unfold catch_kinds. cbn. rewrite Es. reflexivity.
  - apply duration_of_raises in Ed. unfold catch_kinds. cbn. rewrite Ed. reflexivity.
Qed.

(** The claim of C9 fails: a report that decodes and has no stream is
    described, with codec and resolution [unknown]; nothing is raised. *)
Lemma get_video_info_describes_no_streams :
  data_streams no_streams = Some [] /\
  get_video_info (encoder no_streams) clip empty_world =
    (Ok {| info_filename := "clip.mp4";
           info_duration := 25 # 2;
           info_duration_formatted := "0:12";
           info_size := 1000;
           info_video_codec := "unknown";
           info_resolution := "unknown" |},
     {| files := ∅; log := [FfprobeInfo "in/clip.mp4"] |}).
Proof. split; [reflexivity|]. vm_compute. reflexivity. Qed.

(** C9, amended.  For a file whose probe report decodes and holds no stream,
    [get_video_info] raises nothing on that account: once the duration and
    the size of the report are read, it returns a descriptor whose video
    codec and resolution are both [unknown]. *)
Theorem get_video_info_without_streams (tool : Tool) (video_path : VideoPath)
    (data : ProbeData) (w : World) (duration : Q) (size : Z) :
  reports tool video_path data ->
  default [] (data_streams data) = [] ->
  duration_of data = Ok duration ->
  size_of data = Ok size ->
  get_video_info tool video_path w =
    (Ok {| info_filename := path_name video_path;
           info_duration := duration;
           info_duration_formatted := format_duration duration;
           info_size := size;
           info_video_codec := "unknown";
           info_resolution := "unknown" |},
     logged w [FfprobeInfo (path_str video_path)]).
Proof.
  intros Hreport Hstreams Hd Hs.
  rewrite (get_video_info_run tool video_path data w Hreport), Hd, Hs.
  unfold describe. rewrite Hstreams. reflexivity.
Qed.

Lemma get_video_info_without_streams_witness :
  reports (encoder no_streams) clip no_streams /\
  default [] (data_streams no_streams) = [] /\
  duration_of no_streams = Ok (25 # 2)%Q /\
  size_of no_streams = Ok 1000 /\
  get_video_info (encoder no_streams) clip empty_world =
    (Ok {| info_filename := path_name clip;
           info_duration := 25 # 2;
           info_duration_formatted := format_duration (25 # 2);
           info_size := 1000;
           info_video_codec := "unknown";
           info_resolution := "unknown" |},
     logged empty_world [FfprobeInfo (path_str clip)]).
Proof.
  assert (H1 : reports (encoder no_streams) clip no_streams).
  { eexists. repeat split; reflexivity. }
  assert (H2 : default [] (data_streams no_streams) = []) by reflexivity.
  assert (H3 : duration_of no_streams = Ok (25 # 2)%Q) by reflexivity.
  assert (H4 : size_of no_streams = Ok 1000) by reflexivity.
  repeat (split; [assumption|]).
  exact (get_video_info_without_streams (encoder no_streams) clip no_streams empty_world
           (25 # 2) 1000 H1 H2 H3 H4).
Defined.

(** ** Estimation *)

Lemma info_size_describe (video_path : VideoPath) (data : ProbeData) (duration : Q) (size : Z) :
  info_size (describe video_path data duration size) = size.
Proof. unfold describe. destruct (find_video_stream _) as [[codec width] height]. reflexivity. Qed.

Lemma megabytes_nonzero (size : Z) : 0 < size -> Qeq_bool (megabytes size) 0 = false.
Proof.
  intros H. apply not_true_iff_false. intros E%Qeq_bool_eq.
  unfold megabytes, Qeq, Qdiv, Qmult, Qinv in E. simpl in E. lia.
Qed.

Lemma round_half_even_comp (x y : Q) : (x == y)%Q -> round_half_even x = round_half_even y.
Proof.
  intros E. unfold round_half_even.
  rewrite (Qfloor_comp x y E). cbv zeta.
  rewrite (Qcompare_comp (x - inject_Z (Qfloor y))%Q (y - inject_Z (Qfloor y))%Q
             (Qplus_comp _ _ E _ _ (Qeq_refl _)) (1 # 2)%Q (1 # 2)%Q (Qeq_refl _)).
  reflexivity.
Qed.

Lemma py_round_comp (x y : Q) (ndigits : nat) :
  (x == y)%Q -> py_round x ndigits = py_round y ndigits.
Proof.
  intros E. unfold py_round.
  rewrite (round_half_even_comp (x * _) (y * inject_Z (10 ^ Z.of_nat ndigits)));
    [reflexivity|].
  apply Qmult_comp; [exact E|apply Qeq_refl].
Qed.

(** The quality-mode estimate for a probed size above 0, in exact
    arithmetic: the original size times the ratio of the preset, the
    reduction in percent, the sizes rounded to 2 decimals and the percentage
    to 1. *)
Lemma estimate_quality_of_positive_size (tool : Tool) (video_path : VideoPath)
    (data : ProbeData) (w : World) (duration : Q) (size : Z)
    (target_size_mb : option Q) (resolution : option string)
    (preset : string) (ratio : Q) :
  reports tool video_path data ->
  duration_of data = Ok duration ->
  size_of data = Ok size ->
  0 < size ->
  (preset, ratio) ∈ [("low", 3 # 10); ("medium", 5 # 10); ("high", 7 # 10)]%Q ->
  estimate_output_size tool video_path "quality" target_size_mb (Some preset) resolution w =
    (Ok {| original_size_mb := py_round (megabytes size) 2;
           estimated_size_mb := py_round (megabytes size * ratio) 2;
           reduction_percent :=
             py_round ((megabytes size - megabytes size * ratio) / megabytes size * 100) 1 |},
     logged w [FfprobeInfo (path_str video_path)]).
Proof.
  intros Hr Hd Hs Hpos Hp.
  unfold estimate_output_size, mbind at 1, M_bind.
  rewrite (get_video_info_run tool video_path data w Hr), Hd, Hs, info_size_describe.
  exact_arith. unfold truthy_float. exact_arith.
  unfold lift, mbind, M_bind, mret, M_ret, py_truediv, py_int_truediv.
  change (1024 * 1024 =? 0) with false.
  cbv beta iota. fold (megabytes size).
  rewrite (bool_decide_eq_false_2 ("quality" = "target_size")) by discriminate.
  rewrite (bool_decide_eq_true_2 ("quality" = "quality")) by reflexivity.
  cbn [andb].
  rewrite (megabytes_nonzero size Hpos).
  assert (Hq : truthy_str (Some preset) = true /\
               default (5 # 10)%Q (compression_ratios !! lower (default "" (Some preset)))
               = ratio).
  { rewrite !elem_of_cons in Hp.
    destruct Hp as [[= -> ->]|[[= -> ->]|[[= -> ->]|Hp]]];
      [split; reflexivity..|inversion Hp]. }
  destruct Hq as [-> ->]. reflexivity.
Qed.

Lemma reduction_of_ratio (size : Z) (ratio : Q) :
  0 < size ->
  py_round ((megabytes size - megabytes size * ratio) / megabytes size * 100) 1
  = py_round ((1 - ratio) * 100) 1.
Proof.
  intros Hpos. apply py_round_comp. field.
  intros E. apply Qeq_bool_iff in E. rewrite megabytes_nonzero in E by assumption.
  discriminate E.
Qed.

(** The scenario of the specification: 100 MB at preset [medium], in exact
    arithmetic and in binary64. *)
Example estimate_100mb_medium :
  (exists e,
     (estimate_output_size (F := Q) (encoder hundred_mb) clip "quality" None (Some "medium")
        None empty_world).1 = Ok e /\
     (original_size_mb e == 100)%Q /\
     (estimated_size_mb e == 50)%Q /\
     (reduction_percent e == 50)%Q) /\
  forall libm : PyPow float,
    (estimate_output_size (F := float) (encoder hundred_mb) clip "quality" None
       (Some "medium") None empty_world).1
    = Ok {| original_size_mb := 100; estimated_size_mb := 50;
            reduction_percent := 50 |}%float.
Proof.
  split.
  - eexists. split; [vm_compute; reflexivity|]. repeat split.
  - intros libm. vm_compute. reflexivity.
Qed.

(** Where the two arithmetics part: a quarter of a megabyte at preset [low].
    The product 0.25 * 0.3 is 3/40 in exact arithmetic, a tie that rounds to
    0.08; in binary64 the product lies just below 3/40 and rounds to 0.07,
    which is what Python returns. *)
Example estimate_quarter_mb_low :
  (exists e,
     (estimate_output_size (F := Q) (encoder quarter_mb) clip "quality" None (Some "low")
        None empty_world).1 = Ok e /\
     (estimated_size_mb e == 8 # 100)%Q) /\
  forall libm : PyPow float,
    (estimate_output_size (F := float) (encoder quarter_mb) clip "quality" None
       (Some "low") None empty_world).1
    = Ok {| original_size_mb := 0.25%float; estimated_size_mb := b64_of_Q (7 # 100);
            reduction_percent := 70%float |}.
Proof.
  split.
  - eexists. split; [vm_compute; reflexivity|]. reflexivity.
  - intros libm. vm_compute. reflexivity.
Qed.

(** C6 (defect of the code).  At a probed size of 0, which [get_video_info]
    reports when the [format] section has no [size] key, the quality-mode
    estimate divides by the original size and raises [ZeroDivisionError]
    instead of returning an estimate; this is so in exact arithmetic and in
    binary64, as Python runs it.  (For a probed size above 0 an estimate is
    returned, the product of the claim as the arithmetic rounds it:
    [estimate_quality_of_positive_size], [estimate_100mb_medium],
    [estimate_quarter_mb_low].) *)
Theorem estimate_quality_of_size_zero :
  (get_video_info (encoder no_size) clip empty_world).1
    = Ok (describe clip no_size 600 0) /\
  estimate_output_size (F := Q) (encoder no_size) clip "quality" None (Some "medium") None
    empty_world =
    (Raise (Exn ZeroDivisionError "float division by zero"),
     {| files := ∅; log := [FfprobeInfo "in/clip.mp4"] |}) /\
  forall libm : PyPow float,
    estimate_output_size (F := float) (encoder no_size) clip "quality" None (Some "medium")
      None empty_world =
      (Raise (Exn ZeroDivisionError "float division by zero"),
       {| files := ∅; log := [FfprobeInfo "in/clip.mp4"] |}).
Proof.
  split; [vm_compute; reflexivity|]. split; [vm_compute; reflexivity|].
  intros libm. vm_compute. reflexivity.
Qed.

Lemma selects_no_branch_tests (mode : string) (target_size_mb : option Q)
    (quality_preset resolution : option string) :
  selects_no_branch mode target_size_mb quality_preset resolution ->
  bool_decide (mode = "target_size") && truthy_float target_size_mb = false /\
  bool_decide (mode = "quality") && truthy_str quality_preset = false /\
  bool_decide (mode = "resolution") && truthy_str resolution && truthy_str quality_preset
    = false.
Proof.
  intros [H|[[-> H]|[[-> ->]|[-> H]]]].
  - rewrite !not_elem_of_cons in H. destruct H as (H1 & H2 & H3 & _).
    rewrite !bool_decide_eq_false_2 by assumption. repeat split.
  - rewrite (bool_decide_eq_false_2 ("target_size" = "quality")) by discriminate.
    rewrite (bool_decide_eq_false_2 ("target_size" = "resolution")) by discriminate.
    repeat split. rewrite andb_false_iff. right.
    destruct H as [->|(q & -> & Hq)]; [reflexivity|].
    cbn. apply Qeq_bool_iff in Hq. now rewrite Hq.
  - rewrite (bool_decide_eq_false_2 ("quality" = "target_size")) by discriminate.
    rewrite (bool_decide_eq_false_2 ("quality" = "resolution")) by discriminate.
    repeat split; apply andb_false_r.
  - rewrite (bool_decide_eq_false_2 ("resolution" = "target_size")) by discriminate.
    rewrite (bool_decide_eq_false_2 ("resolution" = "quality")) by discriminate.
    repeat split. destruct H as [-> | ->]; rewrite ?andb_false_r; reflexivity.
Qed.

(** Outside the three branches and for a probed size above 0, the estimate
    is the original size and the reduction is 0 (in exact arithmetic). *)
Lemma estimate_passthrough_of_positive_size (tool : Tool) (video_path : VideoPath)
    (data : ProbeData) (w : World) (duration : Q) (size : Z) (mode : string)
    (target_size_mb : option Q) (quality_preset resolution : option string) :
  reports tool video_path data ->
  duration_of data = Ok duration ->
  size_of data = Ok size ->
  0 < size ->
  selects_no_branch mode target_size_mb quality_preset resolution ->
  estimate_output_size tool video_path mode target_size_mb quality_preset resolution w =
    (Ok {| original_size_mb := py_round (megabytes size) 2;
           estimated_size_mb := py_round (megabytes size) 2;
           reduction_percent := py_round 0 1 |},
     logged w [FfprobeInfo (path_str video_path)]).
Proof.
  intros Hr Hd Hs Hpos Hsel.
  destruct (selects_no_branch_tests _ _ _ _ Hsel) as (H1 & H2 & H3).
  unfold estimate_output_size, mbind at 1, M_bind.
  rewrite (get_video_info_run tool video_path data w Hr), Hd, Hs, info_size_describe.
  exact_arith.
  unfold lift, mbind, M_bind, mret, M_ret, py_truediv, py_int_truediv.
  change (1024 * 1024 =? 0) with false.
  cbv beta iota. fold (megabytes size).
  rewrite H1, H2, H3, (megabytes_nonzero size Hpos).
  rewrite (py_round_comp
             ((megabytes size - megabytes size) / megabytes size * inject_Z 100) 0 1);
    [reflexivity|].
  field. intros E. apply Qeq_bool_iff in E. rewrite megabytes_nonzero in E by assumption.
  discriminate E.
Qed.

Example estimate_passthrough_100mb :
  (exists e,
     (estimate_output_size (F := Q) (encoder hundred_mb) clip "bitrate" None None None
        empty_world).1 = Ok e /\
     (original_size_mb e == 100)%Q /\
     (estimated_size_mb e == 100)%Q /\
     (reduction_percent e == 0)%Q) /\
  forall libm : PyPow float,
    (estimate_output_size (F := float) (encoder hundred_mb) clip "bitrate" None None None
       empty_world).1
    = Ok {| original_size_mb := 100; estimated_size_mb := 100;
            reduction_percent := 0 |}%float.
Proof.
  split.
  - eexists. split; [vm_compute; reflexivity|]. repeat split.
  - intros libm. vm_compute. reflexivity.
Qed.

(** C10 (defect of the code).  The claim holds for every probed size above 0
    ([estimate_passthrough_of_positive_size], [estimate_passthrough_100mb]);
    at a probed size of 0 the estimate with a mode that is none of the three
    raises [ZeroDivisionError]: the operation fails, in exact arithmetic and
    in binary64 alike. *)
Theorem estimate_passthrough_of_size_zero :
  selects_no_branch "bitrate" None None None /\
  (get_video_info (encoder no_size) clip empty_world).1
    = Ok (describe clip no_size 600 0) /\
  estimate_output_size (F := Q) (encoder no_size) clip "bitrate" None None None empty_world =
    (Raise (Exn ZeroDivisionError "float division by zero"),
     {| files := ∅; log := [FfprobeInfo "in/clip.mp4"] |}) /\
  forall libm : PyPow float,
    estimate_output_size (F := float) (encoder no_size) clip "bitrate" None None None
      empty_world =
      (Raise (Exn ZeroDivisionError "float division by zero"),
       {| files := ∅; log := [FfprobeInfo "in/clip.mp4"] |}).
Proof.
  split.
  - left. rewrite !not_elem_of_cons. repeat split; try discriminate. apply not_elem_of_nil.
  - split; [vm_compute; reflexivity|]. split; [vm_compute; reflexivity|].
    intros libm. vm_compute. reflexivity.
Qed.

(** * Further properties of the service *)

(** ** ProcessRunner and MediaProbe *)

(** The availability check looks at no exit status: it answers [True] as
    soon as the process could be started and waited for, and [False] exactly
    when starting it raised [FileNotFoundError] or [TimeoutExpired]; it
    changes no file. *)
Theorem check_ffmpeg_installed_answers (tool : Tool) (w : World) :
  ((check_ffmpeg_installed tool w).1 = Ok true <->
     exists result, run tool FfmpegVersion = Ok result) /\
  ((check_ffmpeg_installed tool w).1 = Ok false <->
     exists e, run tool FfmpegVersion = Raise e /\
       (exn_kind_of e = FileNotFoundError \/ exn_kind_of e = TimeoutExpired)) /\
  files (check_ffmpeg_installed tool w).2 = files w.
Proof.
  rewrite check_ffmpeg_installed_run. cbn [fst snd logged files].
  destruct (run tool FfmpegVersion) as [result|[kind msg]].
  - split; [|split]; [split; eauto | split | reflexivity].
    + discriminate.
    + intros (e & He & _). discriminate He.
  - assert (Hc : catch_kinds [FileNotFoundError; TimeoutExpired] (Exn kind msg) = true <->
                 kind = FileNotFoundError \/ kind = TimeoutExpired).
    { destruct kind; cbn; split; intros Hk; try reflexivity; try discriminate; auto;
        destruct Hk as [Hk|Hk]; discriminate Hk. }
    split; [|split]; [split | split | reflexivity].
    + destruct (catch_kinds _ _); discriminate.
    + intros (result & Hr). discriminate Hr.
    + intros Hf. exists (Exn kind msg). split; [reflexivity|]. cbn. apply Hc.
      destruct (catch_kinds _ _); [reflexivity|discriminate Hf].
    + intros (e & [= <-] & Hk). cbn in Hk. apply Hc in Hk. now rewrite Hk.
Qed.

Example check_ffmpeg_installed_exit_1 :
  (check_ffmpeg_installed probe_fails empty_world).1 = Ok true.
Proof. reflexivity. Qed.

(** Whatever [get_video_duration] raises is a [ValueError] whose message
    starts with [Failed to get video duration: ], unless starting ffprobe
    itself raised something that is neither a timeout nor a [ValueError]
    (a missing ffprobe, say), which passes through unchanged. *)
Theorem get_video_duration_failures (tool : Tool) (video_path : VideoPath)
    (w : World) (e : exn) :
  (get_video_duration tool video_path w).1 = Raise e ->
  (exn_kind_of e = ValueError /\
   exists reason, exn_msg e = "Failed to get video duration: " +:+ reason) \/
  (run tool (FfprobeDuration (path_str video_path)) = Raise e /\
   catch_kinds [TimeoutExpired; ValueError] e = false).
Proof.
  unfold get_video_duration, try_except, subprocess_run, raise, lift, mbind, M_bind,
    mret, M_ret.
  cbn [output_of].
  destruct (run tool (FfprobeDuration (path_str video_path))) as [result|e0] eqn:Hrun.
  - destruct (returncode result =? 0); cbn [negb].
    + destruct (py_float (strip (stdout result))) as [duration|e1] eqn:Hf; [discriminate|].
      assert (Hk := py_float_raises _ _ Hf).
      unfold catch_kinds. cbn. rewrite Hk. cbn.
      intros [= <-]. left. split; [reflexivity|]. eauto.
    + cbn. intros [= <-]. left. split; [reflexivity|]. eauto.
  - destruct (catch_kinds [TimeoutExpired; ValueError] e0) eqn:Hc; cbn.
    + intros [= <-]. left. split; [reflexivity|]. eauto.
    + intros [= <-]. right. split; [reflexivity|exact Hc].
Qed.

Lemma get_video_duration_failures_witness :
  (get_video_duration probe_fails clip empty_world).1
    = Raise (Exn ValueError "Failed to get video duration: Failed to get video duration") /\
  ((exn_kind_of (Exn ValueError "Failed to get video duration: Failed to get video duration")
      = ValueError /\
    exists reason,
      exn_msg (Exn ValueError "Failed to get video duration: Failed to get video duration")
      = "Failed to get video duration: " +:+ reason) \/
   (run probe_fails (FfprobeDuration (path_str clip))
      = Raise (Exn ValueError "Failed to get video duration: Failed to get video duration") /\
    catch_kinds [TimeoutExpired; ValueError]
      (Exn ValueError "Failed to get video duration: Failed to get video duration") = false)).
Proof.
  assert (H : (get_video_duration probe_fails clip empty_world).1
    = Raise (Exn ValueError "Failed to get video duration: Failed to get video duration"))
    by reflexivity.
  split; [exact H|].
  exact (get_video_duration_failures probe_fails clip empty_world _ H).
Defined.

(** [validate_video_file] never raises.  It answers [True] exactly when the
    file exists and [get_video_duration] returns a duration above 0; every
    failure of the probe is turned into [False]. *)
Theorem validate_video_file_answers (tool : Tool) (file_path : VideoPath) (w : World) :
  exists valid : bool,
    (validate_video_file tool file_path w).1 = Ok valid /\
    (valid = true <->
       is_Some (files w !! path_str file_path) /\
       exists duration,
         (get_video_duration tool file_path w).1 = Ok duration /\ (0 < duration)%Q).
Proof.
  unfold validate_video_file, try_except, path_exists, catch_all, mbind, M_bind, mret, M_ret.
  destruct (files w !! path_str file_path) as [st_size|] eqn:Hfile; cbn.
  - destruct (get_video_duration tool file_path w) as [[duration|e] w'].
    + destruct (Qlt_le_dec 0 duration) as [Hpos|Hneg]; eexists; (split; [reflexivity|]).
      * split; [intros _|reflexivity]. split; [eauto|]. eauto.
      * split; [discriminate|]. intros (_ & d & [= <-] & Hd). lra.
    + eexists; split; [reflexivity|]. split; [discriminate|].
      intros (_ & d & Hd & _). discriminate Hd.
  - eexists; split; [reflexivity|]. split; [discriminate|].
    intros ([x Hx] & _). discriminate Hx.
Qed.

Example validate_video_file_rejects_failed_probe :
  validate_video_file probe_fails clip clip_on_disk
    = (Ok false, logged clip_on_disk [FfprobeDuration "in/clip.mp4"]) /\
  validate_video_file small_copy clip empty_world = (Ok false, empty_world) /\
  (validate_video_file small_copy clip clip_on_disk).1 = Ok true.
Proof. repeat split; vm_compute; reflexivity. Qed.

(** [get_video_info] runs one command, the probe, and changes no file,
    whether it returns or raises. *)
Lemma get_video_info_world (tool : Tool) (video_path : VideoPath) (w : World) :
  (get_video_info tool video_path w).2 = logged w [FfprobeInfo (path_str video_path)].
Proof.
  unfold get_video_info, try_except, subprocess_run, raise, lift, mbind, M_bind, mret, M_ret.
  cbn [output_of]. fold (logged w [FfprobeInfo (path_str video_path)]).
  destruct (run tool (FfprobeInfo (path_str video_path))) as [result|e0].
  - destruct (returncode result =? 0); cbn [negb]; [|reflexivity].
    destruct (json_loads tool (stdout result)) as [data|e1].
    + destruct (match format_duration_field _ with Some s => py_float s | None => Ok 0%Q end)
        as [duration|e2].
      * destruct (match format_size_field _ with Some s => py_int_of_str s | None => Ok 0 end)
          as [size|e3].
        -- destruct (find_video_stream _) as [[codec width] height]. reflexivity.
        -- destruct (catch_kinds _ e3); reflexivity.
      * destruct (catch_kinds _ e2); reflexivity.
    + destruct (catch_kinds _ e1); reflexivity.
  - destruct (catch_kinds _ e0); reflexivity.
Qed.

(** Whatever [get_video_info] raises is a [ValueError] whose message starts
    with [Failed to get video info: ] (a non-zero exit status, a timeout, a
    report that does not decode, a duration or size that does not read),
    unless ffprobe or the decoder raised something that the handler does not
    catch, which passes through unchanged. *)
Theorem get_video_info_failures (tool : Tool) (video_path : VideoPath)
    (w : World) (e : exn) :
  (get_video_info tool video_path w).1 = Raise e ->
  (exn_kind_of e = ValueError /\
   exists reason, exn_msg e = "Failed to get video info: " +:+ reason) \/
  (catch_kinds [TimeoutExpired; JSONDecodeError; ValueError] e = false /\
   (run tool (FfprobeInfo (path_str video_path)) = Raise e \/
    exists result,
      run tool (FfprobeInfo (path_str video_path)) = Ok result /\
      json_loads tool (stdout result) = Raise e)).
Proof.
  unfold get_video_info, try_except, subprocess_run, raise, lift, mbind, M_bind, mret, M_ret.
  cbn [output_of].
  assert (Hwrap : forall e0 (w0 : World),
    (if catch_kinds [TimeoutExpired; JSONDecodeError; ValueError] e0
     then (@Raise VideoInfo (Exn ValueError ("Failed to get video info: " +:+ exn_msg e0)), w0)
     else (Raise e0, w0)).1 = Raise e ->
    (exn_kind_of e = ValueError /\
     exists reason, exn_msg e = "Failed to get video info: " +:+ reason) \/
    (catch_kinds [TimeoutExpired; JSONDecodeError; ValueError] e = false /\ e0 = e)).
  { intros e0 w0. destruct (catch_kinds _ e0) eqn:Hc; cbn; intros [= <-].
    - left. split; [reflexivity|]. eauto.
    - right. split; [exact Hc|reflexivity]. }
  destruct (run tool (FfprobeInfo (path_str video_path))) as [result|e0] eqn:Hrun.
  - destruct (returncode result =? 0); cbn [negb].
    + destruct (json_loads tool (stdout result)) as [data|e1] eqn:Hjson.
      * destruct (match format_duration_field _ with Some s => py_float s | None => Ok 0%Q end)
          as [duration|e2] eqn:Hd.
        -- destruct (match format_size_field _ with Some s => py_int_of_str s | None => Ok 0 end)
             as [size|e3] eqn:Hs.
           ++ destruct (find_video_stream _) as [[codec width] height]. discriminate.
           ++ assert (Hk : exn_kind_of e3 = ValueError).
              { destruct (format_size_field _); [|discriminate Hs].
                now apply py_int_of_str_raises in Hs. }
              unfold catch_kinds. cbn. rewrite Hk. cbn.
              intros [= <-]. left. split; [reflexivity|]. eauto.
        -- assert (Hk : exn_kind_of e2 = ValueError).
           { destruct (format_duration_field _); [|discriminate Hd].
             now apply py_float_raises in Hd. }
           unfold catch_kinds. cbn. rewrite Hk. cbn.
           intros [= <-]. left. split; [reflexivity|]. eauto.
      * intros He. apply Hwrap in He as [He|[Hc ->]]; [now left|].
        right. split; [exact Hc|]. right. eauto.
    + cbn. intros [= <-]. left. split; [reflexivity|]. eauto.
  - intros He. apply Hwrap in He as [He|[Hc ->]]; [now left|].
    right. split; [exact Hc|]. now left.
Qed.

Lemma get_video_info_failures_witness :
  (get_video_info probe_fails clip empty_world).1
    = Raise (Exn ValueError "Failed to get video info: Failed to read video file") /\
  (get_video_info small_copy clip empty_world).1
    = Raise (Exn ValueError "Failed to get video info: Expecting value") /\
  ((exn_kind_of (Exn ValueError "Failed to get video info: Expecting value") = ValueError /\
    exists reason,
      exn_msg (Exn ValueError "Failed to get video info: Expecting value")
      = "Failed to get video info: " +:+ reason) \/
   (catch_kinds [TimeoutExpired; JSONDecodeError; ValueError]
      (Exn ValueError "Failed to get video info: Expecting value") = false /\
    (run small_copy (FfprobeInfo (path_str clip))
       = Raise (Exn ValueError "Failed to get video info: Expecting value") \/
     exists result,
       run small_copy (FfprobeInfo (path_str clip)) = Ok result /\
       json_loads small_copy (stdout result)
       = Raise (Exn ValueError "Failed to get video info: Expecting value")))).
Proof.
  assert (H : (get_video_info small_copy clip empty_world).1
    = Raise (Exn ValueError "Failed to get video info: Expecting value")) by reflexivity.
  split; [reflexivity|]. split; [exact H|].
  exact (get_video_info_failures small_copy clip empty_world _ H).
Defined.

(** ** Estimation *)

(** The estimate is advisory: whatever its arguments and whether it returns
    or raises, [estimate_output_size] runs exactly one command, the probe of
    the input, and creates, changes or deletes no file.  This holds in exact
    and in binary64 arithmetic alike, whatever the [pow] of the platform. *)
Theorem estimate_output_size_only_probes {F : Type} `{PyFloat F} `{PyPow F}
    (tool : Tool) (video_path : VideoPath)
    (mode : string) (target_size_mb : option F) (quality_preset resolution : option string)
    (w : World) :
  (estimate_output_size tool video_path mode target_size_mb quality_preset resolution w).2
  = {| files := files w; log := log w ++ [FfprobeInfo (path_str video_path)] |}.
Proof.
  fold (logged w [FfprobeInfo (path_str video_path)]).
  rewrite <- (get_video_info_world tool video_path w).
  unfold estimate_output_size, mbind at 1, M_bind.
  destruct (get_video_info tool video_path w) as [[info|e] w1]; [|reflexivity].
  cbn [snd]. unfold lift, mbind at 1 2 3, M_bind, mret, M_ret.
  destruct (int_truediv _ _) as [original|e1]; [|reflexivity].
  match goal with
  | |- context [match ?r with Ok _ => _ | Raise _ => _ end] =>
      destruct r as [estimated|e2]; [|reflexivity]
  end.
  destruct (float_truediv _ _) as [r|e3]; reflexivity.
Qed.

(** ** Guards of the operations *)

(** Without ffmpeg (starting it raises [FileNotFoundError] or times out)
    the three operations raise [RuntimeError] at once: the version check is
    the only command run, no probe and no encode follows, no file changes.
    No float is computed before that, so the arithmetic does not matter. *)
Theorem operations_need_ffmpeg {F : Type} `{PyFloat F} (tool : Tool) (e : exn)
    (video_path : VideoPath) (output : string) (num_parts : Z) (use_stream_copy : bool)
    (target_size_mb : F) (quality_preset : string) (audio_bitrate_kbps : Z) (w : World) :
  run tool FfmpegVersion = Raise e ->
  exn_kind_of e = FileNotFoundError \/ exn_kind_of e = TimeoutExpired ->
  let refused {A} : result A * World :=
    (Raise (Exn RuntimeError "FFmpeg is not installed"),
     {| files := files w; log := log w ++ [FfmpegVersion] |}) in
  split_video tool video_path num_parts output use_stream_copy w = refused /\
  compress_target_size tool video_path target_size_mb output audio_bitrate_kbps w = refused /\
  compress_quality tool video_path quality_preset output audio_bitrate_kbps w = refused.
Proof.
  intros Hrun Hkind refused.
  assert (Hcheck : check_ffmpeg_installed tool w = (Ok false, logged w [FfmpegVersion])).
  { rewrite check_ffmpeg_installed_run, Hrun. destruct e as [kind msg]. cbn in Hkind.
    destruct Hkind as [-> | ->]; reflexivity. }
  unfold split_video, compress_target_size, compress_quality, mbind, M_bind.
  rewrite Hcheck. repeat split.
Qed.

Lemma operations_need_ffmpeg_witness :
  run no_ffmpeg FfmpegVersion = Raise (Exn FileNotFoundError "ffmpeg") /\
  (exn_kind_of (Exn FileNotFoundError "ffmpeg") = FileNotFoundError \/
   exn_kind_of (Exn FileNotFoundError "ffmpeg") = TimeoutExpired) /\
  split_video no_ffmpeg clip 3 "out" true empty_world
    = (Raise (Exn RuntimeError "FFmpeg is not installed"),
       {| files := files empty_world; log := log empty_world ++ [FfmpegVersion] |}) /\
  compress_target_size no_ffmpeg clip 10%float "out" 128 empty_world
    = (Raise (Exn RuntimeError "FFmpeg is not installed"),
       {| files := files empty_world; log := log empty_world ++ [FfmpegVersion] |}) /\
  compress_quality no_ffmpeg clip "low" "out" 128 empty_world
    = (Raise (Exn RuntimeError "FFmpeg is not installed"),
       {| files := files empty_world; log := log empty_world ++ [FfmpegVersion] |}).
Proof.
  split; [reflexivity|]. split; [left; reflexivity|].
  exact (operations_need_ffmpeg no_ffmpeg (Exn FileNotFoundError "ffmpeg") clip "out" 3 true
           10%float "low" 128 empty_world eq_refl (or_introl eq_refl)).
Defined.

(** With ffmpeg there, [split_video] refuses a part count below 2 or above
    20 before it looks at the video: only the version check has run, the
    duration is not probed and no file changes. *)
Theorem split_video_rejects_part_count (tool : Tool) (video_path : VideoPath)
    (num_parts : Z) (output_dir : string) (use_stream_copy : bool) (w : World) :
  (exists version, run tool FfmpegVersion = Ok version) ->
  num_parts < 2 \/ 20 < num_parts ->
  split_video tool video_path num_parts output_dir use_stream_copy w =
    (Raise (Exn ValueError "Number of parts must be between 2 and 20"),
     {| files := files w; log := log w ++ [FfmpegVersion] |}).
Proof.
  intros (version & Hversion) Hparts.
  unfold split_video, mbind at 1, M_bind.
  rewrite check_ffmpeg_installed_run, Hversion. cbn [negb].
  assert (Hbad : (num_parts <? 2) || (20 <? num_parts) = true).
  { apply orb_true_iff. destruct Hparts; [left; apply Z.ltb_lt|right; apply Z.ltb_lt]; lia. }
  now rewrite Hbad.
Qed.

Lemma split_video_rejects_part_count_witness :
  (exists version, run small_copy FfmpegVersion = Ok version) /\
  (21 < 2 \/ 20 < 21) /\
  split_video small_copy clip 21 "out" true empty_world =
    (Raise (Exn ValueError "Number of parts must be between 2 and 20"),
     {| files := files empty_world; log := log empty_world ++ [FfmpegVersion] |}).
Proof.
  assert (H1 : exists version, run small_copy FfmpegVersion = Ok version)
    by (eexists; reflexivity).
  assert (H2 : 21 < 2 \/ 20 < 21) by (right; lia).
  split; [exact H1|]. split; [exact H2|].
  exact (split_video_rejects_part_count small_copy clip 21 "out" true empty_world H1 H2).
Defined.

(** ** SegmentExtractor *)

(** A re-encode attempt never raises and leaves the output path in one of
    two states: a file of more than 1000 bytes when it answers [True], no
    file at all when it answers [False], also when a file was there before
    the call.  No other path changes. *)
Theorem reencode_leaves_file_or_nothing (tool : Tool) (input_path : VideoPath)
    (output_path : string) (start_time duration : Q) (w : World) :
  let attempt := _split_segment_reencode tool input_path output_path start_time duration w in
  exists success : bool,
    attempt.1 = Ok success /\
    (if success
     then exists st_size, files attempt.2 !! output_path = Some st_size /\ 1000 < st_size
     else files attempt.2 !! output_path = None) /\
    (forall p, p <> output_path -> files attempt.2 !! p = files w !! p).
Proof.
  intros attempt. unfold attempt. rewrite reencode_run. cbn [fst snd].
  set (cmd := FfmpegReencode _ _ _ _).
  exists (accepted tool cmd). split; [reflexivity|]. split.
  - rewrite after_attempt_lookup, decide_True by reflexivity.
    destruct (accepted tool cmd) eqn:Hacc; [|reflexivity].
    apply accepted_iff in Hacc as (result & st_size & _ & _ & -> & Hsize). eauto.
  - intros p Hp. rewrite after_attempt_lookup, decide_False by congruence. reflexivity.
Qed.

Lemma after_attempt_accepted (tool : Tool) (cmd : command) (output_path : string) (w : World) :
  accepted tool cmd = true ->
  exists st_size,
    files (after_attempt tool cmd output_path w) !! output_path = Some st_size /\
    1000 < st_size.
Proof.
  intros Hacc. rewrite after_attempt_lookup, decide_True, Hacc by reflexivity.
  apply accepted_iff in Hacc as (result & st_size & _ & _ & -> & Hsize). eauto.
Qed.

Lemma part_paths_cons (video_path : VideoPath) (output_dir : string) (i : Z) (n : nat) :
  part_paths video_path output_dir i (S n) =
    part_path video_path output_dir i :: part_paths video_path output_dir (i + 1) n.
Proof.
  unfold part_paths. cbn [seq fmap list_fmap]. rewrite Z.add_0_r. f_equal.
  rewrite <- seq_shift, <- list_fmap_compose. apply list_fmap_ext.
  intros k j _. cbn. f_equal. lia.
Qed.

Lemma elem_of_part_paths (video_path : VideoPath) (output_dir : string) (i : Z) (n : nat)
    (p : string) :
  p ∈ part_paths video_path output_dir i n <->
  exists j : nat, (j < n)%nat /\ p = part_path video_path output_dir (i + Z.of_nat j).
Proof.
  unfold part_paths. rewrite list_elem_of_fmap. split.
  - intros (j & -> & Hj). apply elem_of_seq in Hj. exists j. split; [lia|reflexivity].
  - intros (j & Hj & ->). exists j. split; [reflexivity|]. apply elem_of_seq. lia.
Qed.

(** When every part is accepted by one of the two strategies, the loop
    returns the paths collected so far followed by the paths of its parts, in
    order; each of these parts then holds a file of more than 1000 bytes and
    the paths of no part are as before. *)
Lemma split_loop_succeeds (tool : Tool) (video_path : VideoPath) (output_dir : string)
    (times : list (Q * Q)) :
  forall (i : Z) (output_paths : list string) (w : World),
  (forall (j : nat) r, times !! j = Some r ->
     ~ fails_both tool video_path output_dir (i + Z.of_nat j) r) ->
  exists w',
    split_loop tool video_path output_dir true i times output_paths w =
      (Ok (output_paths ++ part_paths video_path output_dir i (length times)), w') /\
    (forall p, p ∈ part_paths video_path output_dir i (length times) ->
       exists st_size, files w' !! p = Some st_size /\ 1000 < st_size) /\
    (forall p, p ∉ part_paths video_path output_dir i (length times) ->
       files w' !! p = files w !! p).
Proof.
  induction times as [|range rest IH]; intros i output_paths w Hall.
  - exists w. cbn. rewrite app_nil_r. repeat split.
    intros p Hp. inversion Hp.
  - assert (Hr : ~ fails_both tool video_path output_dir i range).
    { specialize (Hall 0%nat range). rewrite Z.add_0_r in Hall. now apply Hall. }
    set (out := part_path video_path output_dir i).
    assert (Hstep : exists w1,
      split_loop tool video_path output_dir true i (range :: rest) output_paths w =
        split_loop tool video_path output_dir true (i + 1) rest (output_paths ++ [out]) w1 /\
      (exists st_size, files w1 !! out = Some st_size /\ 1000 < st_size) /\
      forall p, p <> out -> files w1 !! p = files w !! p).
    { rewrite split_loop_step. cbn zeta. fold out.
      destruct (not_fails_both tool video_path output_dir i range Hr) as [Hsc|[Hsc Hre]];
        rewrite Hsc; [|rewrite Hre]; eexists; (split; [reflexivity|]); split.
      - now apply after_attempt_accepted.
      - intros p Hp. rewrite after_attempt_lookup, decide_False by congruence. reflexivity.
      - now apply after_attempt_accepted.
      - intros p Hp. rewrite !after_attempt_lookup, !decide_False by congruence.
        reflexivity. }
    destruct Hstep as (w1 & -> & Hfile & Hw1).
    destruct (IH (i + 1) (output_paths ++ [out]) w1) as (w' & Hrun & Hparts & Hrest).
    { intros j r Hj. replace (i + 1 + Z.of_nat j) with (i + Z.of_nat (S j)) by lia.
      now apply Hall. }
    exists w'. cbn [length]. rewrite part_paths_cons. fold out.
    split; [now rewrite Hrun, <- app_assoc|]. split.
    + intros p Hp. apply elem_of_cons in Hp as [->|Hp]; [|now apply Hparts].
      destruct (decide (out ∈ part_paths video_path output_dir (i + 1) (length rest)))
        as [Hin|Hnin]; [now apply Hparts|].
      rewrite Hrest by assumption. exact Hfile.
    + intros p Hp. apply not_elem_of_cons in Hp as [Hne Hp].
      rewrite Hrest by assumption. now apply Hw1.
Qed.

(** When the tools are there and every part of the plan is accepted by the
    stream copy or, failing that, by the re-encode, [split_video] returns
    the output paths of parts 1 to [num_parts] in order, without repetition;
    afterwards each of them holds a file of more than 1000 bytes and every
    other file is as it was. *)
Theorem split_video_returns_all_parts (tool : Tool) (video_path : VideoPath)
    (output_dir : string) (num_parts : Z) (w : World)
    (duration : Q) (plan : list (Q * Q)) :
  probes_duration tool video_path duration ->
  calculate_split_times duration num_parts = Ok plan ->
  (forall (j : nat) r, plan !! j = Some r ->
     ~ fails_both tool video_path output_dir (1 + Z.of_nat j) r) ->
  exists w',
    split_video tool video_path num_parts output_dir true w =
      (Ok (part_paths video_path output_dir 1 (Z.to_nat num_parts)), w') /\
    NoDup (part_paths video_path output_dir 1 (Z.to_nat num_parts)) /\
    (forall p, p ∈ part_paths video_path output_dir 1 (Z.to_nat num_parts) ->
       exists st_size, files w' !! p = Some st_size /\ 1000 < st_size) /\
    (forall p, p ∉ part_paths video_path output_dir 1 (Z.to_nat num_parts) ->
       files w' !! p = files w !! p).
Proof.
  intros ((version & Hversion) & report & Hrun & Hrc & Hfloat) Hplan Hall.
  assert (Hparts : (num_parts <? 2) || (20 <? num_parts) = false).
  { unfold calculate_split_times in Hplan.
    destruct (num_parts <? 2); [discriminate Hplan|].
    destruct (20 <? num_parts); [discriminate Hplan|reflexivity]. }
  assert (Hlen : length plan = Z.to_nat num_parts).
  { unfold calculate_split_times in Hplan. apply orb_false_iff in Hparts as [Hlo Hhi].
    rewrite Hlo, Hhi in Hplan. cbn [float_truediv exact] in Hplan.
    unfold py_truediv in Hplan.
    destruct (Qeq_bool _ 0); [discriminate Hplan|]. cbn in Hplan.
    injection Hplan as <-. apply split_times_from_length. }
  unfold split_video, mbind at 1 2 3, M_bind, lift.
  rewrite check_ffmpeg_installed_run, Hversion. cbn [negb].
  rewrite Hparts.
  rewrite (get_video_duration_run tool video_path _ report duration Hrun Hrc Hfloat).
  rewrite Hplan.
  destruct (split_loop_succeeds tool video_path output_dir plan 1 []
              (logged (logged w [FfmpegVersion]) [FfprobeDuration (path_str video_path)]) Hall)
    as (w' & Hloop & Hfiles & Hrest).
  rewrite Hlen in *. exists w'. split; [exact Hloop|]. split; [|split; assumption].
  unfold part_paths. apply NoDup_fmap_2; [|apply NoDup_seq].
  intros j k Heq. apply part_path_inj in Heq. lia.
Qed.

Lemma split_video_returns_all_parts_witness :
  let plan := split_times_from (600 / 3)%Q 0 3 in
  probes_duration small_copy clip 600 /\
  calculate_split_times 600%Q 3 = Ok plan /\
  (forall (j : nat) r, plan !! j = Some r ->
     ~ fails_both small_copy clip "out" (1 + Z.of_nat j) r) /\
  exists w',
    split_video small_copy clip 3 "out" true clip_on_disk =
      (Ok (part_paths clip "out" 1 (Z.to_nat 3)), w') /\
    NoDup (part_paths clip "out" 1 (Z.to_nat 3)) /\
    (forall p, p ∈ part_paths clip "out" 1 (Z.to_nat 3) ->
       exists st_size, files w' !! p = Some st_size /\ 1000 < st_size) /\
    (forall p, p ∉ part_paths clip "out" 1 (Z.to_nat 3) ->
       files w' !! p = files clip_on_disk !! p).
Proof.
  intros plan.
  assert (H1 : probes_duration small_copy clip 600).
  { split; [eexists; reflexivity|]. eexists. repeat split; reflexivity. }
  assert (H2 : calculate_split_times 600%Q 3 = Ok plan) by reflexivity.
  assert (H3 : forall (j : nat) r, plan !! j = Some r ->
                 ~ fails_both small_copy clip "out" (1 + Z.of_nat j) r).
  { intros j r _ [_ Hre]. unfold accepted in Hre. cbn in Hre. discriminate Hre. }
  split; [exact H1|]. split; [exact H2|]. split; [exact H3|].
  exact (split_video_returns_all_parts small_copy clip "out" 3 clip_on_disk 600 plan H1 H2 H3).
Defined.

Example split_video_three_parts :
  split_video small_copy clip 3 "out" true clip_on_disk =
    (Ok ["out/clip_part1.mp4"; "out/clip_part2.mp4"; "out/clip_part3.mp4"],
     {| files := {[ "in/clip.mp4" := 104857600; "out/clip_part1.mp4" := 5000;
                    "out/clip_part2.mp4" := 5000; "out/clip_part3.mp4" := 5000 ]};
        log := [ FfmpegVersion; FfprobeDuration "in/clip.mp4";
                 stream_copy_of clip "out" 1 (0 * (600 / 3), 1 * (600 / 3))%Q;
                 reencode_of clip "out" 1 (0 * (600 / 3), 1 * (600 / 3))%Q;
                 stream_copy_of clip "out" 2 (1 * (600 / 3), 2 * (600 / 3))%Q;
                 reencode_of clip "out" 2 (1 * (600 / 3), 2 * (600 / 3))%Q;
                 stream_copy_of clip "out" 3 (2 * (600 / 3), 3 * (600 / 3))%Q;
                 reencode_of clip "out" 3 (2 * (600 / 3), 3 * (600 / 3))%Q ] |}).
Proof. vm_compute. reflexivity. Qed.

Lemma get_video_duration_world (tool : Tool) (video_path : VideoPath) (w : World) :
  (get_video_duration tool video_path w).2 = logged w [FfprobeDuration (path_str video_path)].
Proof.
  unfold get_video_duration, try_except, subprocess_run, raise, lift, mbind, M_bind, mret, M_ret.
  cbn [output_of]. fold (logged w [FfprobeDuration (path_str video_path)]).
  destruct (run tool (FfprobeDuration (path_str video_path))) as [result|e0].
  - destruct (returncode result =? 0); cbn [negb]; [|reflexivity].
    destruct (py_float (strip (stdout result))) as [duration|e1]; [reflexivity|].
    destruct (catch_kinds _ e1); reflexivity.
  - destruct (catch_kinds _ e0); reflexivity.
Qed.

Lemma split_loop_reencode_only (tool : Tool) (video_path : VideoPath) (output_dir : string)
    (times : list (Q * Q)) :
  forall (i : Z) (output_paths : list string) (w : World),
  exists l,
    log (split_loop tool video_path output_dir false i times output_paths w).2 = log w ++ l /\
    Forall (fun cmd => is_stream_copy cmd = false) l.
Proof.
  induction times as [|[start_time end_time] rest IH]; intros i output_paths w.
  - exists []. cbn. now rewrite app_nil_r.
  - cbn [split_loop]. unfold mbind, M_bind. rewrite reencode_run.
    set (cmd := FfmpegReencode _ _ _ _).
    destruct (accepted tool cmd).
    + destruct (IH (i + 1) (output_paths ++ [part_path video_path output_dir i])
                  (after_attempt tool cmd (part_path video_path output_dir i) w))
        as (l & -> & Hl).
      exists (cmd :: l). cbn [after_attempt log]. rewrite <- app_assoc.
      split; [reflexivity|]. now constructor.
    + destruct (unlink_all_run output_paths
                  (after_attempt tool cmd (part_path video_path output_dir i) w))
        as (fs & -> & _).
      exists [cmd]. unfold raise. cbn. split; [reflexivity|]. now repeat constructor.
Qed.

(** With [use_stream_copy] off, [split_video] never runs a stream copy:
    none of the commands it adds to the log is one, whatever the tools
    answer. *)
Theorem split_video_without_stream_copy (tool : Tool) (video_path : VideoPath)
    (num_parts : Z) (output_dir : string) (w : World) :
  exists l,
    log (split_video tool video_path num_parts output_dir false w).2 = log w ++ l /\
    Forall (fun cmd => is_stream_copy cmd = false) l.
Proof.
  unfold split_video, mbind at 1, M_bind. rewrite check_ffmpeg_installed_run.
  assert (Hone : Forall (fun cmd => is_stream_copy cmd = false) [FfmpegVersion])
    by now repeat constructor.
  destruct (match run tool FfmpegVersion with
            | Ok _ => Ok true
            | Raise e =>
                if catch_kinds [FileNotFoundError; TimeoutExpired] e then Ok false else Raise e
            end) as [[|]|e]; cbn [negb]; try (now exists [FfmpegVersion]).
  destruct ((num_parts <? 2) || (20 <? num_parts)); [now exists [FfmpegVersion]|].
  unfold mbind at 1, M_bind.
  pose proof (get_video_duration_world tool video_path (logged w [FfmpegVersion])) as Hw.
  destruct (get_video_duration tool video_path (logged w [FfmpegVersion]))
    as [[duration|e] w1]; cbn [snd] in Hw; subst w1.
  - unfold mbind at 1, M_bind, lift.
    destruct (calculate_split_times duration num_parts) as [plan|e].
    + destruct (split_loop_reencode_only tool video_path output_dir plan 1 []
                  (logged (logged w [FfmpegVersion]) [FfprobeDuration (path_str video_path)]))
        as (l & -> & Hl).
      exists (FfmpegVersion :: FfprobeDuration (path_str video_path) :: l).
      cbn [logged log]. rewrite <- !app_assoc. split; [reflexivity|].
      now repeat constructor.
    + exists [FfmpegVersion; FfprobeDuration (path_str video_path)].
      cbn [snd logged log]. rewrite <- app_assoc. split; [reflexivity|].
      now repeat constructor.
  - exists [FfmpegVersion; FfprobeDuration (path_str video_path)].
    cbn [snd logged log]. rewrite <- app_assoc. split; [reflexivity|].
    now repeat constructor.
Qed.

(** ** CompressionEngine *)

(** The two-pass encode never raises.  When the bitrate has an int value
    (in binary64: it is no infinity and not NaN; in exact arithmetic:
    always, [py_int]), it answers [True] exactly when pass 1 and pass 2 both
    exit with status 0 and pass 2 left an output file (of any size: there is
    no plausibility threshold here); when pass 1 exited with 0 and the answer
    is [False], no file is left at the output path. *)
Theorem two_pass_encode_answers {F : Type} `{PyFloat F} (tool : Tool)
    (input_path : VideoPath) (output_path : string)
    (video_bitrate_kbps : F) (audio_bitrate_kbps : Z) (passlogfile : string) (w : World)
    (bitrate : Z) :
  float_to_int video_bitrate_kbps = Ok bitrate ->
  let pass1 := FfmpegPass1 (path_str input_path) bitrate passlogfile in
  let pass2 := FfmpegPass2 (path_str input_path) output_path bitrate
                 audio_bitrate_kbps passlogfile in
  let outcome := _run_two_pass_encode tool input_path output_path video_bitrate_kbps
                   audio_bitrate_kbps passlogfile w in
  exists success : bool,
    outcome.1 = Ok success /\
    (success = true <->
       (exists result1, run tool pass1 = Ok result1 /\ returncode result1 = 0) /\
       (exists result2, run tool pass2 = Ok result2 /\ returncode result2 = 0) /\
       is_Some (leaves tool pass2)) /\
    (success = true -> files outcome.2 !! output_path = leaves tool pass2) /\
    (success = false ->
     (exists result1, run tool pass1 = Ok result1 /\ returncode result1 = 0) ->
     files outcome.2 !! output_path = None).
Proof.
  intros Hint pass1 pass2 outcome. unfold outcome, _run_two_pass_encode, try_except,
    subprocess_run, path_exists, path_unlink, catch_all, lift, mbind, M_bind, mret, M_ret.
  rewrite Hint. fold pass1 pass2. cbn [output_of pass1 pass2 files log].
  destruct (run tool pass1) as [result1|e1].
  - destruct (Z.eqb_spec (returncode result1) 0) as [Hrc1|Hrc1]; cbn [negb].
    + destruct (run tool pass2) as [result2|e2]; cbn [files log].
      * destruct (Z.eqb_spec (returncode result2) 0) as [Hrc2|Hrc2]; cbn [files log].
        -- rewrite lookup_partial_alter_eq.
           destruct (leaves tool pass2) as [st_size|] eqn:Hl; cbn.
           ++ exists true. split; [reflexivity|]. repeat split; eauto.
              ** now rewrite lookup_partial_alter_eq.
              ** discriminate.
           ++ exists false. split; [reflexivity|]. repeat split; try discriminate.
              ** intros (_ & _ & [x Hx]). discriminate Hx.
              ** intros _ _. apply lookup_delete_eq.
        -- exists false. split; [reflexivity|]. repeat split; try discriminate.
           ++ intros (_ & (r2 & [= <-] & Hr2) & _). contradiction.
           ++ intros _ _. apply lookup_delete_eq.
      * exists false. split; [reflexivity|]. repeat split; try discriminate.
        -- intros (_ & (r2 & Hr2 & _) & _). discriminate Hr2.
        -- intros _ _. apply lookup_delete_eq.
    + exists false. split; [reflexivity|]. repeat split; try discriminate.
      * intros ((r1 & [= <-] & Hr1) & _). contradiction.
      * intros _ (r1 & [= <-] & Hr1). contradiction.
  - exists false. split; [reflexivity|]. repeat split; try discriminate.
    + intros ((r1 & Hr1 & _) & _). discriminate Hr1.
    + intros _ (r1 & Hr1 & _). discriminate Hr1.
Qed.

Lemma two_pass_encode_answers_witness :
  let outcome := _run_two_pass_encode (encoder hundred_mb) clip "out/small.mp4"
                   0x1.f48p+8%float 128 "/tmp/tmpdir/ffmpeg2pass" empty_world in
  b64_to_int 0x1.f48p+8 = Ok 500 /\
  outcome.1 = Ok true /\
  files outcome.2 !! "out/small.mp4" = Some 5000.
Proof.
  intros outcome.
  assert (H1 : b64_to_int 0x1.f48p+8 = Ok 500) by reflexivity.
  split; [exact H1|].
  destruct (@two_pass_encode_answers float binary64 (encoder hundred_mb) clip
              "out/small.mp4" 0x1.f48p+8%float 128 "/tmp/tmpdir/ffmpeg2pass" empty_world
              500 H1)
    as (success & Hout & Hiff & Hfile & _).
  assert (Hs : success = true).
  { apply Hiff. split; [eexists; split; reflexivity|].
    split; [eexists; split; reflexivity|]. eexists. reflexivity. }
  fold outcome in Hout, Hfile. rewrite Hout, Hs. split; [reflexivity|].
  exact (Hfile Hs).
Defined.

(** When pass 1 exits with a non-zero status the two-pass encode stops
    there: pass 2 is not run and the output path is not touched (a file
    that was there stays).  ([bitrate] is the int value of the bitrate, as
    above.) *)
Theorem two_pass_encode_stops_after_pass1 {F : Type} `{PyFloat F} (tool : Tool)
    (input_path : VideoPath)
    (output_path : string) (video_bitrate_kbps : F) (audio_bitrate_kbps : Z)
    (passlogfile : string) (w : World) (result1 : CompletedProcess) (bitrate : Z) :
  float_to_int video_bitrate_kbps = Ok bitrate ->
  let pass1 := FfmpegPass1 (path_str input_path) bitrate passlogfile in
  run tool pass1 = Ok result1 ->
  returncode result1 <> 0 ->
  _run_two_pass_encode tool input_path output_path video_bitrate_kbps
    audio_bitrate_kbps passlogfile w
  = (Ok false, {| files := files w; log := log w ++ [pass1] |}).
Proof.
  intros Hint pass1 Hrun Hrc. unfold _run_two_pass_encode, try_except, subprocess_run,
    lift, mbind, M_bind, mret, M_ret.
  rewrite Hint. fold pass1. cbn [output_of pass1]. rewrite Hrun.
  destruct (Z.eqb_spec (returncode result1) 0) as [?|_]; [contradiction|]. reflexivity.
Qed.

Lemma two_pass_encode_stops_after_pass1_witness :
  let pass1 := FfmpegPass1 (path_str clip) 500 "/tmp/tmpdir/ffmpeg2pass" in
  b64_to_int 500 = Ok 500 /\
  run probe_fails pass1 = exited 1 "" /\
  returncode {| returncode := 1; stdout := ""; stderr := "" |} <> 0 /\
  _run_two_pass_encode probe_fails clip "in/clip.mp4" 500%float 128 "/tmp/tmpdir/ffmpeg2pass"
    clip_on_disk
  = (Ok false, {| files := files clip_on_disk; log := log clip_on_disk ++ [pass1] |}).
Proof.
  intros pass1.
  assert (H1 : b64_to_int 500 = Ok 500) by reflexivity.
  assert (H2 : returncode {| returncode := 1; stdout := ""; stderr := "" |} <> 0)
    by discriminate.
  split; [exact H1|]. split; [reflexivity|]. split; [exact H2|].
  exact (@two_pass_encode_stops_after_pass1 float binary64 probe_fails clip "in/clip.mp4"
           500%float 128 "/tmp/tmpdir/ffmpeg2pass" clip_on_disk _ 500 H1 eq_refl H2).
Defined.

(** A probed duration of 0 is not caught by the target-size check: the
    bitrate formula divides by it and [compress_target_size] raises
    [ZeroDivisionError] (not the target-too-small [ValueError]) after the
    duration probe; no encode pass is run.  This is so in exact arithmetic
    and in binary64. *)
Theorem compress_target_size_zero_duration (tool : Tool) (video_path : VideoPath)
    (target_size_mb : Q) (target_size_mb64 : float) (output_path : string)
    (audio_bitrate_kbps : Z) (w : World) (duration : Q) :
  probes_duration tool video_path duration ->
  (duration == 0)%Q ->
  let refused : result string * World :=
    (Raise (Exn ZeroDivisionError "float division by zero"),
     {| files := files w;
        log := log w ++ [FfmpegVersion; FfprobeDuration (path_str video_path)] |}) in
  compress_target_size tool video_path target_size_mb output_path audio_bitrate_kbps w
    = refused /\
  compress_target_size tool video_path target_size_mb64 output_path audio_bitrate_kbps w
    = refused.
Proof.
  intros ((version & Hversion) & report & Hrun & Hrc & Hfloat) Hzero refused.
  unfold refused, compress_target_size, mbind at 1 2 3 5 6 7, M_bind, lift.
  rewrite check_ffmpeg_installed_run, Hversion. cbn [negb].
  rewrite (get_video_duration_run tool video_path _ report duration Hrun Hrc Hfloat).
  cbn [float_truediv float_of_decimal exact binary64]. split.
  - unfold py_truediv. apply Qeq_bool_iff in Hzero. rewrite Hzero.
    unfold logged. cbn [log files]. now rewrite <- app_assoc.
  - assert (Hnum : Qnum duration = 0).
    { unfold Qeq in Hzero. cbn in Hzero. lia. }
    unfold b64_truediv, b64_of_Q. rewrite Hnum.
    change (PrimFloat.eqb PrimFloat.zero PrimFloat.zero) with true.
    unfold logged. cbn [log files]. now rewrite <- app_assoc.
Qed.

Lemma compress_target_size_zero_duration_witness :
  let refused : result string * World :=
    (Raise (Exn ZeroDivisionError "float division by zero"),
     {| files := files empty_world;
        log := log empty_world ++ [FfmpegVersion; FfprobeDuration (path_str clip)] |}) in
  probes_duration zero_duration clip 0 /\
  (0 == 0)%Q /\
  compress_target_size zero_duration clip 10%Q "out/small.mp4" 128 empty_world = refused /\
  compress_target_size zero_duration clip 10%float "out/small.mp4" 128 empty_world = refused.
Proof.
  intros refused.
  assert (H1 : probes_duration zero_duration clip 0).
  { split; [eexists; reflexivity|]. eexists. repeat split; reflexivity. }
  assert (H2 : (0 == 0)%Q) by reflexivity.
  split; [exact H1|]. split; [exact H2|].
  exact (compress_target_size_zero_duration zero_duration clip 10%Q 10%float
           "out/small.mp4" 128 empty_world 0 H1 H2).
Defined.

(** A bitrate that is not below the floor need not be one to encode at.
    In binary64, when the computed bitrate is not below 100 and has no int
    value (it is the positive infinity or NaN, as for a target size that is
    one), the two-pass encode fails on [int(video_bitrate_kbps)] before it
    starts a process: [compress_target_size] raises the compression-failed
    [ValueError], no encode pass has run and no file is left at the output
    path. *)
Theorem compress_target_size_without_bitrate (tool : Tool) (video_path : VideoPath)
    (target_size_mb : float) (output_path : string) (audio_bitrate_kbps : Z)
    (w : World) (seconds : Q) (audio : float) (e : exn) :
  probes_duration tool video_path seconds ->
  let duration := b64_of_Q seconds in
  PrimFloat.ltb 0 duration = true ->
  b64_of_operand audio_bitrate_kbps = Ok audio ->
  let video_bitrate_kbps := (target_size_mb * 8192 / duration - audio)%float in
  PrimFloat.ltb video_bitrate_kbps 100 = false ->
  b64_to_int video_bitrate_kbps = Raise e ->
  compress_target_size tool video_path target_size_mb output_path audio_bitrate_kbps w =
    (Raise (Exn ValueError "Video compression failed"),
     {| files := delete output_path (files w);
        log := log w ++ [FfmpegVersion; FfprobeDuration (path_str video_path)] |}).
Proof.
  intros Hprobe duration Hd Haudio video_bitrate_kbps Hnot Hint.
  assert (Hrate : float_truediv (float_mul target_size_mb (float_of_int 8192))
                    (float_of_decimal seconds)
                  = Ok (target_size_mb * 8192 / duration)%float).
  { cbn [float_truediv float_mul float_of_int float_of_decimal binary64].
    unfold b64_truediv, PrimFloat.zero. fold duration.
    rewrite (b64_positive_nonzero duration Hd). reflexivity. }
  rewrite (compress_target_size_run tool video_path target_size_mb output_path
             audio_bitrate_kbps w seconds _ audio Hprobe Hrate Haudio).
  cbn [float_sub float_ltb float_of_int binary64].
  change (b64_of_int 100) with 100%float. fold video_bitrate_kbps. cbv zeta.
  rewrite Hnot.
  rewrite (@run_two_pass_encode_no_bitrate float binary64 tool video_path output_path
             video_bitrate_kbps audio_bitrate_kbps (path_join (temp_dir tool) "ffmpeg2pass")
             _ e Hint).
  cbn [negb logged log files]. now rewrite <- app_assoc.
Qed.

(** A target size of infinity: the bitrate is infinite. *)
Lemma compress_target_size_without_bitrate_witness :
  let e := Exn OverflowError "cannot convert float infinity to integer" in
  probes_duration small_copy clip 600 /\
  PrimFloat.ltb 0 (b64_of_Q 600) = true /\
  b64_of_operand 128 = Ok 128%float /\
  PrimFloat.ltb (infinity * 8192 / b64_of_Q 600 - 128) 100 = false /\
  b64_to_int (infinity * 8192 / b64_of_Q 600 - 128) = Raise e /\
  compress_target_size small_copy clip infinity "out/small.mp4" 128 empty_world =
    (Raise (Exn ValueError "Video compression failed"),
     {| files := delete "out/small.mp4" (files empty_world);
        log := log empty_world ++ [FfmpegVersion; FfprobeDuration (path_str clip)] |}).
Proof.
  intros e.
  assert (H1 : probes_duration small_copy clip 600).
  { split; [eexists; reflexivity|]. eexists. repeat split; reflexivity. }
  assert (H2 : PrimFloat.ltb 0 (b64_of_Q 600) = true) by reflexivity.
  assert (H3 : b64_of_operand 128 = Ok 128%float) by reflexivity.
  assert (H4 : PrimFloat.ltb (infinity * 8192 / b64_of_Q 600 - 128) 100 = false)
    by reflexivity.
  assert (H5 : b64_to_int (infinity * 8192 / b64_of_Q 600 - 128) = Raise e) by reflexivity.
  repeat (split; [assumption|]).
  exact (compress_target_size_without_bitrate small_copy clip infinity "out/small.mp4" 128
           empty_world 600 128%float e H1 H2 H3 H4 H5).
Defined.

(** With ffmpeg there, quality compression ends in one of two ways: it
    returns the output path, and the encode exited with status 0 and left a
    file there; or it raises a [ValueError] (never another exception, also
    when the encode timed out or could not be started) and no file is left
    at the output path. *)
Theorem compress_quality_outcomes (tool : Tool) (video_path : VideoPath)
    (quality_preset output_path : string) (audio_bitrate_kbps : Z) (w : World) :
  (exists version, run tool FfmpegVersion = Ok version) ->
  let encode := FfmpegCrf (path_str video_path) output_path
                  (_get_crf_for_preset quality_preset) audio_bitrate_kbps in
  let outcome :=
    compress_quality tool video_path quality_preset output_path audio_bitrate_kbps w in
  (outcome.1 = Ok output_path /\
   (exists result, run tool encode = Ok result /\ returncode result = 0) /\
   is_Some (leaves tool encode) /\
   files outcome.2 !! output_path = leaves tool encode) \/
  ((exists msg, outcome.1 = Raise (Exn ValueError msg)) /\
   files outcome.2 !! output_path = None).
Proof.
  intros (version & Hversion) encode outcome.
  unfold outcome, compress_quality, try_except, subprocess_run, path_exists,
    path_unlink, raise, catch_all, mbind, M_bind, mret, M_ret.
  rewrite check_ffmpeg_installed_run, Hversion. cbn [negb]. fold encode.
  cbn [output_of encode files log logged].
  destruct (run tool encode) as [result|e]; cbn [files log].
  - rewrite lookup_partial_alter_eq.
    destruct (Z.eqb_spec (returncode result) 0) as [Hrc|Hrc]; cbn [negb orb].
    + destruct (leaves tool encode) as [st_size|] eqn:Hl; cbn.
      * left. rewrite lookup_partial_alter_eq. repeat split; eauto.
      * right. split; [eauto|]. apply lookup_delete_eq.
    + right. cbn. split; [eauto|]. apply lookup_delete_eq.
  - right. destruct (catch_kinds [TimeoutExpired] e); cbn;
      (split; [eauto|apply lookup_delete_eq]).
Qed.

Lemma compress_quality_outcomes_witness :
  let encode := FfmpegCrf (path_str clip) "out/small.mp4"
                  (_get_crf_for_preset "high") 128 in
  let outcome := compress_quality encode_times_out clip "high" "out/small.mp4" 128
                   clip_on_disk in
  (exists version, run encode_times_out FfmpegVersion = Ok version) /\
  outcome.1 = Raise (Exn ValueError "Compression timed out (>1 hour)") /\
  ((outcome.1 = Ok "out/small.mp4" /\
    (exists result, run encode_times_out encode = Ok result /\ returncode result = 0) /\
    is_Some (leaves encode_times_out encode) /\
    files outcome.2 !! "out/small.mp4" = leaves encode_times_out encode) \/
   ((exists msg, outcome.1 = Raise (Exn ValueError msg)) /\
    files outcome.2 !! "out/small.mp4" = None)).
Proof.
  intros encode outcome.
  assert (H1 : exists version, run encode_times_out FfmpegVersion = Ok version)
    by (eexists; reflexivity).
  split; [exact H1|]. split; [reflexivity|].
  exact (compress_quality_outcomes encode_times_out clip "high" "out/small.mp4" 128
           clip_on_disk H1).
Defined.

(** ** Quality presets *)

Lemma lower_ascii_idem (c : ascii) : lower_ascii (lower_ascii c) = lower_ascii c.
Proof. destruct c as [[] [] [] [] [] [] [] []]; reflexivity. Qed.

Lemma lower_idem (s : string) : lower (lower s) = lower s.
Proof. induction s as [|c s IH]; [reflexivity|]. cbn. now rewrite lower_ascii_idem, IH. Qed.

Lemma crf_by_cases (preset : string) :
  _get_crf_for_preset preset =
    if decide (lower preset = "low") then 28
    else if decide (lower preset = "high") then 18
    else 23.
Proof.
  unfold _get_crf_for_preset.
  destruct (decide (lower preset = "low")) as [->|Hlow]; [reflexivity|].
  destruct (decide (lower preset = "high")) as [->|Hhigh]; [reflexivity|].
  rewrite lookup_insert_ne by congruence.
  destruct (decide (lower preset = "medium")) as [->|Hmedium]; [reflexivity|].
  rewrite lookup_insert_ne, lookup_singleton_ne by congruence. reflexivity.
Qed.

(** The CRF of a preset depends on its lower-case form only; it is 28
    exactly for [low], 18 exactly for [high] and 23 for everything else
    ([medium] and every unknown name), so it is always one of the three. *)
Theorem get_crf_for_preset_table (preset : string) :
  _get_crf_for_preset preset = _get_crf_for_preset (lower preset) /\
  (_get_crf_for_preset preset = 28 <-> lower preset = "low") /\
  (_get_crf_for_preset preset = 18 <-> lower preset = "high") /\
  (_get_crf_for_preset preset = 23 <-> lower preset <> "low" /\ lower preset <> "high").
Proof.
  rewrite !crf_by_cases, lower_idem.
  destruct (decide (lower preset = "low")) as [Hlow|Hlow];
    [|destruct (decide (lower preset = "high")) as [Hhigh|Hhigh]].
  - intuition congruence.
  - intuition congruence.
  - intuition congruence.
Qed.

Example get_crf_for_preset_upper_case :
  _get_crf_for_preset "LOW" = 28 /\ _get_crf_for_preset "High" = 18 /\
  _get_crf_for_preset "" = 23.
Proof. repeat split. Qed.

(** A preset that passes the checks of the request handler is one of the
    three names up to case, so the CRF that [compress_quality] then uses is
    the table entry of that name, never the fall-back for an unknown name. *)
Theorem compress_video_quality_checks_pass (tool : Tool) (preset : string) (w : World) :
  (compress_video_quality_checks tool preset w).1 = Ok tt ->
  (lower preset = "low" /\ _get_crf_for_preset preset = 28) \/
  (lower preset = "medium" /\ _get_crf_for_preset preset = 23) \/
  (lower preset = "high" /\ _get_crf_for_preset preset = 18).
Proof.
  unfold compress_video_quality_checks, mbind, M_bind.
  rewrite check_ffmpeg_installed_run.
  destruct (match run tool FfmpegVersion with
            | Ok _ => Ok true
            | Raise e =>
                if catch_kinds [FileNotFoundError; TimeoutExpired] e then Ok false else Raise e
            end) as [[|]|e]; cbn [negb]; try discriminate.
  destruct (bool_decide (lower preset ∈ ["low"; "medium"; "high"])) eqn:Hin;
    cbn [negb]; [|discriminate].
  intros _. apply bool_decide_eq_true_1 in Hin.
  rewrite !elem_of_cons in Hin. rewrite crf_by_cases.
  destruct Hin as [H|[H|[H|H]]]; [| | |inversion H]; rewrite H; cbn; auto.
Qed.

Lemma compress_video_quality_checks_pass_witness :
  (compress_video_quality_checks small_copy "High" empty_world).1 = Ok tt /\
  ((lower "High" = "low" /\ _get_crf_for_preset "High" = 28) \/
   (lower "High" = "medium" /\ _get_crf_for_preset "High" = 23) \/
   (lower "High" = "high" /\ _get_crf_for_preset "High" = 18)).
Proof.
  assert (H : (compress_video_quality_checks small_copy "High" empty_world).1 = Ok tt)
    by reflexivity.
  split; [exact H|].
  exact (compress_video_quality_checks_pass small_copy "High" empty_world H).
Defined.

(** ** Duration formatting, off the expected inputs *)



(** ** The first video stream *)

Lemma find_video_stream_skips (before : list ProbeStream) (rest : list ProbeStream) :
  (forall stream, stream ∈ before -> codec_type stream <> Some "video") ->
  find_video_stream (before ++ rest) = find_video_stream rest.
Proof.
  induction before as [|stream before IH]; intros Hnone; [reflexivity|].
  cbn. rewrite bool_decide_eq_false_2 by (apply Hnone; left).
  apply IH. intros s Hs. apply Hnone. now right.
Qed.

(** [get_video_info] describes the first stream whose [codec_type] is
    [video]: streams before it that are not video and every stream after it
    (video or not) have no influence on the descriptor. *)
Theorem get_video_info_uses_first_video_stream (tool : Tool) (video_path : VideoPath)
    (data : ProbeData) (w : World) (duration : Q) (size : Z)
    (before after : list ProbeStream) (video : ProbeStream) :
  reports tool video_path data ->
  duration_of data = Ok duration ->
  size_of data = Ok size ->
  data_streams data = Some (before ++ video :: after) ->
  (forall stream, stream ∈ before -> codec_type stream <> Some "video") ->
  codec_type video = Some "video" ->
  (get_video_info tool video_path w).1 =
    Ok (describe video_path
          {| data_format := data_format data; data_streams := Some [video] |}
          duration size).
Proof.
  intros Hreport Hd Hs Hstreams Hbefore Hvideo.
  rewrite (get_video_info_run tool video_path data w Hreport), Hd, Hs. cbn [fst].
  unfold describe. rewrite Hstreams. cbn [default from_option id data_streams].
  rewrite (find_video_stream_skips before _ Hbefore). cbn [find_video_stream].
  now rewrite bool_decide_eq_true_2 by exact Hvideo.
Qed.

(** ** Descriptor texts read back *)

Lemma digit_of_pretty_N_char (d : N) :
  (d < 10)%N -> digit_of (pretty_N_char d) = Some (Z.of_N d).
Proof.
  intros Hd.
  assert (exists k, (k < 10)%nat /\ d = N.of_nat k) as (k & Hk & ->)
    by (exists (N.to_nat d); lia).
  clear Hd. do 10 (destruct k as [|k]; [reflexivity|]). lia.
Qed.

Lemma read_digits_pretty_N_go (x : N) :
  (0 < x)%N ->
  forall (s : string) (acc : Z) (count : nat),
  exists k : nat,
    (0 < k)%nat /\
    read_digits (pretty_N_go x s) acc count =
      read_digits s (acc * 10 ^ Z.of_nat k + Z.of_N x) (count + k).
Proof.
  induction (N.lt_wf_0 x) as [x _ IH]. intros Hx s acc count.
  rewrite pretty_N_go_step by assumption.
  assert (Hd : (x `mod` 10 < 10)%N) by (apply N.mod_lt; lia).
  assert (Hx10 : x = (10 * (x `div` 10) + x `mod` 10)%N) by (apply N.div_mod; lia).
  destruct (decide (x `div` 10 = 0)%N) as [Hz|Hnz].
  - rewrite Hz, pretty_N_go_0. exists 1%nat. split; [lia|].
    cbn [read_digits]. rewrite (digit_of_pretty_N_char _ Hd).
    f_equal; [|lia]. rewrite Hz in Hx10. change (10 ^ Z.of_nat 1) with 10. lia.
  - destruct (IH (x `div` 10)%N) with (s := String (pretty_N_char (x `mod` 10)) s)
      (acc := acc) (count := count) as (k & Hk & ->).
    { apply N.div_lt; lia. }
    { lia. }
    exists (S k). split; [lia|].
    cbn [read_digits]. rewrite (digit_of_pretty_N_char _ Hd).
    f_equal; [|lia]. rewrite Nat2Z.inj_succ, Z.pow_succ_r by lia. lia.
Qed.

Lemma is_digit_spec (c : ascii) :
  is_digit c = true ->
  is_space c = false /\ c <> "x"%char /\ c <> "+"%char /\ c <> "-"%char.
Proof.
  destruct c as [[] [] [] [] [] [] [] []]; cbn; intros H; try discriminate H;
    repeat split; discriminate.
Qed.

Lemma all_chars_impl (P P' : ascii -> bool) (s : string) :
  (forall c, P c = true -> P' c = true) -> all_chars P s = true -> all_chars P' s = true.
Proof.
  intros Himpl. induction s as [|c s IH]; [reflexivity|]. cbn.
  intros [Hc Hs]%andb_true_iff. now rewrite (Himpl c Hc), IH.
Qed.

Lemma all_chars_app (P : ascii -> bool) (s t : string) :
  all_chars P (s +:+ t) = all_chars P s && all_chars P t.
Proof.
  induction s as [|c s IH]; [reflexivity|].
  change (String c s +:+ t) with (String c (s +:+ t)). cbn. now rewrite IH, andb_assoc.
Qed.

Lemma is_digit_pretty_N_char (d : N) : is_digit (pretty_N_char d) = true.
Proof. destruct d as [|p]; [reflexivity|]. do 4 (destruct p as [p|p|]; try reflexivity). Qed.

Lemma all_digits_pretty_N_go (x : N) :
  forall s, all_chars is_digit s = true -> all_chars is_digit (pretty_N_go x s) = true.
Proof.
  induction (N.lt_wf_0 x) as [x _ IH]. intros s Hs.
  destruct (decide (0 < x)%N) as [Hx|Hx].
  - rewrite pretty_N_go_step by assumption. apply IH.
    + apply N.div_lt; lia.
    + cbn. now rewrite is_digit_pretty_N_char.
  - assert (x = 0%N) as -> by lia. now rewrite pretty_N_go_0.
Qed.

Lemma all_digits_pretty_N (x : N) : all_chars is_digit (pretty x) = true.
Proof.
  unfold pretty, pretty_N. destruct (decide (x = 0%N)); [reflexivity|].
  now apply all_digits_pretty_N_go.
Qed.

Lemma lstrip_no_space (s : string) : all_chars not_space s = true -> lstrip s = s.
Proof.
  destruct s as [|c s]; [reflexivity|]. cbn. intros [Hc _]%andb_true_iff.
  unfold not_space in Hc. apply negb_true_iff in Hc. now rewrite Hc.
Qed.

Lemma rstrip_no_space (s : string) : all_chars not_space s = true -> rstrip s = s.
Proof.
  induction s as [|c s IH]; [reflexivity|]. cbn. intros [Hc Hs]%andb_true_iff.
  rewrite (IH Hs). unfold not_space in Hc. apply negb_true_iff in Hc. rewrite Hc.
  destruct s; reflexivity.
Qed.

Lemma strip_no_space (s : string) : all_chars not_space s = true -> strip s = s.
Proof. intros H. unfold strip. now rewrite lstrip_no_space, rstrip_no_space. Qed.

Lemma digits_no_space (s : string) : all_chars is_digit s = true -> all_chars not_space s = true.
Proof.
  apply all_chars_impl. intros c Hc. apply is_digit_spec in Hc as (Hc & _).
  unfold not_space. now rewrite Hc.
Qed.

Lemma read_sign_digits (s : string) : all_chars is_digit s = true -> read_sign s = (false, s).
Proof.
  destruct s as [|c s]; [reflexivity|]. cbn [all_chars]. intros [Hc _]%andb_true_iff.
  apply is_digit_spec in Hc as (_ & _ & Hplus & Hminus).
  destruct c as [[] [] [] [] [] [] [] []]; try reflexivity; congruence.
Qed.

Lemma read_digits_pretty_N (x : N) :
  exists k : nat, read_digits (pretty x) 0 0 = (Z.of_N x, S k, "").
Proof.
  unfold pretty, pretty_N. destruct (decide (x = 0%N)) as [->|Hx]; [now exists 0%nat|].
  destruct (read_digits_pretty_N_go x ltac:(lia) "" 0 0%nat) as (k & Hk & ->).
  destruct k as [|k]; [lia|]. exists k. cbn. reflexivity.
Qed.

(** Reading back the decimal text of an int gives the int. *)
Lemma py_int_of_str_fmt_d (n : Z) : py_int_of_str (fmt_d n) = Ok n.
Proof.
  unfold py_int_of_str, int_literal, fmt_d.
  destruct n as [|p|p].
  - reflexivity.
  - change (pretty (Zpos p)) with (pretty (Npos p)).
    rewrite strip_no_space by apply digits_no_space, all_digits_pretty_N.
    rewrite read_sign_digits by apply all_digits_pretty_N.
    destruct (read_digits_pretty_N (Npos p)) as (k & ->). reflexivity.
  - change (pretty (Zneg p)) with (String "-" (pretty (Npos p))).
    rewrite strip_no_space.
    + cbn [read_sign]. destruct (read_digits_pretty_N (Npos p)) as (k & ->). reflexivity.
    + cbn. apply digits_no_space, all_digits_pretty_N.
Qed.

Lemma split_on_none (sep : ascii) (s : string) :
  all_chars (is_not sep) s = true -> split_on sep s = [s].
Proof.
  induction s as [|c s IH]; [reflexivity|]. cbn. intros [Hc Hs]%andb_true_iff.
  unfold is_not in Hc. apply negb_true_iff in Hc. rewrite Hc, (IH Hs). reflexivity.
Qed.

Lemma split_on_app (sep : ascii) (s t : string) :
  all_chars (is_not sep) s = true ->
  split_on sep (s +:+ String sep t) = s :: split_on sep t.
Proof.
  induction s as [|c s IH]; intros Hs.
  - change ("" +:+ String sep t) with (String sep t). cbn.
    now rewrite bool_decide_eq_true_2.
  - change (String c s +:+ String sep t) with (String c (s +:+ String sep t)).
    cbn in Hs. apply andb_true_iff in Hs as [Hc Hs].
    unfold is_not in Hc. apply negb_true_iff in Hc.
    cbn. rewrite Hc, (IH Hs). reflexivity.
Qed.

Lemma all_chars_fmt_d (n : Z) : all_chars is_sign_or_digit (fmt_d n) = true.
Proof.
  assert (Hd : forall x : N, all_chars is_sign_or_digit (pretty x) = true).
  { intros x. apply (all_chars_impl is_digit); [|apply all_digits_pretty_N].
    intros c Hc. unfold is_sign_or_digit. now rewrite Hc. }
  unfold fmt_d. destruct n as [|p|p]; [reflexivity|apply (Hd (Npos p))|].
  change (pretty (Zneg p)) with (String "-" (pretty (Npos p))). cbn. apply (Hd (Npos p)).
Qed.

Lemma fmt_d_no_x (n : Z) : all_chars (is_not "x") (fmt_d n) = true.
Proof.
  apply (all_chars_impl is_sign_or_digit); [|apply all_chars_fmt_d].
  intros c. destruct c as [[] [] [] [] [] [] [] []]; cbn; intros H; try discriminate H;
    reflexivity.
Qed.

(** The resolution text of a descriptor splits back into width and height. *)
Lemma split_resolution (width height : Z) :
  split_on "x" (fmt_d width +:+ "x" +:+ fmt_d height) = [fmt_d width; fmt_d height].
Proof.
  change (fmt_d width +:+ "x" +:+ fmt_d height)
    with (fmt_d width +:+ String "x" (fmt_d height)).
  rewrite split_on_app by apply fmt_d_no_x. now rewrite split_on_none by apply fmt_d_no_x.
Qed.

Lemma info_resolution_describe (video_path : VideoPath) (data : ProbeData)
    (duration : Q) (size : Z) (codec : option string) (width height : Z) :
  find_video_stream (default [] (data_streams data)) = (codec, width, height) ->
  info_resolution (describe video_path data duration size) =
    if negb (width =? 0) && negb (height =? 0)
    then fmt_d width +:+ "x" +:+ fmt_d height
    else "unknown".
Proof. intros H. unfold describe. now rewrite H. Qed.

(** The run of the fallback in any arithmetic: resolution mode, no width or
    no height in the report. *)
Lemma estimate_fallback_run {F : Type} `{PyFloat F} `{PyPow F} (tool : Tool)
    (video_path : VideoPath) (data : ProbeData) (w : World) (duration : Q) (size : Z)
    (codec : option string) (width height : Z)
    (target_size_mb : option F) (resolution preset : string) (original r : F) :
  reports tool video_path data ->
  duration_of data = Ok duration ->
  size_of data = Ok size ->
  find_video_stream (default [] (data_streams data)) = (codec, width, height) ->
  width = 0 \/ height = 0 ->
  resolution <> "" -> preset <> "" ->
  int_truediv size (1024 * 1024) = Ok original ->
  float_truediv
    (float_sub original (float_mul original (float_of_decimal (5 # 10)))) original = Ok r ->
  estimate_output_size tool video_path "resolution" target_size_mb (Some preset)
    (Some resolution) w =
    (Ok {| original_size_mb := float_round original 2;
           estimated_size_mb :=
             float_round (float_mul original (float_of_decimal (5 # 10))) 2;
           reduction_percent := float_round (float_mul r (float_of_int 100)) 1 |},
     logged w [FfprobeInfo (path_str video_path)]).
Proof.
  intros Hr Hd Hs Hstream Hzero Hres Hp Horiginal Hreduction.
  unfold estimate_output_size, mbind at 1, M_bind.
  rewrite (get_video_info_run tool video_path data w Hr), Hd, Hs, info_size_describe.
  rewrite (info_resolution_describe _ _ _ _ _ _ _ Hstream).
  assert (Hunknown : negb (width =? 0) && negb (height =? 0) = false).
  { destruct Hzero as [-> | ->]; [reflexivity|apply andb_false_r]. }
  rewrite Hunknown, Horiginal.
  unfold lift, mbind, M_bind, mret, M_ret.
  rewrite (bool_decide_eq_false_2 ("resolution" = "target_size")) by discriminate.
  rewrite (bool_decide_eq_false_2 ("resolution" = "quality")) by discriminate.
  rewrite (bool_decide_eq_true_2 ("resolution" = "resolution")) by reflexivity.
  assert (Ht : forall s : string, s <> "" -> truthy_str (Some s) = true).
  { intros [|c s] Hne; [contradiction|reflexivity]. }
  rewrite (Ht resolution Hres), (Ht preset Hp). cbn [andb].
  change (split_on "x" "unknown") with ["unknown"]. cbv beta iota.
  rewrite Hreduction. reflexivity.
Qed.

(** In resolution mode, when the probe found no video stream, or one
    without width or height, the resolution text is [unknown] and the
    estimate falls back to half the original size, whatever the target
    resolution and the preset.  In exact arithmetic that is a reduction of
    50 percent for every size above 0; in any arithmetic, binary64 among
    them, the estimate is the original size times one half and the reduction
    is computed from it, with the roundings of that arithmetic. *)
Theorem estimate_resolution_of_unknown_resolution {F : Type} `{PyFloat F} `{PyPow F}
    (tool : Tool) (video_path : VideoPath)
    (data : ProbeData) (w : World) (duration : Q) (size : Z)
    (codec : option string) (width height : Z)
    (target_size_mb : option Q) (target_size_mb' : option F) (resolution preset : string) :
  reports tool video_path data ->
  duration_of data = Ok duration ->
  size_of data = Ok size ->
  0 < size ->
  find_video_stream (default [] (data_streams data)) = (codec, width, height) ->
  width = 0 \/ height = 0 ->
  resolution <> "" -> preset <> "" ->
  estimate_output_size tool video_path "resolution" target_size_mb (Some preset)
    (Some resolution) w =
    (Ok {| original_size_mb := py_round (megabytes size) 2;
           estimated_size_mb := py_round (megabytes size * (5 # 10)) 2;
           reduction_percent := py_round 50 1 |},
     logged w [FfprobeInfo (path_str video_path)]) /\
  forall original r : F,
    int_truediv size (1024 * 1024) = Ok original ->
    float_truediv
      (float_sub original (float_mul original (float_of_decimal (5 # 10)))) original
      = Ok r ->
    estimate_output_size tool video_path "resolution" target_size_mb' (Some preset)
      (Some resolution) w =
      (Ok {| original_size_mb := float_round original 2;
             estimated_size_mb :=
               float_round (float_mul original (float_of_decimal (5 # 10))) 2;
             reduction_percent := float_round (float_mul r (float_of_int 100)) 1 |},
       logged w [FfprobeInfo (path_str video_path)]).
Proof.
  intros Hr Hd Hs Hpos Hstream Hzero Hres Hp. split.
  - assert (Hnz : ~ (megabytes size == 0)%Q).
    { intros E. apply Qeq_bool_iff in E. rewrite megabytes_nonzero in E by assumption.
      discriminate E. }
    rewrite (estimate_fallback_run tool video_path data w duration size codec width height
               target_size_mb resolution preset (megabytes size)
               ((megabytes size - megabytes size * (5 # 10)) / megabytes size)%Q
               Hr Hd Hs Hstream Hzero Hres Hp).
    + exact_arith.
      rewrite (py_round_comp
                 ((megabytes size - megabytes size * (5 # 10)) / megabytes size
                  * inject_Z 100) 50 1); [reflexivity|].
      field. exact Hnz.
    + reflexivity.
    + exact_arith. unfold py_truediv. now rewrite (megabytes_nonzero size Hpos).
  - intros original r Horiginal Hreduction.
    exact (estimate_fallback_run tool video_path data w duration size codec width height
             target_size_mb' resolution preset original r
             Hr Hd Hs Hstream Hzero Hres Hp Horiginal Hreduction).
Qed.

(** In quality mode an unknown preset name is not an error: the estimate,
    outcome and effects alike, is the one of [medium], in exact and in
    binary64 arithmetic alike. *)
Theorem estimate_quality_unknown_preset {F : Type} `{PyFloat F} `{PyPow F}
    (tool : Tool) (video_path : VideoPath)
    (target_size_mb : option F) (resolution : option string) (preset : string) (w : World) :
  lower preset ∉ ["low"; "medium"; "high"] ->
  preset <> "" ->
  estimate_output_size tool video_path "quality" target_size_mb (Some preset) resolution w =
  estimate_output_size tool video_path "quality" target_size_mb (Some "medium") resolution w.
Proof.
  intros Hunknown Hne.
  assert (Hratio : compression_ratios !! lower preset = None).
  { rewrite !not_elem_of_cons in Hunknown. destruct Hunknown as (H1 & H2 & H3 & _).
    unfold compression_ratios.
    rewrite !lookup_insert_ne, lookup_singleton_ne by congruence. reflexivity. }
  assert (Ht : truthy_str (Some preset) = true) by (destruct preset; [contradiction|reflexivity]).
  unfold estimate_output_size, lift, mbind, M_bind, mret, M_ret.
  destruct (get_video_info tool video_path w) as [[info|e] w1]; [|reflexivity].
  destruct (int_truediv _ _) as [original|e1]; [|reflexivity].
  rewrite (bool_decide_eq_false_2 ("quality" = "target_size")) by discriminate.
  rewrite (bool_decide_eq_true_2 ("quality" = "quality")) by reflexivity.
  rewrite Ht. cbn [andb default from_option id truthy_str]. rewrite Hratio. reflexivity.
Qed.

Lemma estimate_resolution_of_unknown_resolution_witness :
  reports (encoder no_streams) clip no_streams /\
  duration_of no_streams = Ok (25 # 2)%Q /\
  size_of no_streams = Ok 1000 /\
  0 < 1000 /\
  find_video_stream (default [] (data_streams no_streams)) = (None, 0, 0) /\
  b64_int_truediv 1000 (1024 * 1024) = Ok 0x1.f4p-11%float /\
  b64_truediv (0x1.f4p-11 - 0x1.f4p-11 * b64_of_Q (5 # 10)) 0x1.f4p-11 = Ok 0x1p-1%float /\
  estimate_output_size (encoder no_streams) clip "resolution" None (Some "low")
    (Some "720p") empty_world =
    (Ok {| original_size_mb := py_round (megabytes 1000) 2;
           estimated_size_mb := py_round (megabytes 1000 * (5 # 10)) 2;
           reduction_percent := py_round 50 1 |},
     logged empty_world [FfprobeInfo (path_str clip)]) /\
  @estimate_output_size (encoder no_streams) float binary64 squaring_libm clip "resolution"
    None (Some "low") (Some "720p") empty_world =
    (Ok {| original_size_mb := 0; estimated_size_mb := 0; reduction_percent := 50 |}%float,
     logged empty_world [FfprobeInfo (path_str clip)]).
Proof.
  assert (H1 : reports (encoder no_streams) clip no_streams).
  { eexists. repeat split; reflexivity. }
  assert (H2 : duration_of no_streams = Ok (25 # 2)%Q) by reflexivity.
  assert (H3 : size_of no_streams = Ok 1000) by reflexivity.
  assert (H4 : 0 < 1000) by lia.
  assert (H5 : find_video_stream (default [] (data_streams no_streams)) = (None, 0, 0))
    by reflexivity.
  assert (H6 : b64_int_truediv 1000 (1024 * 1024) = Ok 0x1.f4p-11%float) by reflexivity.
  assert (H7 : b64_truediv (0x1.f4p-11 - 0x1.f4p-11 * b64_of_Q (5 # 10)) 0x1.f4p-11
               = Ok 0x1p-1%float) by reflexivity.
  repeat (split; [assumption|]).
  destruct (@estimate_resolution_of_unknown_resolution float binary64 squaring_libm
              (encoder no_streams) clip no_streams
              empty_world (25 # 2) 1000 None 0 0 None None "720p" "low" H1 H2 H3 H4 H5
              (or_introl eq_refl) ltac:(discriminate) ltac:(discriminate)) as [Hexact Hb64].
  split; [exact Hexact|].
  exact (Hb64 0x1.f4p-11%float 0x1p-1%float H6 H7).
Defined.

Lemma estimate_quality_unknown_preset_witness :
  (lower "ultra" ∉ ["low"; "medium"; "high"]) /\
  "ultra" <> "" /\
  @estimate_output_size (encoder quarter_mb) float binary64 squaring_libm clip "quality"
    None (Some "ultra") None empty_world =
  @estimate_output_size (encoder quarter_mb) float binary64 squaring_libm clip "quality"
    None (Some "medium") None empty_world.
Proof.
  assert (H1 : lower "ultra" ∉ ["low"; "medium"; "high"]).
  { rewrite !not_elem_of_cons. repeat split; try discriminate. apply not_elem_of_nil. }
  assert (H2 : "ultra" <> "") by discriminate.
  split; [exact H1|]. split; [exact H2|].
  exact (@estimate_quality_unknown_preset float binary64 squaring_libm (encoder quarter_mb)
           clip None None "ultra" empty_world H1 H2).
Defined.

(** The resolution text that [get_video_info] writes for a stream with a
    width and a height is read back by [estimate_output_size] without loss:
    split at [x] it has two pieces, and the second reads as the height. *)
Theorem resolution_text_reads_back (video_path : VideoPath) (data : ProbeData)
    (duration : Q) (size : Z) (codec : option string) (width height : Z) :
  find_video_stream (default [] (data_streams data)) = (codec, width, height) ->
  width <> 0 -> height <> 0 ->
  exists res_width res_height,
    split_on "x" (info_resolution (describe video_path data duration size))
      = [res_width; res_height] /\
    py_int_of_str res_width = Ok width /\
    py_int_of_str res_height = Ok height.
Proof.
  intros Hstream Hw Hh. rewrite (info_resolution_describe _ _ _ _ _ _ _ Hstream).
  apply Z.eqb_neq in Hw, Hh. rewrite Hw, Hh. cbn [negb andb].
  rewrite split_resolution. do 2 eexists. split; [reflexivity|].
  split; apply py_int_of_str_fmt_d.
Qed.

Lemma resolution_text_reads_back_witness :
  find_video_stream (default [] (data_streams mixed_streams)) = (Some "h264", 1920, 1080) /\
  1920 <> 0 /\ 1080 <> 0 /\
  info_resolution (describe clip mixed_streams 600 104857600) = "1920x1080" /\
  exists res_width res_height,
    split_on "x" (info_resolution (describe clip mixed_streams 600 104857600))
      = [res_width; res_height] /\
    py_int_of_str res_width = Ok 1920 /\
    py_int_of_str res_height = Ok 1080.
Proof.
  assert (H1 : find_video_stream (default [] (data_streams mixed_streams))
               = (Some "h264", 1920, 1080)) by reflexivity.
  assert (H2 : 1920 <> 0) by lia.
  assert (H3 : 1080 <> 0) by lia.
  repeat (split; [assumption|]). split; [vm_compute; reflexivity|].
  exact (resolution_text_reads_back clip mixed_streams 600 104857600 _ _ _ H1 H2 H3).
Defined.

Lemma get_video_info_uses_first_video_stream_witness :
  reports (encoder mixed_streams) clip mixed_streams /\
  duration_of mixed_streams = Ok 600%Q /\
  size_of mixed_streams = Ok 104857600 /\
  data_streams mixed_streams = Some ([aac_audio] ++ h264_1080p :: [vp9_2160p]) /\
  (forall stream, stream ∈ [aac_audio] -> codec_type stream <> Some "video") /\
  codec_type h264_1080p = Some "video" /\
  (get_video_info (encoder mixed_streams) clip empty_world).1 =
    Ok (describe clip
          {| data_format := data_format mixed_streams; data_streams := Some [h264_1080p] |}
          600 104857600).
Proof.
  assert (H1 : reports (encoder mixed_streams) clip mixed_streams).
  { eexists. repeat split; reflexivity. }
  assert (H2 : duration_of mixed_streams = Ok 600%Q) by reflexivity.
  assert (H3 : size_of mixed_streams = Ok 104857600) by reflexivity.
  assert (H4 : data_streams mixed_streams = Some ([aac_audio] ++ h264_1080p :: [vp9_2160p]))
    by reflexivity.
  assert (H5 : forall stream, stream ∈ [aac_audio] -> codec_type stream <> Some "video").
  { intros stream Hs. apply list_elem_of_singleton in Hs as ->. discriminate. }
  assert (H6 : codec_type h264_1080p = Some "video") by reflexivity.
  repeat (split; [assumption|]).
  exact (get_video_info_uses_first_video_stream (encoder mixed_streams) clip mixed_streams
           empty_world 600 104857600 [aac_audio] [vp9_2160p] h264_1080p H1 H2 H3 H4 H5 H6).
Defined.
